(** * Lantiq / MaxLinear GSWIP switch driver: VLAN slot pool, bridge/VLAN
      translation and forwarding-table scans

    Shallow embedding of [drivers/net/dsa/lantiq_gsw_core.c] (with the
    declarations of [lantiq_gsw.h]).  C integers are [Z] with the
    truncations of their C types written out, C arrays are lists read and
    updated by index, [struct net_device *] is an address in [Z] with
    [NULL = 0], and the driver functions run in a state monad over
    [struct gswip_priv]. *)

From Stdlib Require Import ZArith Lia List Bool String.
From stdpp Require Import base option list gmap.

Local Open Scope Z_scope.

(** ** Integer types, bit helpers, error numbers *)

Definition u8 (x : Z) : Z := Z.land x 255.
Definition u16 (x : Z) : Z := Z.land x 65535.
Definition u32 (x : Z) : Z := Z.land x 4294967295.

Definition BIT (n : Z) : Z := Z.shiftl 1 n.
(* GENMASK(h, l): bits l..h set *)
Definition GENMASK (h l : Z) : Z := Z.shiftl (Z.ones (h - l + 1)) l.

Definition ENOENT : Z := 2.
Definition EIO : Z := 5.
Definition EINVAL : Z := 22.
Definition ENOSPC : Z := 28.
Definition EOPNOTSUPP : Z := 95.
Definition ETIMEDOUT : Z := 110.

(** ** Register offsets and table selectors (lantiq_gsw.h) *)

Definition GSWIP_BM_PCFGp (p : Z) : Z := 128 + p * 2.
Definition GSWIP_BM_PCFG_CNTEN : Z := BIT 0.
Definition GSWIP_PCE_PCTRL_0p (p : Z) : Z := 1152 + p * 10.
Definition GSWIP_PCE_PCTRL_0_TVM : Z := BIT 5.
Definition GSWIP_PCE_VCTRL (p : Z) : Z := 1157 + p * 10.
Definition GSWIP_PCE_VCTRL_UVR : Z := BIT 0.
Definition GSWIP_PCE_VCTRL_VIMR : Z := BIT 3.
Definition GSWIP_PCE_VCTRL_VEMR : Z := BIT 4.
Definition GSWIP_PCE_VCTRL_VSR : Z := BIT 5.
Definition GSWIP_PCE_DEFPVID (p : Z) : Z := 1158 + p * 10.
Definition GSWIP_FDMA_PCTRLp (p : Z) : Z := 2688 + p * 6.
Definition GSWIP_FDMA_PCTRL_EN : Z := BIT 0.
Definition GSWIP_FDMA_PCTRL_VLANMOD_BOTH : Z := Z.shiftl 3 3.
Definition GSWIP_SDMA_PCTRLp (p : Z) : Z := 3008 + p * 6.
Definition GSWIP_SDMA_PCTRL_EN : Z := BIT 0.

Definition GSWIP_TABLE_ACTIVE_VLAN : Z := 1.
Definition GSWIP_TABLE_VLAN_MAPPING : Z := 2.
Definition GSWIP_TABLE_MAC_BRIDGE : Z := 11.
Definition GSWIP_TABLE_MAC_BRIDGE_STATIC : Z := 1.

(** ** Data model *)

Definition NULL : Z := 0.

(* struct gswip_vlan *)
Record gswip_vlan := mk_vlan {
  vlan_bridge : Z;   (* struct net_device *bridge *)
  vlan_vid : Z;      (* u16 *)
  vlan_fid : Z       (* u8 *)
}.

(* struct gsw_hw_info, the two fields the translator reads *)
Record gsw_hw_info := mk_hw_info {
  max_ports : Z;
  cpu_port : Z
}.

(* struct gswip_pce_table_entry *)
Record gswip_pce_table_entry := mk_entry {
  tbl_index : Z;
  tbl_table : Z;
  tbl_key : list Z;    (* u16 key[8] *)
  tbl_val : list Z;    (* u16 val[5] *)
  tbl_mask : Z;
  tbl_gmap : Z;
  tbl_type : bool;
  tbl_valid : bool;
  tbl_key_mode : bool
}.

(* struct gswip_pce_table_entry e = {0,}; *)
Definition entry0 : gswip_pce_table_entry :=
  mk_entry 0 0 (replicate 8 0) (replicate 5 0) 0 0 false false false.

(* e.key[i], e.val[i] and their assignments *)
Definition word_at (l : list Z) (i : nat) : Z := default 0 (l !! i).
Definition with_index (i : Z) (e : gswip_pce_table_entry) :=
  mk_entry (u16 i) (tbl_table e) (tbl_key e) (tbl_val e) (tbl_mask e)
           (tbl_gmap e) (tbl_type e) (tbl_valid e) (tbl_key_mode e).
Definition with_table (t : Z) (e : gswip_pce_table_entry) :=
  mk_entry (tbl_index e) (u16 t) (tbl_key e) (tbl_val e) (tbl_mask e)
           (tbl_gmap e) (tbl_type e) (tbl_valid e) (tbl_key_mode e).
Definition with_key (i : nat) (x : Z) (e : gswip_pce_table_entry) :=
  mk_entry (tbl_index e) (tbl_table e) (<[i := u16 x]> (tbl_key e)) (tbl_val e)
           (tbl_mask e) (tbl_gmap e) (tbl_type e) (tbl_valid e) (tbl_key_mode e).
Definition with_val (i : nat) (x : Z) (e : gswip_pce_table_entry) :=
  mk_entry (tbl_index e) (tbl_table e) (tbl_key e) (<[i := u16 x]> (tbl_val e))
           (tbl_mask e) (tbl_gmap e) (tbl_type e) (tbl_valid e) (tbl_key_mode e).
Definition with_valid (b : bool) (e : gswip_pce_table_entry) :=
  mk_entry (tbl_index e) (tbl_table e) (tbl_key e) (tbl_val e) (tbl_mask e)
           (tbl_gmap e) (tbl_type e) b (tbl_key_mode e).
Definition with_key_mode (b : bool) (e : gswip_pce_table_entry) :=
  mk_entry (tbl_index e) (tbl_table e) (tbl_key e) (tbl_val e) (tbl_mask e)
           (tbl_gmap e) (tbl_type e) (tbl_valid e) b.

(** *** The switch behind the register window

    The driver reaches the switch only through [hw_ops->read], [->write]
    and [->poll_timeout].  The device side is kept to what the translator
    observes:
    - [hw_regs]: the directly addressed core registers (priv->gswip);
    - [hw_mdio]: the registers of the MDIO window (priv->mdio);
    - [hw_bank]: the rows of the indirectly addressed PCE table banks,
      by (table selector, row index); a row never written reads as zero;
    - [hw_polls]: the outcome of each coming busy-poll ([0], or a negative
      errno such as [-ETIMEDOUT]); an exhausted list means the busy bit is
      found clear;
    - [hw_ks]: for a key-search access, the row the table engine selects
      for a key with the bank contents it sees. *)

Record pce_row := mk_row {
  row_key : list Z;
  row_val : list Z;
  row_mask : Z;
  row_gmap : Z;
  row_type : bool;
  row_valid : bool
}.

Definition row0 : pce_row := mk_row (replicate 8 0) (replicate 5 0) 0 0 false false.

Record gswip_hw := mk_hw {
  hw_regs : gmap Z Z;
  hw_mdio : gmap Z Z;
  hw_bank : gmap (Z * Z) pce_row;
  hw_polls : list Z;
  hw_ks : gmap (Z * Z) pce_row -> Z -> list Z -> Z
}.

(* struct gswip_priv: hw_info, vlans[64], port_vlan_filter; [dev] is the
   switch behind priv->gswip and [klog] collects the dev_err() lines. *)
Record gswip_priv := mk_priv {
  hw_info : gsw_hw_info;
  vlans : list gswip_vlan;
  port_vlan_filter : Z;
  dev : gswip_hw;
  klog : list string
}.

Definition set_vlans (vl : list gswip_vlan) (s : gswip_priv) : gswip_priv :=
  mk_priv (hw_info s) vl (port_vlan_filter s) (dev s) (klog s).
Definition set_port_vlan_filter (f : Z) (s : gswip_priv) : gswip_priv :=
  mk_priv (hw_info s) (vlans s) f (dev s) (klog s).
Definition set_dev (h : gswip_hw) (s : gswip_priv) : gswip_priv :=
  mk_priv (hw_info s) (vlans s) (port_vlan_filter s) h (klog s).
Definition set_klog (l : list string) (s : gswip_priv) : gswip_priv :=
  mk_priv (hw_info s) (vlans s) (port_vlan_filter s) (dev s) l.

(* ARRAY_SIZE(priv->vlans) *)
Definition VLANS_SIZE : Z := 64.

Definition vlan0 : gswip_vlan := mk_vlan NULL 0 0.

(* priv->vlans[i] *)
Definition vlans_at (vl : list gswip_vlan) (i : Z) : gswip_vlan :=
  default vlan0 (vl !! Z.to_nat i).

(* The DSA core's view of the ports: dsa_to_port(ds, port)->type,
   dsa_to_port(ds, port)->bridge_dev and br_vlan_enabled(bridge). *)
Inductive dsa_port_type :=
  DSA_PORT_TYPE_UNUSED | DSA_PORT_TYPE_CPU | DSA_PORT_TYPE_DSA | DSA_PORT_TYPE_USER.

Record dsa_switch := mk_ds {
  port_type : Z -> dsa_port_type;
  bridge_dev : Z -> Z;
  br_vlan_enabled : Z -> bool
}.

Definition dsa_is_cpu_port (ds : dsa_switch) (p : Z) : bool :=
  match port_type ds p with DSA_PORT_TYPE_CPU => true | _ => false end.
Definition dsa_is_user_port (ds : dsa_switch) (p : Z) : bool :=
  match port_type ds p with DSA_PORT_TYPE_USER => true | _ => false end.

(** ** The driver monad *)

Definition M (A : Type) : Type := gswip_priv -> A * gswip_priv.

Definition ret {A} (a : A) : M A := fun s => (a, s).
Definition bind {A B} (m : M A) (k : A -> M B) : M B :=
  fun s => let (a, s') := m s in k a s'.
Definition get : M gswip_priv := fun s => (s, s).
Definition modify (f : gswip_priv -> gswip_priv) : M unit := fun s => (tt, f s).

Notation "x <- c1 ;; c2" := (bind c1 (fun x => c2))
  (at level 100, c1 at next level, right associativity).
Notation "c1 ;;; c2" := (bind c1 (fun _ => c2))
  (at level 100, right associativity).

(* dev_err(priv->dev, fmt, ...): the format string is recorded, the
   formatted arguments are not. *)
Definition dev_err (msg : string) : M unit :=
  modify (fun s => set_klog (klog s ++ [msg]) s).

(** ** Register access (gswip_switch_r / _w / _mask / _r_timeout) *)

Definition gswip_switch_r (offset : Z) : M Z :=
  fun s => (default 0 (hw_regs (dev s) !! offset), s).

Definition gswip_switch_w (val offset : Z) : M unit :=
  modify (fun s =>
    let h := dev s in
    set_dev (mk_hw (<[offset := u32 val]> (hw_regs h)) (hw_mdio h) (hw_bank h)
                   (hw_polls h) (hw_ks h)) s).

Definition gswip_switch_mask (clear set offset : Z) : M unit :=
  val <- gswip_switch_r offset ;;
  gswip_switch_w (Z.lor (Z.land val (Z.lnot clear)) set) offset.

(* hw_ops->poll_timeout(..., 20, 50000): 0 once the bits are clear, else
   the errno of the time-out. *)
Definition gswip_switch_r_timeout : M Z :=
  fun s =>
    let h := dev s in
    (hd 0 (hw_polls h),
     set_dev (mk_hw (hw_regs h) (hw_mdio h) (hw_bank h) (tl (hw_polls h)) (hw_ks h)) s).

(** ** Table transport (gswip_pce_table_entry_read / _write)

    One transaction is: wait for the engine to be idle, program index,
    selector, operation mode and (for a write) the key, value, mask and
    control words and set the start bit, then wait for completion.  The
    register sequence between the two polls is represented by what it
    makes the table engine do: transfer the addressed row.  The row is
    the one at [tbl->index] in address mode and the one the engine's key
    search selects in key mode.  [pce_table_lock] serialises the
    transactions; the embedding is sequential. *)

Definition bank_row (h : gswip_hw) (t i : Z) : pce_row :=
  default row0 (hw_bank h !! (t, i)).

Definition pce_addr (h : gswip_hw) (tbl : gswip_pce_table_entry) : Z :=
  if tbl_key_mode tbl then hw_ks h (hw_bank h) (tbl_table tbl) (tbl_key tbl)
  else tbl_index tbl.

Definition row_of_entry (tbl : gswip_pce_table_entry) : pce_row :=
  mk_row (tbl_key tbl) (tbl_val tbl) (tbl_mask tbl)
         (Z.land (tbl_gmap tbl) 15) (tbl_type tbl) (tbl_valid tbl).

Definition load_row (r : pce_row) (tbl : gswip_pce_table_entry) : gswip_pce_table_entry :=
  mk_entry (tbl_index tbl) (tbl_table tbl)
           (map u16 (row_key r)) (map u16 (row_val r)) (u16 (row_mask r))
           (Z.land (row_gmap r) 15) (row_type r) (row_valid r) (tbl_key_mode tbl).

Definition pce_commit (tbl : gswip_pce_table_entry) : M unit :=
  modify (fun s =>
    let h := dev s in
    set_dev (mk_hw (hw_regs h) (hw_mdio h)
                   (<[(tbl_table tbl, pce_addr h tbl) := row_of_entry tbl]> (hw_bank h))
                   (hw_polls h) (hw_ks h)) s).

Definition gswip_pce_table_entry_read (tbl : gswip_pce_table_entry)
  : M (Z * gswip_pce_table_entry) :=
  err <- gswip_switch_r_timeout ;;
  if negb (err =? 0) then ret (err, tbl) else
  err <- gswip_switch_r_timeout ;;
  if negb (err =? 0) then ret (err, tbl) else
  s <- get ;;
  ret (0, load_row (bank_row (dev s) (tbl_table tbl) (pce_addr (dev s) tbl)) tbl).

Definition gswip_pce_table_entry_write (tbl : gswip_pce_table_entry) : M Z :=
  err <- gswip_switch_r_timeout ;;
  if negb (err =? 0) then ret err else
  pce_commit tbl ;;;
  gswip_switch_r_timeout.

Definition gswip_slave_mdio_r (offset : Z) : M Z :=
  fun s => (default 0 (hw_mdio (dev s) !! offset), s).

Definition gswip_slave_mdio_w (val offset : Z) : M unit :=
  modify (fun s =>
    let h := dev s in
    set_dev (mk_hw (hw_regs h) (<[offset := u32 val]> (hw_mdio h)) (hw_bank h)
                   (hw_polls h) (hw_ks h)) s).

Definition gswip_slave_mdio_mask (clear set offset : Z) : M unit :=
  val <- gswip_slave_mdio_r offset ;;
  gswip_slave_mdio_w (Z.lor (Z.land val (Z.lnot clear)) set) offset.

Definition GSWIP_MDIO_PHYp (p : Z) : Z := 21 - p.
Definition GSWIP_MDIO_PHY_ADDR_MASK : Z := 31.

(** ** Single-port bridges and port enable *)

Definition gswip_add_single_port_br (port : Z) (add : bool) : M Z :=
  s <- get ;;
  let cpu_port := cpu_port (hw_info s) in
  let max_ports := max_ports (hw_info s) in
  (* int port against unsigned int max_ports: an unsigned comparison *)
  if u32 port >=? max_ports then
    dev_err "single port for %i supported" ;;; ret (- EIO)
  else
  let vlan_active :=
    with_valid add
      (with_val 0 (port + 1)
        (with_key 0 0
          (with_table GSWIP_TABLE_ACTIVE_VLAN (with_index (port + 1) entry0)))) in
  err <- gswip_pce_table_entry_write vlan_active ;;
  if negb (err =? 0) then
    dev_err "failed to write active VLAN: %d" ;;; ret err
  else
  if negb add then ret 0 else
  let vlan_mapping :=
    with_val 2 0
      (with_val 1 (Z.lor (BIT port) (BIT cpu_port))
        (with_val 0 0
          (with_table GSWIP_TABLE_VLAN_MAPPING (with_index (port + 1) entry0)))) in
  err <- gswip_pce_table_entry_write vlan_mapping ;;
  if negb (err =? 0) then
    dev_err "failed to write VLAN mapping: %d" ;;; ret err
  else ret 0.

(* [phydev] is [None] for a NULL phy_device, else phydev->mdio.addr. *)
Definition gswip_port_enable (ds : dsa_switch) (port : Z) (phydev : option Z) : M Z :=
  if negb (dsa_is_user_port ds port) && negb (dsa_is_cpu_port ds port) then ret 0 else
  err <- (if negb (dsa_is_cpu_port ds port)
          then gswip_add_single_port_br port true else ret 0) ;;
  if negb (err =? 0) then ret err else
  (* RMON Counter Enable for port *)
  gswip_switch_w GSWIP_BM_PCFG_CNTEN (GSWIP_BM_PCFGp port) ;;;
  (* enable port fetch/store dma & VLAN Modification *)
  gswip_switch_mask 0 (Z.lor GSWIP_FDMA_PCTRL_EN GSWIP_FDMA_PCTRL_VLANMOD_BOTH)
                    (GSWIP_FDMA_PCTRLp port) ;;;
  gswip_switch_mask 0 GSWIP_SDMA_PCTRL_EN (GSWIP_SDMA_PCTRLp port) ;;;
  (if negb (dsa_is_cpu_port ds port) then
     let mdio_phy :=
       match phydev with
       | Some addr => Z.land addr GSWIP_MDIO_PHY_ADDR_MASK
       | None => 0
       end in
     gswip_slave_mdio_mask GSWIP_MDIO_PHY_ADDR_MASK mdio_phy (GSWIP_MDIO_PHYp port)
   else ret tt) ;;;
  ret 0.

(** ** VLAN filtering *)

(* !!(priv->port_vlan_filter & BIT(port)) *)
Definition port_filter_bit (s : gswip_priv) (port : Z) : bool :=
  negb (Z.land (port_vlan_filter s) (BIT port) =? 0).

(* NL_SET_ERR_MSG_MOD() fills the caller's extack and has no effect on
   priv or on the switch; it is not recorded. *)
Definition gswip_port_vlan_filtering (ds : dsa_switch) (port : Z)
    (vlan_filtering : bool) : M Z :=
  let bridge := bridge_dev ds port in
  s <- get ;;
  (* Do not allow changing the VLAN filtering options while in bridge *)
  if negb (bridge =? NULL) && negb (eqb (port_filter_bit s port) vlan_filtering)
  then ret (- EIO)
  else
  (if vlan_filtering then
     gswip_switch_mask GSWIP_PCE_VCTRL_VSR
       (Z.lor (Z.lor GSWIP_PCE_VCTRL_UVR GSWIP_PCE_VCTRL_VIMR) GSWIP_PCE_VCTRL_VEMR)
       (GSWIP_PCE_VCTRL port) ;;;
     gswip_switch_mask GSWIP_PCE_PCTRL_0_TVM 0 (GSWIP_PCE_PCTRL_0p port)
   else
     gswip_switch_mask
       (Z.lor (Z.lor GSWIP_PCE_VCTRL_UVR GSWIP_PCE_VCTRL_VIMR) GSWIP_PCE_VCTRL_VEMR)
       GSWIP_PCE_VCTRL_VSR (GSWIP_PCE_VCTRL port) ;;;
     gswip_switch_mask 0 GSWIP_PCE_PCTRL_0_TVM (GSWIP_PCE_PCTRL_0p port)) ;;;
  ret 0.

(** ** Slot pool *)

(* for (i = start; i < ARRAY_SIZE(priv->vlans); i++)
     if (test(priv->vlans[i])) { idx = i; break; }
   with idx = -1 before the loop; [n] is the number of indices left. *)
Fixpoint scan_slots (test : gswip_vlan -> bool) (vl : list gswip_vlan)
    (n : nat) (i : Z) : Z :=
  match n with
  | O => -1
  | S n' => if test (vlans_at vl i) then i else scan_slots test vl n' (i + 1)
  end.

Definition find_slot (test : gswip_vlan -> bool) (s : gswip_priv) : Z :=
  scan_slots test (vlans s)
             (Z.to_nat (VLANS_SIZE - max_ports (hw_info s))) (max_ports (hw_info s)).

(* !priv->vlans[i].bridge *)
Definition slot_free (v : gswip_vlan) : bool := vlan_bridge v =? NULL.

(* priv->vlans[idx] = { bridge, vid, fid } *)
Definition bind_slot (idx bridge vid fid : Z) : M unit :=
  modify (fun s =>
    set_vlans (<[Z.to_nat idx := mk_vlan bridge (u16 vid) (u8 fid)]> (vlans s)) s).

(* priv->vlans[idx].bridge = NULL *)
Definition clear_slot (idx : Z) : M unit :=
  modify (fun s =>
    let v := vlans_at (vlans s) idx in
    set_vlans (<[Z.to_nat idx := mk_vlan NULL (vlan_vid v) (vlan_fid v)]> (vlans s)) s).

Definition gswip_vlan_active_create (bridge fid vid : Z) : M Z :=
  s <- get ;;
  (* Look for a free slot *)
  let idx := find_slot slot_free s in
  if idx =? -1 then ret (- ENOSPC) else
  let fid := if fid =? -1 then idx else fid in
  let vlan_active :=
    with_valid true
      (with_val 0 fid
        (with_key 0 vid
          (with_table GSWIP_TABLE_ACTIVE_VLAN (with_index idx entry0)))) in
  err <- gswip_pce_table_entry_write vlan_active ;;
  if negb (err =? 0) then
    dev_err "failed to write active VLAN: %d" ;;; ret err
  else
  bind_slot idx bridge vid fid ;;;
  ret idx.

Definition gswip_vlan_active_remove (idx : Z) : M Z :=
  let vlan_active :=
    with_valid false
      (with_table GSWIP_TABLE_ACTIVE_VLAN (with_index idx entry0)) in
  err <- gswip_pce_table_entry_write vlan_active ;;
  (if negb (err =? 0) then dev_err "failed to delete active VLAN: %d" else ret tt) ;;;
  clear_slot idx ;;;
  ret err.

(** ** Bridge/VLAN translator *)

(* The updates each translator function applies to the VLAN-mapping entry
   it is about to write; val[1] is the port map and val[2] the tagged
   port map.

   gswip_vlan_add_unaware:
     vlan_mapping.val[1] |= BIT(cpu_port);
     vlan_mapping.val[1] |= BIT(port); *)
Definition unaware_mapping (vlan_mapping : gswip_pce_table_entry) (cpu_port port : Z)
  : gswip_pce_table_entry :=
  let m := with_val 1 (Z.lor (word_at (tbl_val vlan_mapping) 1) (BIT cpu_port))
                    vlan_mapping in
  with_val 1 (Z.lor (word_at (tbl_val m) 1) (BIT port)) m.

(* gswip_vlan_add_aware:
     vlan_mapping.val[0] = vid;
     vlan_mapping.val[1] |= BIT(cpu_port);
     vlan_mapping.val[2] |= BIT(cpu_port);
     vlan_mapping.val[1] |= BIT(port);
     if (untagged) vlan_mapping.val[2] &= ~BIT(port);
     else vlan_mapping.val[2] |= BIT(port); *)
Definition aware_mapping (vlan_mapping : gswip_pce_table_entry) (vid cpu_port port : Z)
    (untagged : bool) : gswip_pce_table_entry :=
  let m := with_val 0 vid vlan_mapping in
  let m := with_val 1 (Z.lor (word_at (tbl_val m) 1) (BIT cpu_port)) m in
  let m := with_val 2 (Z.lor (word_at (tbl_val m) 2) (BIT cpu_port)) m in
  let m := with_val 1 (Z.lor (word_at (tbl_val m) 1) (BIT port)) m in
  if untagged
  then with_val 2 (Z.land (word_at (tbl_val m) 2) (Z.lnot (BIT port))) m
  else with_val 2 (Z.lor (word_at (tbl_val m) 2) (BIT port)) m.

(* gswip_vlan_remove:
     vlan_mapping.val[1] &= ~BIT(port);
     vlan_mapping.val[2] &= ~BIT(port); *)
Definition remove_mapping (vlan_mapping : gswip_pce_table_entry) (port : Z)
  : gswip_pce_table_entry :=
  let m := with_val 1 (Z.land (word_at (tbl_val vlan_mapping) 1) (Z.lnot (BIT port)))
                    vlan_mapping in
  with_val 2 (Z.land (word_at (tbl_val m) 2) (Z.lnot (BIT port))) m.

Definition gswip_vlan_add_unaware (bridge port : Z) : M Z :=
  s <- get ;;
  let cpu_port := cpu_port (hw_info s) in
  (* Check if there is already a page for this bridge *)
  let idx := find_slot (fun v => vlan_bridge v =? bridge) s in
  r <- (if idx =? -1 then
          idx <- gswip_vlan_active_create bridge (-1) 0 ;;
          if idx <? 0 then ret (idx, idx, true, entry0) else
          ret (0, idx, true,
               with_val 0 0
                 (with_table GSWIP_TABLE_VLAN_MAPPING (with_index idx entry0)))
        else
          (* Read the existing VLAN mapping entry from the switch *)
          r <- gswip_pce_table_entry_read
                 (with_table GSWIP_TABLE_VLAN_MAPPING (with_index idx entry0)) ;;
          let '(err, vlan_mapping) := r in
          if negb (err =? 0) then
            dev_err "failed to read VLAN mapping: %d" ;;;
            ret (err, idx, false, vlan_mapping)
          else ret (0, idx, false, vlan_mapping)) ;;
  let '(err, idx, active_vlan_created, vlan_mapping) := r in
  if negb (err =? 0) then ret err else
  (* Update the VLAN mapping entry and write it to the switch *)
  let vlan_mapping := unaware_mapping vlan_mapping cpu_port port in
  err <- gswip_pce_table_entry_write vlan_mapping ;;
  if negb (err =? 0) then
    dev_err "failed to write VLAN mapping: %d" ;;;
    (* In case an Active VLAN was creaetd delete it again *)
    (if active_vlan_created : bool
     then gswip_vlan_active_remove idx ;;; ret tt else ret tt) ;;;
    ret err
  else
  gswip_switch_w 0 (GSWIP_PCE_DEFPVID port) ;;;
  ret 0.

(* The first loop of gswip_vlan_add_aware: it carries the flow id of the
   last slot of the bridge it has seen and stops at the slot of [vid]. *)
Fixpoint aware_scan (bridge vid : Z) (n : nat) (i : Z) (fid : Z) : M (Z * Z) :=
  match n with
  | O => ret (-1, fid)
  | S n' =>
      s <- get ;;
      let v := vlans_at (vlans s) i in
      if vlan_bridge v =? bridge then
        (if negb (fid =? -1) && negb (fid =? vlan_fid v)
         then dev_err "one bridge with multiple flow ids" else ret tt) ;;;
        let fid := vlan_fid v in
        if vlan_vid v =? vid then ret (i, fid)
        else aware_scan bridge vid n' (i + 1) fid
      else aware_scan bridge vid n' (i + 1) fid
  end.

Definition gswip_vlan_add_aware (bridge port vid : Z) (untagged pvid : bool) : M Z :=
  s <- get ;;
  let cpu_port := cpu_port (hw_info s) in
  let max_ports := max_ports (hw_info s) in
  (* Check if there is already a page for this bridge *)
  r <- aware_scan bridge vid (Z.to_nat (VLANS_SIZE - max_ports)) max_ports (-1) ;;
  let '(idx, fid) := r in
  r <- (if idx =? -1 then
          idx <- gswip_vlan_active_create bridge fid vid ;;
          if idx <? 0 then ret (idx, idx, true, entry0) else
          ret (0, idx, true,
               with_val 0 vid
                 (with_table GSWIP_TABLE_VLAN_MAPPING (with_index idx entry0)))
        else
          (* Read the existing VLAN mapping entry from the switch *)
          r <- gswip_pce_table_entry_read
                 (with_table GSWIP_TABLE_VLAN_MAPPING (with_index idx entry0)) ;;
          let '(err, vlan_mapping) := r in
          if negb (err =? 0) then
            dev_err "failed to read VLAN mapping: %d" ;;;
            ret (err, idx, false, vlan_mapping)
          else ret (0, idx, false, vlan_mapping)) ;;
  let '(err, idx, active_vlan_created, vlan_mapping) := r in
  if negb (err =? 0) then ret err else
  (* Update the VLAN mapping entry and write it to the switch *)
  let vlan_mapping := aware_mapping vlan_mapping vid cpu_port port untagged in
  err <- gswip_pce_table_entry_write vlan_mapping ;;
  if negb (err =? 0) then
    dev_err "failed to write VLAN mapping: %d" ;;;
    (* In case an Active VLAN was creaetd delete it again *)
    (if active_vlan_created : bool
     then gswip_vlan_active_remove idx ;;; ret tt else ret tt) ;;;
    ret err
  else
  (if pvid then gswip_switch_w idx (GSWIP_PCE_DEFPVID port) else ret tt) ;;;
  ret 0.

Definition gswip_vlan_remove (bridge port vid : Z) (pvid vlan_aware : bool) : M Z :=
  s <- get ;;
  let cpu_port := cpu_port (hw_info s) in
  (* Check if there is already a page for this bridge *)
  let idx :=
    find_slot (fun v => (vlan_bridge v =? bridge) &&
                        (negb vlan_aware || (vlan_vid v =? vid))) s in
  if idx =? -1 then
    dev_err "bridge to leave does not exists" ;;; ret (- ENOENT)
  else
  r <- gswip_pce_table_entry_read
         (with_table GSWIP_TABLE_VLAN_MAPPING (with_index idx entry0)) ;;
  let '(err, vlan_mapping) := r in
  if negb (err =? 0) then
    dev_err "failed to read VLAN mapping: %d" ;;; ret err
  else
  let vlan_mapping := remove_mapping vlan_mapping port in
  err <- gswip_pce_table_entry_write vlan_mapping ;;
  if negb (err =? 0) then
    dev_err "failed to write VLAN mapping: %d" ;;; ret err
  else
  (* In case all ports are removed from the bridge, remove the VLAN *)
  err <- (if Z.land (word_at (tbl_val vlan_mapping) 1) (Z.lnot (BIT cpu_port)) =? 0
          then
            err <- gswip_vlan_active_remove idx ;;
            if negb (err =? 0) then
              dev_err "failed to write active VLAN: %d" ;;; ret err
            else ret 0
          else ret 0) ;;
  if negb (err =? 0) then ret err else
  (* GSWIP 2.2 (GRX300) and later program here the VID directly. *)
  (if pvid then gswip_switch_w 0 (GSWIP_PCE_DEFPVID port) else ret tt) ;;;
  ret 0.

Definition gswip_port_bridge_join (ds : dsa_switch) (port bridge : Z) : M Z :=
  (* When the bridge uses VLAN filtering we have to configure VLAN
     specific bridges. No bridge is configured here. *)
  err <- (if negb (br_vlan_enabled ds bridge) then
            err <- gswip_vlan_add_unaware bridge port ;;
            if negb (err =? 0) then ret err else
            modify (fun s =>
              set_port_vlan_filter
                (u32 (Z.land (port_vlan_filter s) (Z.lnot (BIT port)))) s) ;;;
            ret 0
          else
            modify (fun s =>
              set_port_vlan_filter (u32 (Z.lor (port_vlan_filter s) (BIT port))) s) ;;;
            ret 0) ;;
  if negb (err =? 0) then ret err else
  gswip_add_single_port_br port false.

Definition gswip_port_bridge_leave (ds : dsa_switch) (port bridge : Z) : M unit :=
  gswip_add_single_port_br port true ;;;
  if negb (br_vlan_enabled ds bridge)
  then gswip_vlan_remove bridge port 0 true false ;;; ret tt
  else ret tt.

(* const struct switchdev_obj_port_vlan: vid and the two flags read *)
Record switchdev_obj_port_vlan := mk_obj_vlan {
  obj_vid : Z;
  obj_untagged : bool;   (* flags & BRIDGE_VLAN_INFO_UNTAGGED *)
  obj_pvid : bool        (* flags & BRIDGE_VLAN_INFO_PVID *)
}.

Definition gswip_port_vlan_prepare (ds : dsa_switch) (port : Z)
    (vlan : switchdev_obj_port_vlan) : M Z :=
  let bridge := bridge_dev ds port in
  s <- get ;;
  (* We only support VLAN filtering on bridges *)
  if negb (dsa_is_cpu_port ds port) && (bridge =? NULL) then ret (- EOPNOTSUPP) else
  (* Check if there is already a page for this VLAN *)
  let idx :=
    find_slot (fun v => (vlan_bridge v =? bridge) && (vlan_vid v =? obj_vid vlan)) s in
  if idx =? -1 then
    (* Look for a free slot *)
    let idx := find_slot slot_free s in
    if idx =? -1 then ret (- ENOSPC) else ret 0
  else ret 0.

Definition gswip_port_vlan_add (ds : dsa_switch) (port : Z)
    (vlan : switchdev_obj_port_vlan) : M Z :=
  let bridge := bridge_dev ds port in
  err <- gswip_port_vlan_prepare ds port vlan ;;
  if negb (err =? 0) then ret err else
  (* We have to receive all packets on the CPU port and should not
     do any VLAN filtering here. *)
  if dsa_is_cpu_port ds port then ret 0 else
  gswip_vlan_add_aware bridge port (obj_vid vlan) (obj_untagged vlan) (obj_pvid vlan).

Definition gswip_port_vlan_del (ds : dsa_switch) (port : Z)
    (vlan : switchdev_obj_port_vlan) : M Z :=
  let bridge := bridge_dev ds port in
  if dsa_is_cpu_port ds port then ret 0 else
  gswip_vlan_remove bridge port (obj_vid vlan) (obj_pvid vlan) true.

(** ** Forwarding table *)

(* val[1] & GSWIP_TABLE_MAC_BRIDGE_STATIC *)
Definition mac_static (e : gswip_pce_table_entry) : bool :=
  negb (Z.land (word_at (tbl_val e) 1) GSWIP_TABLE_MAC_BRIDGE_STATIC =? 0).

(* (val[0] & GENMASK(7, 4)) >> 4 *)
Definition mac_port_field (e : gswip_pce_table_entry) : Z :=
  Z.shiftr (Z.land (word_at (tbl_val e) 0) (GENMASK 7 4)) 4.

(* The body of the loop of gswip_port_fast_age for i, i+1, ...; the
   entry struct is reused from one round to the next. *)
Fixpoint fast_age_loop (port : Z) (n : nat) (i : Z)
    (mac_bridge : gswip_pce_table_entry) : M unit :=
  match n with
  | O => ret tt
  | S n' =>
      let mac_bridge :=
        with_index i (with_table GSWIP_TABLE_MAC_BRIDGE mac_bridge) in
      r <- gswip_pce_table_entry_read mac_bridge ;;
      let '(err, mac_bridge) := r in
      if negb (err =? 0) then dev_err "failed to read mac bridge: %d" else
      if negb (tbl_valid mac_bridge) then fast_age_loop port n' (i + 1) mac_bridge else
      if mac_static mac_bridge then fast_age_loop port n' (i + 1) mac_bridge else
      if negb (mac_port_field mac_bridge =? port)
      then fast_age_loop port n' (i + 1) mac_bridge else
      let mac_bridge := with_valid false mac_bridge in
      err <- gswip_pce_table_entry_write mac_bridge ;;
      if negb (err =? 0) then dev_err "failed to write mac bridge: %d" else
      fast_age_loop port n' (i + 1) mac_bridge
  end.

Definition gswip_port_fast_age (ds : dsa_switch) (port : Z) : M unit :=
  fast_age_loop port 2048 0 entry0.

(* addr[i] of a const unsigned char * *)
Definition byte_at (addr : list Z) (i : nat) : Z := default 0 (addr !! i).

Definition gswip_port_fdb (ds : dsa_switch) (port : Z) (addr : list Z)
    (vid : Z) (add : bool) : M Z :=
  let bridge := bridge_dev ds port in
  s <- get ;;
  if bridge =? NULL then ret (- EINVAL) else
  let i := find_slot (fun v => vlan_bridge v =? bridge) s in
  let fid := if i =? -1 then -1 else vlan_fid (vlans_at (vlans s) i) in
  if fid =? -1 then
    dev_err "Port not part of a bridge" ;;; ret (- EINVAL)
  else
  let mac_bridge :=
    with_valid add
      (with_val 1 GSWIP_TABLE_MAC_BRIDGE_STATIC
        (with_val 0 (if add then BIT port else 0) (* port map *)
          (with_key 3 fid
            (with_key 2 (Z.lor (byte_at addr 1) (Z.shiftl (byte_at addr 0) 8))
              (with_key 1 (Z.lor (byte_at addr 3) (Z.shiftl (byte_at addr 2) 8))
                (with_key 0 (Z.lor (byte_at addr 5) (Z.shiftl (byte_at addr 4) 8))
                  (with_key_mode true
                    (with_table GSWIP_TABLE_MAC_BRIDGE entry0)))))))) in
  err <- gswip_pce_table_entry_write mac_bridge ;;
  (if negb (err =? 0) then dev_err "failed to write mac bridge: %d" else ret tt) ;;;
  ret err.

Definition gswip_port_fdb_add (ds : dsa_switch) (port : Z) (addr : list Z) (vid : Z)
  : M Z := gswip_port_fdb ds port addr vid true.

Definition gswip_port_fdb_del (ds : dsa_switch) (port : Z) (addr : list Z) (vid : Z)
  : M Z := gswip_port_fdb ds port addr vid false.

(* unsigned char addr[6] as gswip_port_fdb_dump fills it from the key *)
Definition fdb_addr (e : gswip_pce_table_entry) : list Z :=
  [ Z.land (Z.shiftr (word_at (tbl_key e) 2) 8) 255;
    Z.land (word_at (tbl_key e) 2) 255;
    Z.land (Z.shiftr (word_at (tbl_key e) 1) 8) 255;
    Z.land (word_at (tbl_key e) 1) 255;
    Z.land (Z.shiftr (word_at (tbl_key e) 0) 8) 255;
    Z.land (word_at (tbl_key e) 0) 255 ].

Section Dump.
(* dsa_fdb_dump_cb_t *cb and its void *data *)
Context {D : Type}.
Variable cb : list Z -> Z -> bool -> D -> Z * D.

Fixpoint fdb_dump_loop (port : Z) (n : nat) (i : Z)
    (mac_bridge : gswip_pce_table_entry) (data : D) : M (Z * D) :=
  match n with
  | O => ret (0, data)
  | S n' =>
      let mac_bridge :=
        with_index i (with_table GSWIP_TABLE_MAC_BRIDGE mac_bridge) in
      r <- gswip_pce_table_entry_read mac_bridge ;;
      let '(err, mac_bridge) := r in
      if negb (err =? 0) then
        dev_err "failed to read mac bridge entry%d: %d" ;;; ret (err, data)
      else
      if negb (tbl_valid mac_bridge)
      then fdb_dump_loop port n' (i + 1) mac_bridge data else
      let addr := fdb_addr mac_bridge in
      if mac_static mac_bridge then
        if negb (Z.land (word_at (tbl_val mac_bridge) 0) (BIT port) =? 0) then
          let '(err, data) := cb addr 0 true data in
          if negb (err =? 0) then ret (err, data)
          else fdb_dump_loop port n' (i + 1) mac_bridge data
        else fdb_dump_loop port n' (i + 1) mac_bridge data
      else
        if mac_port_field mac_bridge =? port then
          let '(err, data) := cb addr 0 false data in
          if negb (err =? 0) then ret (err, data)
          else fdb_dump_loop port n' (i + 1) mac_bridge data
        else fdb_dump_loop port n' (i + 1) mac_bridge data
  end.

Definition gswip_port_fdb_dump (ds : dsa_switch) (port : Z) (data : D) : M (Z * D) :=
  fdb_dump_loop port 2048 0 entry0 data.
End Dump.

(** ** Port disable and STP state *)

Definition GSWIP_PCE_PCTRL_0_PSTATE_LISTEN : Z := 0.
Definition GSWIP_PCE_PCTRL_0_PSTATE_LEARNING : Z := 3.
Definition GSWIP_PCE_PCTRL_0_PSTATE_FORWARDING : Z := 7.
Definition GSWIP_PCE_PCTRL_0_PSTATE_MASK : Z := GENMASK 2 0.

Definition gswip_port_disable (ds : dsa_switch) (port : Z) : M unit :=
  if negb (dsa_is_user_port ds port) then ret tt else
  gswip_switch_mask GSWIP_FDMA_PCTRL_EN 0 (GSWIP_FDMA_PCTRLp port) ;;;
  gswip_switch_mask GSWIP_SDMA_PCTRL_EN 0 (GSWIP_SDMA_PCTRLp port).

(* The u8 state of gswip_port_stp_state_set, by the cases of its switch;
   [BR_STATE_OTHER] is any value the switch sends to default. *)
Inductive br_state :=
  BR_STATE_DISABLED | BR_STATE_BLOCKING | BR_STATE_LISTENING
| BR_STATE_LEARNING | BR_STATE_FORWARDING | BR_STATE_OTHER.

(* The two writes after the switch of gswip_port_stp_state_set. *)
Definition stp_state_commit (port stp_state : Z) : M unit :=
  gswip_switch_mask 0 GSWIP_SDMA_PCTRL_EN (GSWIP_SDMA_PCTRLp port) ;;;
  gswip_switch_mask GSWIP_PCE_PCTRL_0_PSTATE_MASK stp_state (GSWIP_PCE_PCTRL_0p port).

Definition gswip_port_stp_state_set (ds : dsa_switch) (port : Z) (state : br_state)
  : M unit :=
  match state with
  | BR_STATE_DISABLED =>
      gswip_switch_mask GSWIP_SDMA_PCTRL_EN 0 (GSWIP_SDMA_PCTRLp port)
  | BR_STATE_BLOCKING
  | BR_STATE_LISTENING => stp_state_commit port GSWIP_PCE_PCTRL_0_PSTATE_LISTEN
  | BR_STATE_LEARNING => stp_state_commit port GSWIP_PCE_PCTRL_0_PSTATE_LEARNING
  | BR_STATE_FORWARDING => stp_state_commit port GSWIP_PCE_PCTRL_0_PSTATE_FORWARDING
  | BR_STATE_OTHER => dev_err "invalid STP state: %d"
  end.

(** ** Link parameters (gswip_port_set_link / _speed / _duplex / _pause) *)

Definition GSWIP_MDIO_PHY_LINK_MASK : Z := 24576.     (* 0x6000 *)
Definition GSWIP_MDIO_PHY_LINK_DOWN : Z := 16384.     (* 0x4000 *)
Definition GSWIP_MDIO_PHY_LINK_UP : Z := 8192.        (* 0x2000 *)
Definition GSWIP_MDIO_PHY_SPEED_MASK : Z := 6144.     (* 0x1800 *)
Definition GSWIP_MDIO_PHY_SPEED_M10 : Z := 0.
Definition GSWIP_MDIO_PHY_SPEED_M100 : Z := 2048.     (* 0x0800 *)
Definition GSWIP_MDIO_PHY_SPEED_G1 : Z := 4096.       (* 0x1000 *)
Definition GSWIP_MDIO_PHY_FDUP_MASK : Z := 1536.      (* 0x0600 *)
Definition GSWIP_MDIO_PHY_FDUP_EN : Z := 512.         (* 0x0200 *)
Definition GSWIP_MDIO_PHY_FDUP_DIS : Z := 1536.       (* 0x0600 *)
Definition GSWIP_MDIO_PHY_FCONTX_MASK : Z := 384.     (* 0x0180 *)
Definition GSWIP_MDIO_PHY_FCONTX_EN : Z := 256.       (* 0x0100 *)
Definition GSWIP_MDIO_PHY_FCONTX_DIS : Z := 384.      (* 0x0180 *)
Definition GSWIP_MDIO_PHY_FCONRX_MASK : Z := 96.      (* 0x0060 *)
Definition GSWIP_MDIO_PHY_FCONRX_EN : Z := 32.        (* 0x0020 *)
Definition GSWIP_MDIO_PHY_FCONRX_DIS : Z := 96.       (* 0x0060 *)

Definition GSWIP_MII_CFGp (p : Z) : Z := 2 * p.
Definition GSWIP_MII_CFG_EN : Z := BIT 14.
Definition GSWIP_MII_CFG_ISOLATE : Z := BIT 13.
Definition GSWIP_MII_CFG_MODE_MIIP : Z := 0.
Definition GSWIP_MII_CFG_MODE_MIIM : Z := 1.
Definition GSWIP_MII_CFG_MODE_RMIIP : Z := 2.
Definition GSWIP_MII_CFG_MODE_RMIIM : Z := 3.
Definition GSWIP_MII_CFG_MODE_RGMII : Z := 4.
Definition GSWIP_MII_CFG_MODE_GMII : Z := 9.
Definition GSWIP_MII_CFG_RATE_M2P5 : Z := 0.
Definition GSWIP_MII_CFG_RATE_M25 : Z := 16.
Definition GSWIP_MII_CFG_RATE_M125 : Z := 32.
Definition GSWIP_MII_CFG_RATE_M50 : Z := 48.
Definition GSWIP_MII_CFG_RATE_MASK : Z := 112.

Definition GSWIP_MAC_CTRL_0p (p : Z) : Z := 2307 + p * 12.   (* 0x903 + p * 0xC *)
Definition GSWIP_MAC_CTRL_0_FCON_MASK : Z := 112.    (* 0x0070 *)
Definition GSWIP_MAC_CTRL_0_FCON_RX : Z := 16.
Definition GSWIP_MAC_CTRL_0_FCON_TX : Z := 32.
Definition GSWIP_MAC_CTRL_0_FCON_RXTX : Z := 48.
Definition GSWIP_MAC_CTRL_0_FCON_NONE : Z := 64.
Definition GSWIP_MAC_CTRL_0_FDUP_MASK : Z := 12.     (* 0x000C *)
Definition GSWIP_MAC_CTRL_0_FDUP_EN : Z := 4.
Definition GSWIP_MAC_CTRL_0_FDUP_DIS : Z := 12.
Definition GSWIP_MAC_CTRL_0_GMII_MASK : Z := 3.
Definition GSWIP_MAC_CTRL_0_GMII_MII : Z := 1.
Definition GSWIP_MAC_CTRL_0_GMII_RGMII : Z := 2.

(* phy_interface_t, by the modes the driver tells apart; every other
   mode is [PHY_INTERFACE_MODE_OTHER]. *)
Inductive phy_interface_t :=
  PHY_INTERFACE_MODE_INTERNAL | PHY_INTERFACE_MODE_MII | PHY_INTERFACE_MODE_GMII
| PHY_INTERFACE_MODE_REVMII | PHY_INTERFACE_MODE_RMII
| PHY_INTERFACE_MODE_RGMII | PHY_INTERFACE_MODE_RGMII_ID
| PHY_INTERFACE_MODE_RGMII_RXID | PHY_INTERFACE_MODE_RGMII_TXID
| PHY_INTERFACE_MODE_OTHER.

(* int speed, by the cases of the switch of gswip_port_set_speed, which
   has no default. *)
Inductive link_speed := SPEED_10 | SPEED_100 | SPEED_1000 | SPEED_OTHER.

(* int duplex: DUPLEX_FULL or anything else *)
Inductive link_duplex := DUPLEX_FULL | DUPLEX_OTHER.

Definition gswip_port_set_link (port : Z) (link : bool) : M unit :=
  let mdio_phy :=
    if link then GSWIP_MDIO_PHY_LINK_UP else GSWIP_MDIO_PHY_LINK_DOWN in
  gswip_slave_mdio_mask GSWIP_MDIO_PHY_LINK_MASK mdio_phy (GSWIP_MDIO_PHYp port).

Definition gswip_port_set_duplex (port : Z) (duplex : link_duplex) : M unit :=
  let '(mac_ctrl_0, mdio_phy) :=
    match duplex with
    | DUPLEX_FULL => (GSWIP_MAC_CTRL_0_FDUP_EN, GSWIP_MDIO_PHY_FDUP_EN)
    | DUPLEX_OTHER => (GSWIP_MAC_CTRL_0_FDUP_DIS, GSWIP_MDIO_PHY_FDUP_DIS)
    end in
  gswip_switch_mask GSWIP_MAC_CTRL_0_FDUP_MASK mac_ctrl_0 (GSWIP_MAC_CTRL_0p port) ;;;
  gswip_slave_mdio_mask GSWIP_MDIO_PHY_FDUP_MASK mdio_phy (GSWIP_MDIO_PHYp port).

Definition gswip_port_set_pause (port : Z) (tx_pause rx_pause : bool) : M unit :=
  let '(mac_ctrl_0, mdio_phy) :=
    if tx_pause && rx_pause then
      (GSWIP_MAC_CTRL_0_FCON_RXTX,
       Z.lor GSWIP_MDIO_PHY_FCONTX_EN GSWIP_MDIO_PHY_FCONRX_EN)
    else if tx_pause then
      (GSWIP_MAC_CTRL_0_FCON_TX,
       Z.lor GSWIP_MDIO_PHY_FCONTX_EN GSWIP_MDIO_PHY_FCONRX_DIS)
    else if rx_pause then
      (GSWIP_MAC_CTRL_0_FCON_RX,
       Z.lor GSWIP_MDIO_PHY_FCONTX_DIS GSWIP_MDIO_PHY_FCONRX_EN)
    else
      (GSWIP_MAC_CTRL_0_FCON_NONE,
       Z.lor GSWIP_MDIO_PHY_FCONTX_DIS GSWIP_MDIO_PHY_FCONRX_DIS) in
  gswip_switch_mask GSWIP_MAC_CTRL_0_FCON_MASK mac_ctrl_0 (GSWIP_MAC_CTRL_0p port) ;;;
  gswip_slave_mdio_mask
    (Z.lor GSWIP_MDIO_PHY_FCONTX_MASK GSWIP_MDIO_PHY_FCONRX_MASK)
    mdio_phy (GSWIP_MDIO_PHYp port).

(** ** The xMII block (gswip_mii_r / _w / _mask / _mask_cfg / _mask_pcdu)

    priv->mii is a third register window.  The functions that reach it
    return nothing, so they are state transformers over the priv paired
    with the registers behind priv->mii. *)

Record gswip_link := mk_link {
  lk_priv : gswip_priv;
  lk_mii : gmap Z Z
}.

(* A driver function of the monad that returns nothing, run on the priv. *)
Definition on_priv (m : M unit) (l : gswip_link) : gswip_link :=
  mk_link (snd (m (lk_priv l))) (lk_mii l).

Definition gswip_mii_r (offset : Z) (l : gswip_link) : Z :=
  default 0 (lk_mii l !! offset).

Definition gswip_mii_w (val offset : Z) (l : gswip_link) : gswip_link :=
  mk_link (lk_priv l) (<[offset := u32 val]> (lk_mii l)).

Definition gswip_mii_mask (clear set offset : Z) (l : gswip_link) : gswip_link :=
  let val := gswip_mii_r offset l in
  gswip_mii_w (Z.lor (Z.land val (Z.lnot clear)) set) offset l.

Definition gswip_mii_mask_cfg (ds : dsa_switch) (clear set port : Z)
    (l : gswip_link) : gswip_link :=
  (* There's no MII_CFG register for the CPU port *)
  if negb (dsa_is_cpu_port ds port)
  then gswip_mii_mask clear set (GSWIP_MII_CFGp port) l
  else l.


Definition gswip_port_set_speed (ds : dsa_switch) (port : Z) (speed : link_speed)
    (interface : phy_interface_t) (l : gswip_link) : gswip_link :=
  let rmii := match interface with PHY_INTERFACE_MODE_RMII => true | _ => false end in
  let '(mdio_phy, mii_cfg, mac_ctrl_0) :=
    match speed with
    | SPEED_10 =>
        (GSWIP_MDIO_PHY_SPEED_M10,
         if rmii then GSWIP_MII_CFG_RATE_M50 else GSWIP_MII_CFG_RATE_M2P5,
         GSWIP_MAC_CTRL_0_GMII_MII)
    | SPEED_100 =>
        (GSWIP_MDIO_PHY_SPEED_M100,
         if rmii then GSWIP_MII_CFG_RATE_M50 else GSWIP_MII_CFG_RATE_M25,
         GSWIP_MAC_CTRL_0_GMII_MII)
    | SPEED_1000 =>
        (GSWIP_MDIO_PHY_SPEED_G1, GSWIP_MII_CFG_RATE_M125, GSWIP_MAC_CTRL_0_GMII_RGMII)
    | SPEED_OTHER => (0, 0, 0)
    end in
  let l := on_priv (gswip_slave_mdio_mask GSWIP_MDIO_PHY_SPEED_MASK mdio_phy
                                          (GSWIP_MDIO_PHYp port)) l in
  let l := gswip_mii_mask_cfg ds GSWIP_MII_CFG_RATE_MASK mii_cfg port l in
  on_priv (gswip_switch_mask GSWIP_MAC_CTRL_0_GMII_MASK mac_ctrl_0
                             (GSWIP_MAC_CTRL_0p port)) l.

(** ** phylink callbacks *)


Definition gswip_phylink_mac_link_down (ds : dsa_switch) (port : Z)
    (l : gswip_link) : gswip_link :=
  let l := gswip_mii_mask_cfg ds GSWIP_MII_CFG_EN 0 port l in
  if negb (dsa_is_cpu_port ds port)
  then on_priv (gswip_port_set_link port false) l
  else l.

Definition gswip_phylink_mac_link_up (ds : dsa_switch) (port : Z)
    (interface : phy_interface_t) (speed : link_speed) (duplex : link_duplex)
    (tx_pause rx_pause : bool) (l : gswip_link) : gswip_link :=
  let l :=
    if negb (dsa_is_cpu_port ds port) then
      let l := on_priv (gswip_port_set_link port true) l in
      let l := gswip_port_set_speed ds port speed interface l in
      let l := on_priv (gswip_port_set_duplex port duplex) l in
      on_priv (gswip_port_set_pause port tx_pause rx_pause) l
    else l in
  gswip_mii_mask_cfg ds 0 GSWIP_MII_CFG_EN port l.

(** ** phylink capabilities (gswip_phylink_set_capab / _validate) and the
       platform's check_interface_support (lantiq_gsw_platform.c)

    The link modes the driver names, and one constructor for the others.
    A link-mode bitmap is its characteristic function.  The kernel's
    phylink_set_port_modes and phy_interface_mode_is_rgmii, and the
    check_interface_support member of hw_ops, are arguments. *)

Inductive ethtool_link_mode :=
  ETHTOOL_LINK_MODE_Autoneg | ETHTOOL_LINK_MODE_Pause | ETHTOOL_LINK_MODE_Asym_Pause
| ETHTOOL_LINK_MODE_1000baseT_Full | ETHTOOL_LINK_MODE_1000baseT_Half
| ETHTOOL_LINK_MODE_10baseT_Half | ETHTOOL_LINK_MODE_10baseT_Full
| ETHTOOL_LINK_MODE_100baseT_Half | ETHTOOL_LINK_MODE_100baseT_Full
| ETHTOOL_LINK_MODE_OTHER (bit : Z).

Definition link_mode_eqb (a b : ethtool_link_mode) : bool :=
  match a, b with
  | ETHTOOL_LINK_MODE_Autoneg, ETHTOOL_LINK_MODE_Autoneg
  | ETHTOOL_LINK_MODE_Pause, ETHTOOL_LINK_MODE_Pause
  | ETHTOOL_LINK_MODE_Asym_Pause, ETHTOOL_LINK_MODE_Asym_Pause
  | ETHTOOL_LINK_MODE_1000baseT_Full, ETHTOOL_LINK_MODE_1000baseT_Full
  | ETHTOOL_LINK_MODE_1000baseT_Half, ETHTOOL_LINK_MODE_1000baseT_Half
  | ETHTOOL_LINK_MODE_10baseT_Half, ETHTOOL_LINK_MODE_10baseT_Half
  | ETHTOOL_LINK_MODE_10baseT_Full, ETHTOOL_LINK_MODE_10baseT_Full
  | ETHTOOL_LINK_MODE_100baseT_Half, ETHTOOL_LINK_MODE_100baseT_Half
  | ETHTOOL_LINK_MODE_100baseT_Full, ETHTOOL_LINK_MODE_100baseT_Full => true
  | ETHTOOL_LINK_MODE_OTHER x, ETHTOOL_LINK_MODE_OTHER y => x =? y
  | _, _ => false
  end.

Definition link_mode_mask : Type := ethtool_link_mode -> bool.

Definition bitmap_zero : link_mode_mask := fun _ => false.
Definition bitmap_and (a b : link_mode_mask) : link_mode_mask :=
  fun m => a m && b m.
Definition phylink_set (mask : link_mode_mask) (mode : ethtool_link_mode)
    : link_mode_mask :=
  fun m => link_mode_eqb m mode || mask m.

Record phylink_link_state := mk_link_state {
  ls_advertising : link_mode_mask;
  ls_interface : phy_interface_t
}.

Definition phy_interface_eqb (a b : phy_interface_t) : bool :=
  match a, b with
  | PHY_INTERFACE_MODE_INTERNAL, PHY_INTERFACE_MODE_INTERNAL
  | PHY_INTERFACE_MODE_MII, PHY_INTERFACE_MODE_MII
  | PHY_INTERFACE_MODE_GMII, PHY_INTERFACE_MODE_GMII
  | PHY_INTERFACE_MODE_REVMII, PHY_INTERFACE_MODE_REVMII
  | PHY_INTERFACE_MODE_RMII, PHY_INTERFACE_MODE_RMII
  | PHY_INTERFACE_MODE_RGMII, PHY_INTERFACE_MODE_RGMII
  | PHY_INTERFACE_MODE_RGMII_ID, PHY_INTERFACE_MODE_RGMII_ID
  | PHY_INTERFACE_MODE_RGMII_RXID, PHY_INTERFACE_MODE_RGMII_RXID
  | PHY_INTERFACE_MODE_RGMII_TXID, PHY_INTERFACE_MODE_RGMII_TXID => true
  | _, _ => false
  end.

Definition gswip_phylink_set_capab
    (phylink_set_port_modes : link_mode_mask -> link_mode_mask)
    (supported : link_mode_mask) (state : phylink_link_state)
    : link_mode_mask * phylink_link_state :=
  let mask := bitmap_zero in
  let mask := phylink_set mask ETHTOOL_LINK_MODE_Autoneg in
  let mask := phylink_set_port_modes mask in
  let mask := phylink_set mask ETHTOOL_LINK_MODE_Pause in
  let mask := phylink_set mask ETHTOOL_LINK_MODE_Asym_Pause in
  let mask :=
    if negb (phy_interface_eqb (ls_interface state) PHY_INTERFACE_MODE_MII) &&
       negb (phy_interface_eqb (ls_interface state) PHY_INTERFACE_MODE_REVMII) &&
       negb (phy_interface_eqb (ls_interface state) PHY_INTERFACE_MODE_RMII)
    then phylink_set (phylink_set mask ETHTOOL_LINK_MODE_1000baseT_Full)
                     ETHTOOL_LINK_MODE_1000baseT_Half
    else mask in
  let mask := phylink_set mask ETHTOOL_LINK_MODE_10baseT_Half in
  let mask := phylink_set mask ETHTOOL_LINK_MODE_10baseT_Full in
  let mask := phylink_set mask ETHTOOL_LINK_MODE_100baseT_Half in
  let mask := phylink_set mask ETHTOOL_LINK_MODE_100baseT_Full in
  (bitmap_and supported mask,
   mk_link_state (bitmap_and (ls_advertising state) mask) (ls_interface state)).

Definition gswip_phylink_validate
    (check_interface_support : Z -> phy_interface_t -> bool)
    (phylink_set_port_modes : link_mode_mask -> link_mode_mask)
    (port : Z) (supported : link_mode_mask) (state : phylink_link_state)
    : M (link_mode_mask * phylink_link_state) :=
  if negb (check_interface_support port (ls_interface state)) then
    dev_err "Unsupported interface '%s' for port %d" ;;;
    ret (bitmap_zero, state)
  else ret (gswip_phylink_set_capab phylink_set_port_modes supported state).

Definition gsw_platform_check_if_support_xrx200
    (phy_interface_mode_is_rgmii : phy_interface_t -> bool)
    (port : Z) (interface : phy_interface_t) : bool :=
  if (port =? 0) || (port =? 1) then
    if negb (phy_interface_mode_is_rgmii interface) &&
       negb (phy_interface_eqb interface PHY_INTERFACE_MODE_MII) &&
       negb (phy_interface_eqb interface PHY_INTERFACE_MODE_REVMII) &&
       negb (phy_interface_eqb interface PHY_INTERFACE_MODE_RMII)
    then false else true
  else if (port =? 2) || (port =? 3) || (port =? 4) then
    if negb (phy_interface_eqb interface PHY_INTERFACE_MODE_INTERNAL)
    then false else true
  else if port =? 5 then
    if negb (phy_interface_mode_is_rgmii interface) &&
       negb (phy_interface_eqb interface PHY_INTERFACE_MODE_INTERNAL)
    then false else true
  else false.

Definition gsw_platform_check_if_support_xrx300
    (phy_interface_mode_is_rgmii : phy_interface_t -> bool)
    (port : Z) (interface : phy_interface_t) : bool :=
  if port =? 0 then
    if negb (phy_interface_mode_is_rgmii interface) &&
       negb (phy_interface_eqb interface PHY_INTERFACE_MODE_GMII) &&
       negb (phy_interface_eqb interface PHY_INTERFACE_MODE_RMII)
    then false else true
  else if (port =? 1) || (port =? 2) || (port =? 3) || (port =? 4) then
    if negb (phy_interface_eqb interface PHY_INTERFACE_MODE_INTERNAL)
    then false else true
  else if port =? 5 then
    if negb (phy_interface_mode_is_rgmii interface) &&
       negb (phy_interface_eqb interface PHY_INTERFACE_MODE_INTERNAL) &&
       negb (phy_interface_eqb interface PHY_INTERFACE_MODE_RMII)
    then false else true
  else false.

(* gswip_xrx300 of lantiq_gsw_platform.c *)
Definition gswip_xrx300 : gsw_hw_info := mk_hw_info 7 6.

(** ** Views of the state used in the statements *)

(* No coming busy-poll times out. *)
Definition polls_ok (s : gswip_priv) : Prop :=
  Forall (fun e => e = 0) (hw_polls (dev s)).

(* Every coming busy-poll yields 0 or a negative errno, as
   hw_ops->poll_timeout does. *)
Definition polls_errno (s : gswip_priv) : Prop :=
  Forall (fun e => e <= 0) (hw_polls (dev s)).

(* The row (t, i) as an address-mode read hands it to the driver. *)
Definition read_view (s : gswip_priv) (t i : Z) : gswip_pce_table_entry :=
  load_row (bank_row (dev s) t i) (with_table t (with_index i entry0)).

(* A core register as gswip_switch_r reads it. *)
Definition reg (s : gswip_priv) (offset : Z) : Z :=
  default 0 (hw_regs (dev s) !! offset).

(* Slot i of the pool is bound. *)
Definition slot_bound (s : gswip_priv) (i : Z) : bool :=
  negb (slot_free (vlans_at (vlans s) i)).

(* i is an index of the range the pool searches. *)
Definition in_pool (s : gswip_priv) (i : Z) : Prop :=
  max_ports (hw_info s) <= i < VLANS_SIZE.

(* struct gswip_priv as kzalloc leaves it, on a switch [h]. *)
Definition priv_init (info : gsw_hw_info) (h : gswip_hw) : gswip_priv :=
  mk_priv info (replicate 64 vlan0) 0 h [].

(* A switch with empty tables on which polls fail as listed. *)
Definition hw_init (polls : list Z) : gswip_hw :=
  mk_hw ∅ ∅ ∅ polls (fun _ _ _ => 0).

(* hw_info of the GSW12x/140 parts and of the xRX200 *)
Definition gsw_mdio_hw_info : gsw_hw_info := mk_hw_info 6 5.
Definition gswip_xrx200 : gsw_hw_info := mk_hw_info 7 6.

(* The state once two busy-polls have gone by. *)
Definition polled (s : gswip_priv) : gswip_priv :=
  let h := dev s in
  set_dev (mk_hw (hw_regs h) (hw_mdio h) (hw_bank h) (tl (tl (hw_polls h))) (hw_ks h)) s.

(* The state once a write transaction of [tbl] has completed. *)
Definition written (tbl : gswip_pce_table_entry) (s : gswip_priv) : gswip_priv :=
  let h := dev s in
  set_dev (mk_hw (hw_regs h) (hw_mdio h)
                 (<[(tbl_table tbl, pce_addr h tbl) := row_of_entry tbl]> (hw_bank h))
                 (tl (tl (hw_polls h))) (hw_ks h)) s.

(* The state once gswip_switch_w has stored [val] at [offset]. *)
Definition reg_written (val offset : Z) (s : gswip_priv) : gswip_priv :=
  let h := dev s in
  set_dev (mk_hw (<[offset := u32 val]> (hw_regs h)) (hw_mdio h) (hw_bank h)
                 (hw_polls h) (hw_ks h)) s.

(* The C types of the fields: vlans[64] of u16 vid and u8 fid; the port
   numbers of hw_info fit the 16-bit port maps of the tables. *)
Definition vlan_typed (v : gswip_vlan) : Prop :=
  0 <= vlan_vid v < 65536 /\ 0 <= vlan_fid v < 256.

Definition priv_typed (s : gswip_priv) : Prop :=
  length (vlans s) = 64%nat /\ Forall vlan_typed (vlans s) /\
  0 <= max_ports (hw_info s) <= 16 /\ 0 <= cpu_port (hw_info s) < 16.

(* The key words gswip_port_fdb builds for a MAC address and a flow id. *)
Definition fdb_key (addr : list Z) (fid : Z) : list Z :=
  [ u16 (Z.lor (byte_at addr 5) (Z.shiftl (byte_at addr 4) 8));
    u16 (Z.lor (byte_at addr 3) (Z.shiftl (byte_at addr 2) 8));
    u16 (Z.lor (byte_at addr 1) (Z.shiftl (byte_at addr 0) 8));
    fid; 0; 0; 0; 0 ].

(* The forwarding-table row of a static entry for [port], or of its removal. *)
Definition fdb_static_row (addr : list Z) (fid port : Z) (add : bool) : pce_row :=
  mk_row (fdb_key addr fid)
         [ u16 (if add then BIT port else 0); GSWIP_TABLE_MAC_BRIDGE_STATIC; 0; 0; 0 ]
         0 0 false add.

(* The two rows of the single-port bridge of [port]. *)
Definition single_port_active_row (port : Z) (add : bool) : pce_row :=
  mk_row (replicate 8 0) [port + 1; 0; 0; 0; 0] 0 0 false add.

Definition single_port_mapping_row (port cpu_port : Z) : pce_row :=
  mk_row (replicate 8 0) [0; Z.lor (BIT port) (BIT cpu_port); 0; 0; 0] 0 0 false false.

(* What the pool records for a slot: nothing when free, else its binding. *)
Definition slot_view (v : gswip_vlan) : option (Z * Z * Z) :=
  if slot_free v then None else Some (vlan_bridge v, vlan_vid v, vlan_fid v).

Definition pool_view (s : gswip_priv) : list (option (Z * Z * Z)) :=
  map slot_view (vlans s).

(* All slots of the pool range bound to one bridge carry one flow id. *)
Definition fid_consistent (s : gswip_priv) : Prop :=
  forall i j, in_pool s i -> in_pool s j ->
    vlan_bridge (vlans_at (vlans s) i) <> NULL ->
    vlan_bridge (vlans_at (vlans s) i) = vlan_bridge (vlans_at (vlans s) j) ->
    vlan_fid (vlans_at (vlans s) i) = vlan_fid (vlans_at (vlans s) j).

(* The slot index and the flow id the first loop of gswip_vlan_add_aware
   ends with, without its log lines. *)
Fixpoint aware_scan_result (bridge vid : Z) (vl : list gswip_vlan)
    (n : nat) (i : Z) (fid : Z) : Z * Z :=
  match n with
  | O => (-1, fid)
  | S n' =>
      let v := vlans_at vl i in
      if vlan_bridge v =? bridge then
        if vlan_vid v =? vid then (i, vlan_fid v)
        else aware_scan_result bridge vid vl n' (i + 1) (vlan_fid v)
      else aware_scan_result bridge vid vl n' (i + 1) fid
  end.

(* The slot a find-or-create request resolves to: the first slot of the
   pool range that matches, else the first free one, else -1. *)
Definition pool_target (test : gswip_vlan -> bool) (s : gswip_priv) : Z :=
  let m := find_slot test s in
  if m =? -1 then find_slot slot_free s else m.

(* The Active-VLAN entry gswip_vlan_active_create writes for slot [idx]. *)
Definition active_vlan_entry (idx vid fid : Z) : gswip_pce_table_entry :=
  with_valid true
    (with_val 0 fid
      (with_key 0 vid
        (with_table GSWIP_TABLE_ACTIVE_VLAN (with_index idx entry0)))).

(* The state once slot [idx] has been created for (bridge, vid, fid). *)
Definition created (idx bridge vid fid : Z) (s : gswip_priv) : gswip_priv :=
  set_vlans (<[Z.to_nat idx := mk_vlan bridge (u16 vid) (u8 fid)]> (vlans s))
            (written (active_vlan_entry idx vid fid) s).

(* [s'] differs from [s] at most in table rows and in polls gone by. *)
Definition table_step (s s' : gswip_priv) : Prop :=
  vlans s' = vlans s /\ hw_info s' = hw_info s /\ klog s' = klog s /\
  port_vlan_filter s' = port_vlan_filter s /\
  hw_regs (dev s') = hw_regs (dev s) /\
  (polls_errno s -> polls_errno s').

(* [s'] differs from [s] at most in the log. *)
Definition log_step (s s' : gswip_priv) : Prop :=
  vlans s' = vlans s /\ hw_info s' = hw_info s /\ dev s' = dev s /\
  port_vlan_filter s' = port_vlan_filter s.

(* The zeroed VLAN-mapping entry of slot [idx], before it is read or filled. *)
Definition mapping_entry0 (idx : Z) : gswip_pce_table_entry :=
  with_table GSWIP_TABLE_VLAN_MAPPING (with_index idx entry0).

(* The rows of the table banks hold eight key words and five value words. *)
Definition row_typed (r : pce_row) : Prop :=
  length (row_key r) = 8%nat /\ length (row_val r) = 5%nat.

Definition bank_typed (s : gswip_priv) : Prop :=
  forall t i, row_typed (bank_row (dev s) t i).

(* The Active-VLAN entry gswip_vlan_active_remove writes for slot [idx]. *)
Definition inactive_vlan_entry (idx : Z) : gswip_pce_table_entry :=
  with_valid false (with_table GSWIP_TABLE_ACTIVE_VLAN (with_index idx entry0)).

(* The state once slot [idx] has been released. *)
Definition released (idx : Z) (s : gswip_priv) : gswip_priv :=
  set_vlans (<[Z.to_nat idx := mk_vlan NULL (vlan_vid (vlans_at (vlans s) idx))
                                       (vlan_fid (vlans_at (vlans s) idx))]> (vlans s))
            (written (inactive_vlan_entry idx) s).

(* Joining the bridges of [l] in turn, each (bridge, port) through
   gswip_vlan_add_unaware; the return codes in order. *)
Fixpoint join_unaware (l : list (Z * Z)) : M (list Z) :=
  match l with
  | [] => ret []
  | (bridge, port) :: l' =>
      r <- gswip_vlan_add_unaware bridge port ;;
      rs <- join_unaware l' ;;
      ret (r :: rs)
  end.

(* hw_info with port numbers that fit the 16-bit port maps. *)
Definition info_typed (info : gsw_hw_info) : Prop :=
  0 <= max_ports info <= 16 /\ 0 <= cpu_port info < 16.

(* The states the driver reaches from a zeroed priv: each step is one of
   the three translator functions that write priv->vlans, or any step of
   the switch or of another driver function, which leaves priv->vlans and
   hw_info as they are. *)
Inductive reachable : gswip_priv -> Prop :=
| reach_init info h :
    info_typed info -> Forall (fun e => e <= 0) (hw_polls h) ->
    reachable (priv_init info h)
| reach_add_unaware s bridge port :
    reachable s -> reachable (snd (gswip_vlan_add_unaware bridge port s))
| reach_add_aware s bridge port vid untagged pvid :
    reachable s ->
    reachable (snd (gswip_vlan_add_aware bridge port vid untagged pvid s))
| reach_remove s bridge port vid pvid vlan_aware :
    reachable s ->
    reachable (snd (gswip_vlan_remove bridge port vid pvid vlan_aware s))
| reach_other s s' :
    reachable s -> vlans s' = vlans s -> hw_info s' = hw_info s ->
    polls_errno s' -> reachable s'.

(* What every reachable state satisfies. *)
Definition pool_inv (s : gswip_priv) : Prop :=
  priv_typed s /\ polls_errno s /\ fid_consistent s.

(* An entry the aging of [port] removes: valid, not static, learnt on [port]. *)
Definition aged (port : Z) (e : gswip_pce_table_entry) : bool :=
  tbl_valid e && negb (mac_static e) && (mac_port_field e =? port).

(* A dump callback that records each report and never stops the scan. *)
Definition record_cb (addr : list Z) (vid : Z) (is_static : bool)
    (data : list (list Z * Z * bool)) : Z * list (list Z * Z * bool) :=
  (0, data ++ [(addr, vid, is_static)]).

(* What a dump for [port] is to report of one entry, in the words of the
   specification: a valid static entry when bit [port] of its port map is
   set, as static; a valid dynamic entry when its ingress-port field is
   [port], as learned; nothing otherwise. *)
Definition spec_dump_report (port : Z) (e : gswip_pce_table_entry)
  : list (list Z * Z * bool) :=
  if tbl_valid e then
    if mac_static e then
      if Z.testbit (word_at (tbl_val e) 0) port then [(fdb_addr e, 0, true)] else []
    else
      if mac_port_field e =? port then [(fdb_addr e, 0, false)] else []
  else [].

(* The indices i, i + 1, ..., i + n - 1. *)
Fixpoint indices (n : nat) (i : Z) : list Z :=
  match n with
  | O => []
  | S n' => i :: indices n' (i + 1)
  end.

(** ** Example configurations *)

(* A six-port part: ports 0..3 are user ports, port 4 is a DSA link to
   another switch and port 5 is the CPU port; ports 1 and 2 sit in the VLAN-unaware bridge 100 and
   port 3 in the VLAN-aware bridge 200. *)
Definition ds_example : dsa_switch :=
  mk_ds (fun p => if p =? 5 then DSA_PORT_TYPE_CPU
                  else if p =? 4 then DSA_PORT_TYPE_DSA
                  else if (0 <=? p) && (p <? 4) then DSA_PORT_TYPE_USER
                  else DSA_PORT_TYPE_UNUSED)
        (fun p => if (p =? 1) || (p =? 2) then 100
                  else if p =? 3 then 200 else NULL)
        (fun b => b =? 200).

(* A zeroed priv on a switch whose polls never time out. *)
Definition priv_example : gswip_priv := priv_init gsw_mdio_hw_info (hw_init []).


(* priv_example with slot 6 bound to bridge 100, on a switch whose next
   poll times out. *)
Definition priv_busy : gswip_priv :=
  set_vlans (<[6%nat := mk_vlan 100 0 6]> (replicate 64 vlan0))
            (priv_init gsw_mdio_hw_info (hw_init [- ETIMEDOUT])).

(* Bridge 100 with ports 1 and 2 in slot 6: the slot array and the two
   table rows as two VLAN-unaware joins leave them. *)
Definition priv_member : gswip_priv :=
  mk_priv gsw_mdio_hw_info
          (<[6%nat := mk_vlan 100 0 6]> (replicate 64 vlan0)) 0
          (mk_hw ∅ ∅
             (<[(GSWIP_TABLE_VLAN_MAPPING, 6)
                := mk_row (replicate 8 0) [0; 38; 0; 0; 0] 0 0 false false]>
                (<[(GSWIP_TABLE_ACTIVE_VLAN, 6)
                   := mk_row (replicate 8 0) [6; 0; 0; 0; 0] 0 0 false true]> ∅))
             [] (fun _ _ _ => 0))
          [].


(** ** Further views and examples *)

(* A register of the MDIO window, as gswip_slave_mdio_r reads it. *)
Definition mdio_reg (s : gswip_priv) (offset : Z) : Z :=
  default 0 (hw_mdio (dev s) !! offset).

(* The state once [val] has been written to the MDIO register [offset]. *)
Definition mdio_written (val offset : Z) (s : gswip_priv) : gswip_priv :=
  let h := dev s in
  set_dev (mk_hw (hw_regs h) (<[offset := u32 val]> (hw_mdio h)) (hw_bank h)
                 (hw_polls h) (hw_ks h)) s.

(* phydev->mdio.addr, 0 for a NULL phydev *)
Definition phydev_addr (phydev : option Z) : Z :=
  match phydev with Some addr => addr | None => 0 end.

(* The port-state code an STP state is given in PCE_PCTRL_0, when it is
   given one: blocking and listening ports listen. *)
Definition stp_pstate (state : br_state) : option Z :=
  match state with
  | BR_STATE_BLOCKING | BR_STATE_LISTENING => Some 0
  | BR_STATE_LEARNING => Some 3
  | BR_STATE_FORWARDING => Some 7
  | BR_STATE_DISABLED | BR_STATE_OTHER => None
  end.


(* A filled VLAN-mapping entry, used to exercise the table transport. *)
Definition entry_example : gswip_pce_table_entry :=
  mk_entry 9 GSWIP_TABLE_VLAN_MAPPING (replicate 8 0) [10; 40; 8; 0; 0] 0 0
           false true false.

(* A computation of the driver monad that leaves the view [f] of the
   state as it found it, whatever it returns. *)
Definition keeps {T A : Type} (f : gswip_priv -> T) (m : M A) : Prop :=
  forall s, f (snd (m s)) = f s.

(* What no function of the VLAN translator or of the forwarding table
   writes: the filtering flags, the MDIO window, hw_info and the key
   search of the table engine. *)
Definition aside (s : gswip_priv)
  : Z * gmap Z Z * gsw_hw_info * (gmap (Z * Z) pce_row -> Z -> list Z -> Z) :=
  (port_vlan_filter s, hw_mdio (dev s), hw_info s, hw_ks (dev s)).

(* What the forwarding-table functions leave alone beyond that: the slot
   array and the core registers. *)
Definition fdb_aside (s : gswip_priv) :=
  (vlans s, hw_regs (dev s), aside s).

(* No two bound slots of the pool range hold the same (bridge, vid). *)
Definition slots_unique (s : gswip_priv) : Prop :=
  forall i j, in_pool s i -> in_pool s j ->
    vlan_bridge (vlans_at (vlans s) i) <> NULL ->
    vlan_bridge (vlans_at (vlans s) i) = vlan_bridge (vlans_at (vlans s) j) ->
    vlan_vid (vlans_at (vlans s) i) = vlan_vid (vlans_at (vlans s) j) ->
    i = j.

(* Handing reports to a dump callback in turn until it returns non-zero:
   the value the scan returns and the callback's data at that point. *)
Fixpoint feed_cb {D : Type} (cb : list Z -> Z -> bool -> D -> Z * D)
    (reports : list (list Z * Z * bool)) (data : D) : Z * D :=
  match reports with
  | [] => (0, data)
  | (addr, vid, is_static) :: rest =>
      let '(err, data') := cb addr vid is_static data in
      if negb (err =? 0) then (err, data') else feed_cb cb rest data'
  end.

(* A register of the xMII window, as gswip_mii_r reads it. *)
Definition mii_reg (l : gswip_link) (offset : Z) : Z :=
  default 0 (lk_mii l !! offset).

(* The mode code gswip_phylink_mac_config gives an interface, when it
   supports it. *)
Definition mii_cfg_mode (interface : phy_interface_t) : option Z :=
  match interface with
  | PHY_INTERFACE_MODE_MII | PHY_INTERFACE_MODE_INTERNAL => Some GSWIP_MII_CFG_MODE_MIIM
  | PHY_INTERFACE_MODE_REVMII => Some GSWIP_MII_CFG_MODE_MIIP
  | PHY_INTERFACE_MODE_RMII => Some GSWIP_MII_CFG_MODE_RMIIM
  | PHY_INTERFACE_MODE_RGMII | PHY_INTERFACE_MODE_RGMII_ID
  | PHY_INTERFACE_MODE_RGMII_RXID | PHY_INTERFACE_MODE_RGMII_TXID =>
      Some GSWIP_MII_CFG_MODE_RGMII
  | PHY_INTERFACE_MODE_GMII => Some GSWIP_MII_CFG_MODE_GMII
  | PHY_INTERFACE_MODE_OTHER => None
  end.




(* The kernel's phy_interface_mode_is_rgmii, on the modes named here. *)
Definition is_rgmii_example (interface : phy_interface_t) : bool :=
  match interface with
  | PHY_INTERFACE_MODE_RGMII | PHY_INTERFACE_MODE_RGMII_ID
  | PHY_INTERFACE_MODE_RGMII_RXID | PHY_INTERFACE_MODE_RGMII_TXID => true
  | _ => false
  end.

(* A stand-in for phylink_set_port_modes that sets two further modes. *)
Definition port_modes_example (mask : link_mode_mask) : link_mode_mask :=
  phylink_set (phylink_set mask (ETHTOOL_LINK_MODE_OTHER 7)) (ETHTOOL_LINK_MODE_OTHER 10).

(* A bitmap with every mode set. *)
Definition bitmap_full : link_mode_mask := fun _ => true.

(* A zeroed priv with an empty xMII window. *)
Definition link_example : gswip_link := mk_link priv_example ∅.

(* An RMII link for which every mode is advertised. *)
Definition state_example : phylink_link_state :=
  mk_link_state bitmap_full PHY_INTERFACE_MODE_RMII.

(** * Properties *)

(** ** Transport *)

Lemma poll_ok s :
  polls_ok s ->
  gswip_switch_r_timeout s =
    (0, set_dev (mk_hw (hw_regs (dev s)) (hw_mdio (dev s)) (hw_bank (dev s))
                       (tl (hw_polls (dev s))) (hw_ks (dev s))) s).
Proof.
  unfold polls_ok, gswip_switch_r_timeout. intros H.
  destruct (hw_polls (dev s)) as [|e l] eqn:E; simpl; [reflexivity|].
  inversion H; subst. reflexivity.
Qed.

Lemma polls_ok_tl s h :
  polls_ok s ->
  hw_polls h = tl (hw_polls (dev s)) ->
  polls_ok (set_dev h s).
Proof.
  unfold polls_ok. simpl. intros H ->.
  destruct (hw_polls (dev s)); simpl; [constructor|]. inversion H; assumption.
Qed.

Lemma polls_ok_polled s : polls_ok s -> polls_ok (polled s).
Proof.
  unfold polls_ok, polled. simpl. intros H.
  destruct (hw_polls (dev s)) as [|a [|b l]]; simpl; try constructor.
  inversion H as [|? ? _ H2]; subst. inversion H2; subst. assumption.
Qed.

Lemma polls_ok_written tbl s : polls_ok s -> polls_ok (written tbl s).
Proof. intros H. apply (polls_ok_polled s H). Qed.

Lemma polls_ok_reg_written v o s : polls_ok s -> polls_ok (reg_written v o s).
Proof. intros H. exact H. Qed.

Lemma polls_ok_set_vlans vl s : polls_ok s -> polls_ok (set_vlans vl s).
Proof. intros H. exact H. Qed.

Lemma polls_ok_set_klog l s : polls_ok s -> polls_ok (set_klog l s).
Proof. intros H. exact H. Qed.

Lemma polls_ok_set_filter f s : polls_ok s -> polls_ok (set_port_vlan_filter f s).
Proof. intros H. exact H. Qed.

Create HintDb gsw.
#[local] Hint Resolve polls_ok_polled polls_ok_written polls_ok_reg_written
  polls_ok_set_vlans polls_ok_set_klog polls_ok_set_filter : gsw.

Lemma write_ok tbl s :
  polls_ok s -> gswip_pce_table_entry_write tbl s = (0, written tbl s).
Proof.
  unfold polls_ok, gswip_pce_table_entry_write, gswip_switch_r_timeout, written,
    pce_commit, modify, bind, ret.
  intros H. destruct (hw_polls (dev s)) as [|a [|b l]] eqn:E; simpl.
  - reflexivity.
  - inversion H; subst. reflexivity.
  - inversion H as [|? ? ? H2]; subst. inversion H2; subst. reflexivity.
Qed.

Lemma read_ok tbl s :
  polls_ok s ->
  gswip_pce_table_entry_read tbl s =
    ((0, load_row (bank_row (dev s) (tbl_table tbl) (pce_addr (dev s) tbl)) tbl),
     polled s).
Proof.
  unfold polls_ok, gswip_pce_table_entry_read, gswip_switch_r_timeout, polled,
    get, bind, ret.
  intros H. destruct (hw_polls (dev s)) as [|a [|b l]] eqn:E; simpl.
  - reflexivity.
  - inversion H; subst. reflexivity.
  - inversion H as [|? ? ? H2]; subst. inversion H2; subst. reflexivity.
Qed.

Lemma switch_w_eq v o s : gswip_switch_w v o s = (tt, reg_written v o s).
Proof. reflexivity. Qed.

(** ** Slot search *)

Lemma scan_slots_first test vl n i r :
  i <= r < i + Z.of_nat n ->
  test (vlans_at vl r) = true ->
  (forall j, i <= j < r -> test (vlans_at vl j) = false) ->
  scan_slots test vl n i = r.
Proof.
  revert i. induction n as [|n IH]; intros i Hr Ht Hlow; simpl.
  - lia.
  - destruct (Z.eq_dec i r) as [->|Hne].
    + rewrite Ht. reflexivity.
    + rewrite (Hlow i) by lia. apply IH; [lia|assumption|].
      intros j Hj. apply Hlow. lia.
Qed.

Lemma scan_slots_none test vl n i :
  (forall j, i <= j < i + Z.of_nat n -> test (vlans_at vl j) = false) ->
  scan_slots test vl n i = -1.
Proof.
  revert i. induction n as [|n IH]; intros i H; simpl; [reflexivity|].
  rewrite (H i) by lia. apply IH. intros j Hj. apply H. lia.
Qed.

Lemma scan_slots_inv test vl n i :
  0 <= i ->
  let r := scan_slots test vl n i in
  (r = -1 /\ forall j, i <= j < i + Z.of_nat n -> test (vlans_at vl j) = false) \/
  (i <= r < i + Z.of_nat n /\ test (vlans_at vl r) = true /\
   forall j, i <= j < r -> test (vlans_at vl j) = false).
Proof.
  revert i. induction n as [|n IH]; intros i Hi; simpl.
  - left. split; [reflexivity|]. intros j Hj. lia.
  - destruct (test (vlans_at vl i)) eqn:E.
    + right. split; [lia|]. split; [assumption|]. intros j Hj. lia.
    + destruct (IH (i + 1) ltac:(lia)) as [[H1 H2]|[H1 [H2 H3]]].
      * left. split; [assumption|]. intros j Hj.
        destruct (Z.eq_dec j i) as [->|Hne]; [assumption|]. apply H2. lia.
      * right. split; [lia|]. split; [assumption|]. intros j Hj.
        destruct (Z.eq_dec j i) as [->|Hne]; [assumption|]. apply H3. lia.
Qed.

Lemma pool_range s j :
  0 <= max_ports (hw_info s) ->
  (max_ports (hw_info s) <= j <
     max_ports (hw_info s) + Z.of_nat (Z.to_nat (VLANS_SIZE - max_ports (hw_info s))))
  <-> in_pool s j.
Proof. unfold in_pool, VLANS_SIZE. lia. Qed.

Lemma find_slot_first test s r :
  0 <= max_ports (hw_info s) ->
  in_pool s r ->
  test (vlans_at (vlans s) r) = true ->
  (forall j, in_pool s j -> j < r -> test (vlans_at (vlans s) j) = false) ->
  find_slot test s = r.
Proof.
  intros HN Hr Ht Hlow. unfold find_slot. apply scan_slots_first.
  - apply pool_range; assumption.
  - assumption.
  - intros j Hj. apply Hlow; [|lia]. unfold in_pool in *. lia.
Qed.

Lemma find_slot_none test s :
  (forall j, in_pool s j -> test (vlans_at (vlans s) j) = false) ->
  find_slot test s = -1.
Proof.
  intros H. unfold find_slot. apply scan_slots_none. intros j Hj.
  apply H. unfold in_pool, VLANS_SIZE in *. lia.
Qed.

Lemma find_slot_inv test s :
  0 <= max_ports (hw_info s) ->
  let r := find_slot test s in
  (r = -1 /\ forall j, in_pool s j -> test (vlans_at (vlans s) j) = false) \/
  (in_pool s r /\ test (vlans_at (vlans s) r) = true /\
   forall j, in_pool s j -> j < r -> test (vlans_at (vlans s) j) = false).
Proof.
  intros HN. unfold find_slot.
  destruct (scan_slots_inv test (vlans s)
              (Z.to_nat (VLANS_SIZE - max_ports (hw_info s)))
              (max_ports (hw_info s)) HN) as [[H1 H2]|[H1 [H2 H3]]].
  - left. split; [assumption|]. intros j Hj. apply H2. apply pool_range; assumption.
  - right. split; [apply pool_range; assumption|]. split; [assumption|].
    intros j Hj Hlt. apply H3. unfold in_pool in Hj. lia.
Qed.

Lemma find_slot_frame test s s' :
  vlans s' = vlans s -> hw_info s' = hw_info s -> find_slot test s' = find_slot test s.
Proof. unfold find_slot. intros -> ->. reflexivity. Qed.

(** ** Registers *)

Lemma switch_mask_eq c st o s :
  gswip_switch_mask c st o s =
    (tt, reg_written (Z.lor (Z.land (reg s o) (Z.lnot c)) st) o s).
Proof. reflexivity. Qed.

Lemma reg_written_same v o s : reg (reg_written v o s) o = u32 v.
Proof. unfold reg, reg_written. simpl. rewrite lookup_insert_eq. reflexivity. Qed.

Lemma reg_written_other v o o' s : o <> o' -> reg (reg_written v o s) o' = reg s o'.
Proof.
  intros H. unfold reg, reg_written. simpl. rewrite lookup_insert_ne by assumption.
  reflexivity.
Qed.

(** ** VLAN filtering *)

(** C9. On a port that is a bridge member, a request to set VLAN filtering
    to a value other than the port's current one returns -EIO and leaves
    the whole driver state, every switch register included, as it was.  A
    request that keeps the current value, or one on a port without bridge,
    returns 0 after programming the port's VCTRL and PCTRL_0 registers. *)
Theorem vlan_filtering_toggle_gate ds port vlan_filtering s :
  (bridge_dev ds port <> NULL /\ port_filter_bit s port <> vlan_filtering ->
   gswip_port_vlan_filtering ds port vlan_filtering s = (- EIO, s)) /\
  (bridge_dev ds port = NULL \/ port_filter_bit s port = vlan_filtering ->
   let s' := snd (gswip_port_vlan_filtering ds port vlan_filtering s) in
   fst (gswip_port_vlan_filtering ds port vlan_filtering s) = 0 /\
   reg s' (GSWIP_PCE_VCTRL port) =
     (if vlan_filtering
      then u32 (Z.lor (Z.land (reg s (GSWIP_PCE_VCTRL port)) (Z.lnot GSWIP_PCE_VCTRL_VSR))
                      (Z.lor (Z.lor GSWIP_PCE_VCTRL_UVR GSWIP_PCE_VCTRL_VIMR)
                             GSWIP_PCE_VCTRL_VEMR))
      else u32 (Z.lor (Z.land (reg s (GSWIP_PCE_VCTRL port))
                              (Z.lnot (Z.lor (Z.lor GSWIP_PCE_VCTRL_UVR GSWIP_PCE_VCTRL_VIMR)
                                             GSWIP_PCE_VCTRL_VEMR)))
                      GSWIP_PCE_VCTRL_VSR)) /\
   reg s' (GSWIP_PCE_PCTRL_0p port) =
     (if vlan_filtering
      then u32 (Z.lor (Z.land (reg s (GSWIP_PCE_PCTRL_0p port))
                              (Z.lnot GSWIP_PCE_PCTRL_0_TVM)) 0)
      else u32 (Z.lor (Z.land (reg s (GSWIP_PCE_PCTRL_0p port)) (Z.lnot 0))
                      GSWIP_PCE_PCTRL_0_TVM)) /\
   vlans s' = vlans s /\ port_vlan_filter s' = port_vlan_filter s /\
   hw_bank (dev s') = hw_bank (dev s)).
Proof.
  assert (Hne : GSWIP_PCE_PCTRL_0p port <> GSWIP_PCE_VCTRL port)
    by (unfold GSWIP_PCE_PCTRL_0p, GSWIP_PCE_VCTRL; lia).
  split.
  - intros [Hb Hf]. unfold gswip_port_vlan_filtering, bind, get.
    apply Z.eqb_neq in Hb. rewrite Hb.
    destruct (port_filter_bit s port), vlan_filtering;
      try (exfalso; apply Hf; reflexivity); reflexivity.
  - intros Hc. unfold gswip_port_vlan_filtering, bind, get.
    assert (Hg : negb (bridge_dev ds port =? NULL) &&
                 negb (eqb (port_filter_bit s port) vlan_filtering) = false).
    { destruct Hc as [Hc|Hc].
      - rewrite Hc. reflexivity.
      - rewrite Hc, eqb_reflx. apply andb_false_r. }
    rewrite Hg. destruct vlan_filtering; rewrite !switch_mask_eq; simpl;
      rewrite reg_written_same; (rewrite reg_written_other by assumption);
      rewrite ?reg_written_same, ?reg_written_other by congruence; tauto.
Qed.

(** ** Typing facts *)

Lemma u16_id x : 0 <= x < 65536 -> u16 x = x.
Proof.
  intros H. unfold u16. change 65535 with (Z.ones 16).
  rewrite Z.land_ones by lia. apply Z.mod_small. exact H.
Qed.

Lemma u8_id x : 0 <= x < 256 -> u8 x = x.
Proof.
  intros H. unfold u8. change 255 with (Z.ones 8).
  rewrite Z.land_ones by lia. apply Z.mod_small. exact H.
Qed.

Lemma vlans_at_typed vl i : Forall vlan_typed vl -> vlan_typed (vlans_at vl i).
Proof.
  intros H. unfold vlans_at. destruct (vl !! Z.to_nat i) as [v|] eqn:E; simpl.
  - eapply Forall_lookup_1; eassumption.
  - unfold vlan_typed, vlan0. simpl. lia.
Qed.

(** ** Static forwarding entries *)

(** C10. A static forwarding-table add or delete on a port takes the flow
    id of its key from the lowest-index slot of the pool range bound to
    the port's bridge.  Without a bridge, or without a slot bound to it,
    it returns -EINVAL and the switch is left untouched. *)
Theorem fdb_flow_id_from_first_slot ds port addr vid add s :
  let bridge := bridge_dev ds port in
  let r := gswip_port_fdb ds port addr vid add s in
  (bridge = NULL -> r = (- EINVAL, s)) /\
  (bridge <> NULL ->
   (forall j, in_pool s j -> vlan_bridge (vlans_at (vlans s) j) <> bridge) ->
   fst r = - EINVAL /\ dev (snd r) = dev s /\ vlans (snd r) = vlans s) /\
  (forall i,
     bridge <> NULL -> priv_typed s -> polls_ok s ->
     in_pool s i -> vlan_bridge (vlans_at (vlans s) i) = bridge ->
     (forall j, in_pool s j -> j < i -> vlan_bridge (vlans_at (vlans s) j) <> bridge) ->
     let fid := vlan_fid (vlans_at (vlans s) i) in
     fst r = 0 /\
     hw_bank (dev (snd r)) =
       <[(GSWIP_TABLE_MAC_BRIDGE,
          hw_ks (dev s) (hw_bank (dev s)) GSWIP_TABLE_MAC_BRIDGE (fdb_key addr fid))
         := fdb_static_row addr fid port add]> (hw_bank (dev s)) /\
     vlans (snd r) = vlans s).
Proof.
  unfold gswip_port_fdb. cbv zeta. generalize (bridge_dev ds port). intros bridge.
  unfold bind, get, ret, dev_err, modify. cbv beta iota.
  split; [|split].
  - intros ->. reflexivity.
  - intros Hb Hnone. apply Z.eqb_neq in Hb. rewrite Hb.
    rewrite (find_slot_none (fun v => vlan_bridge v =? bridge) s).
    + simpl. auto.
    + intros j Hj. apply Z.eqb_neq. apply Hnone. exact Hj.
  - intros i Hb Hty Hp Hi Hbi Hlow. apply Z.eqb_neq in Hb. rewrite Hb.
    destruct Hty as (Hlen & Hall & [HN HN'] & Hcpu).
    rewrite (find_slot_first (fun v => vlan_bridge v =? bridge) s i); auto.
    2:{ apply Z.eqb_eq. exact Hbi. }
    2:{ intros j Hj Hlt. apply Z.eqb_neq. apply Hlow; assumption. }
    set (fid := vlan_fid (vlans_at (vlans s) i)).
    assert (Hfid : 0 <= fid < 256) by (apply (vlans_at_typed (vlans s) i Hall)).
    assert (Hi1 : (i =? -1) = false) by (apply Z.eqb_neq; unfold in_pool in Hi; lia).
    rewrite Hi1.
    assert (Hf1 : (fid =? -1) = false) by (apply Z.eqb_neq; lia).
    rewrite Hf1. rewrite write_ok by assumption.
    simpl. split; [reflexivity|]. split; [|reflexivity].
    unfold fdb_static_row, fdb_key, row_of_entry, pce_addr. simpl.
    rewrite (u16_id fid) by lia. reflexivity.
Qed.

(** ** Port maps *)

Lemma testbit_BIT p q : 0 <= p -> Z.testbit (BIT p) q = (p =? q).
Proof.
  intros Hp. unfold BIT. rewrite Z.shiftl_1_l. apply Z.pow2_bits_eqb. exact Hp.
Qed.

Lemma u16_testbit x q : 0 <= q -> Z.testbit (u16 x) q = Z.testbit x q && (q <? 16).
Proof.
  intros Hq. unfold u16. change 65535 with (Z.ones 16).
  rewrite Z.land_spec, Z.testbit_ones_nonneg by lia. reflexivity.
Qed.

Lemma u16_idem x : u16 (u16 x) = u16 x.
Proof.
  apply Z.bits_inj'. intros q Hq. rewrite !u16_testbit by assumption.
  destruct (Z.testbit x q), (q <? 16); reflexivity.
Qed.

Lemma u16_fits x :
  (forall q, 16 <= q -> Z.testbit x q = false) -> u16 x = x.
Proof.
  intros H. apply Z.bits_inj'. intros q Hq. rewrite u16_testbit by assumption.
  destruct (Z.ltb_spec q 16); [apply andb_true_r|].
  rewrite H by assumption. reflexivity.
Qed.

Lemma u16_port_pair p c :
  0 <= p < 16 -> 0 <= c < 16 -> u16 (Z.lor (BIT p) (BIT c)) = Z.lor (BIT p) (BIT c).
Proof.
  intros Hp Hc. apply u16_fits. intros q Hq.
  rewrite Z.lor_spec, !testbit_BIT by lia.
  destruct (Z.eqb_spec p q), (Z.eqb_spec c q); try lia; reflexivity.
Qed.


Lemma u32_id x : 0 <= x < 4294967296 -> u32 x = x.
Proof.
  intros H. unfold u32. change 4294967295 with (Z.ones 32).
  rewrite Z.land_ones by lia. apply Z.mod_small. exact H.
Qed.

(** ** Running the monad *)

Ltac mrun := unfold bind, get, ret, dev_err, modify; cbv beta iota zeta.

Ltac mok :=
  repeat first
    [ progress (cbv beta iota zeta)
    | progress (change (negb (0 =? 0)) with false)
    | progress (rewrite ?write_ok, ?read_ok by auto with gsw) ];
  cbn [fst snd].

(** ** Single-port bridges *)

Lemma add_single_port_br_ok port add s :
  priv_typed s -> polls_ok s -> 0 <= port < max_ports (hw_info s) ->
  let r := gswip_add_single_port_br port add s in
  fst r = 0 /\
  hw_bank (dev (snd r)) =
    (if add
     then <[(GSWIP_TABLE_VLAN_MAPPING, port + 1)
            := single_port_mapping_row port (cpu_port (hw_info s))]>
            (<[(GSWIP_TABLE_ACTIVE_VLAN, port + 1) := single_port_active_row port true]>
               (hw_bank (dev s)))
     else <[(GSWIP_TABLE_ACTIVE_VLAN, port + 1) := single_port_active_row port false]>
            (hw_bank (dev s))) /\
  hw_regs (dev (snd r)) = hw_regs (dev s) /\
  hw_mdio (dev (snd r)) = hw_mdio (dev s) /\
  vlans (snd r) = vlans s /\ hw_info (snd r) = hw_info s /\ polls_ok (snd r).
Proof.
  intros (Hlen & Hall & [HN HN'] & Hcpu) Hp Hport.
  unfold gswip_add_single_port_br. mrun.
  rewrite (u32_id port) by lia.
  assert (Hlt : (port >=? max_ports (hw_info s)) = false) by lia.
  rewrite Hlt. mok.
  destruct add.
  - change (negb true) with false. mok.
    split; [reflexivity|]. split.
    + unfold written, pce_addr, row_of_entry, single_port_mapping_row,
        single_port_active_row. simpl.
      rewrite (u16_id (port + 1)) by lia.
      rewrite u16_port_pair by lia. reflexivity.
    + repeat split. auto with gsw.
  - change (negb false) with true. mok.
    split; [reflexivity|]. split.
    + unfold written, pce_addr, row_of_entry, single_port_active_row. simpl.
      rewrite (u16_id (port + 1)) by lia. reflexivity.
    + repeat split. auto with gsw.
Qed.

Lemma user_port_not_cpu ds port :
  dsa_is_user_port ds port = true -> dsa_is_cpu_port ds port = false.
Proof.
  unfold dsa_is_user_port, dsa_is_cpu_port.
  destruct (port_type ds port); congruence.
Qed.


(** ** Slot array *)

Lemma vlans_at_insert_same (vl : list gswip_vlan) i v :
  0 <= i -> (Z.to_nat i < length vl)%nat ->
  vlans_at (<[Z.to_nat i := v]> vl) i = v.
Proof.
  intros Hi Hlt. unfold vlans_at. rewrite list_lookup_insert_eq by assumption.
  reflexivity.
Qed.

Lemma vlans_at_insert_other (vl : list gswip_vlan) i j v :
  0 <= i -> 0 <= j -> i <> j ->
  vlans_at (<[Z.to_nat i := v]> vl) j = vlans_at vl j.
Proof.
  intros Hi Hj Hne. unfold vlans_at. rewrite list_lookup_insert_ne by lia.
  reflexivity.
Qed.

Lemma in_pool_nat s i :
  priv_typed s -> in_pool s i -> 0 <= i /\ (Z.to_nat i < length (vlans s))%nat.
Proof.
  intros (Hlen & _ & HN & _) Hi. unfold in_pool, VLANS_SIZE in Hi.
  rewrite Hlen. lia.
Qed.

(** ** Transactions under arbitrary poll outcomes *)

Lemma table_step_refl s : table_step s s.
Proof. unfold table_step. tauto. Qed.

Lemma table_step_trans s1 s2 s3 :
  table_step s1 s2 -> table_step s2 s3 -> table_step s1 s3.
Proof.
  unfold table_step. intros (A1 & A2 & A3 & A4 & A5 & A6) (B1 & B2 & B3 & B4 & B5 & B6).
  repeat split; try congruence. auto.
Qed.

Lemma poll_frame s :
  table_step s (snd (gswip_switch_r_timeout s)) /\
  hw_bank (dev (snd (gswip_switch_r_timeout s))) = hw_bank (dev s) /\
  (polls_errno s -> fst (gswip_switch_r_timeout s) <= 0).
Proof.
  unfold gswip_switch_r_timeout, table_step, polls_errno. simpl.
  repeat split.
  - intros H. destruct (hw_polls (dev s)); simpl; [constructor|].
    inversion H; assumption.
  - intros H. destruct (hw_polls (dev s)); simpl; [lia|].
    inversion H; assumption.
Qed.

Lemma write_frame tbl s :
  table_step s (snd (gswip_pce_table_entry_write tbl s)) /\
  (polls_errno s -> fst (gswip_pce_table_entry_write tbl s) <= 0).
Proof.
  unfold gswip_pce_table_entry_write. mrun.
  destruct (poll_frame s) as (F1 & _ & E1).
  destruct (gswip_switch_r_timeout s) as [e s1]. cbn [fst snd] in *.
  destruct (e =? 0); cbn [negb].
  - unfold pce_commit. mrun.
    match goal with |- context [gswip_switch_r_timeout ?x] =>
      destruct (poll_frame x) as (F2 & _ & E2);
      destruct (gswip_switch_r_timeout x) as [e2 s2] end.
    cbn [fst snd] in *. split.
    + eapply table_step_trans; [exact F1|].
      eapply table_step_trans; [|exact F2].
      unfold table_step, polls_errno. simpl. tauto.
    + intros H. apply E2. destruct F1 as (_ & _ & _ & _ & _ & F1). apply F1 in H.
      exact H.
  - split; [exact F1|exact E1].
Qed.

Lemma read_frame tbl s :
  table_step s (snd (gswip_pce_table_entry_read tbl s)) /\
  hw_bank (dev (snd (gswip_pce_table_entry_read tbl s))) = hw_bank (dev s) /\
  (polls_errno s -> fst (fst (gswip_pce_table_entry_read tbl s)) <= 0).
Proof.
  unfold gswip_pce_table_entry_read. mrun.
  destruct (poll_frame s) as (F1 & B1 & E1).
  destruct (gswip_switch_r_timeout s) as [e s1]. cbn [fst snd] in *.
  destruct (e =? 0); cbn [negb].
  - destruct (poll_frame s1) as (F2 & B2 & E2).
    destruct (gswip_switch_r_timeout s1) as [e2 s2]. cbn [fst snd] in *.
    assert (F : table_step s s2) by (eapply table_step_trans; eassumption).
    destruct (e2 =? 0); cbn [negb fst snd]; (split; [exact F|]);
      (split; [congruence|]); intros H; try lia.
    apply E2. destruct F1 as (_ & _ & _ & _ & _ & F1). auto.
  - cbn [fst snd]. split; [exact F1|]. split; [exact B1|exact E1].
Qed.

(** ** Slot creation and release *)

Lemma create_enospc bridge fid vid s :
  find_slot slot_free s = -1 ->
  gswip_vlan_active_create bridge fid vid s = (- ENOSPC, s).
Proof.
  intros H. unfold gswip_vlan_active_create. mrun. rewrite H. reflexivity.
Qed.

Lemma create_ok bridge fid vid s :
  polls_ok s -> find_slot slot_free s <> -1 ->
  let idx := find_slot slot_free s in
  gswip_vlan_active_create bridge fid vid s =
    (idx, created idx bridge vid (if fid =? -1 then idx else fid) s).
Proof.
  intros Hp Hi. cbv zeta. unfold gswip_vlan_active_create. mrun.
  apply Z.eqb_neq in Hi. rewrite Hi. mok. unfold bind_slot. mrun. reflexivity.
Qed.

Lemma create_shape bridge fid vid s :
  polls_errno s -> 0 <= max_ports (hw_info s) ->
  let r := gswip_vlan_active_create bridge fid vid s in
  let idx := find_slot slot_free s in
  hw_info (snd r) = hw_info s /\ polls_errno (snd r) /\
  ((fst r < 0 /\ vlans (snd r) = vlans s) \/
   (in_pool s idx /\ fst r = idx /\
    vlans (snd r) =
      <[Z.to_nat idx := mk_vlan bridge (u16 vid) (u8 (if fid =? -1 then idx else fid))]>
        (vlans s))).
Proof.
  intros Hp HN. cbv zeta. unfold gswip_vlan_active_create. mrun.
  destruct (find_slot_inv slot_free s HN) as [[E _]|[Hin _]]; cbv zeta in *.
  - rewrite E. simpl. split; [reflexivity|]. split; [assumption|]. left.
    split; [unfold ENOSPC; lia|reflexivity].
  - assert (E : (find_slot slot_free s =? -1) = false)
      by (apply Z.eqb_neq; unfold in_pool in Hin; lia).
    rewrite E.
    match goal with |- context [gswip_pce_table_entry_write ?t s] =>
      destruct (write_frame t s) as ((V & I & _ & _ & _ & P) & Er);
      destruct (gswip_pce_table_entry_write t s) as [e s1] end.
    cbn [fst snd] in *. specialize (Er Hp). specialize (P Hp).
    destruct (Z.eqb_spec e 0) as [->|Hne]; cbn [negb fst snd].
    + unfold bind_slot. mrun. cbn [fst snd]. simpl.
      split; [assumption|]. split; [exact P|]. right.
      split; [assumption|]. split; [reflexivity|]. rewrite V. reflexivity.
    + simpl. split; [assumption|]. split; [exact P|]. left. split; [lia|assumption].
Qed.

Lemma remove_shape idx s :
  polls_errno s ->
  let r := gswip_vlan_active_remove idx s in
  hw_info (snd r) = hw_info s /\ polls_errno (snd r) /\ fst r <= 0 /\
  vlans (snd r) =
    <[Z.to_nat idx := mk_vlan NULL (vlan_vid (vlans_at (vlans s) idx))
                              (vlan_fid (vlans_at (vlans s) idx))]> (vlans s).
Proof.
  intros Hp. cbv zeta. unfold gswip_vlan_active_remove. mrun.
  match goal with |- context [gswip_pce_table_entry_write ?t s] =>
    destruct (write_frame t s) as ((V & I & _ & _ & _ & P) & Er);
    destruct (gswip_pce_table_entry_write t s) as [e s1] end.
  cbn [fst snd] in *. specialize (Er Hp). specialize (P Hp).
  unfold clear_slot. mrun.
  destruct (e =? 0); cbn [negb fst snd]; simpl; rewrite V;
    (split; [assumption|]); (split; [exact P|]); (split; [assumption|reflexivity]).
Qed.

(** ** The scan of gswip_vlan_add_aware *)

Lemma log_step_refl s : log_step s s.
Proof. unfold log_step. tauto. Qed.

Lemma log_step_trans s1 s2 s3 : log_step s1 s2 -> log_step s2 s3 -> log_step s1 s3.
Proof.
  unfold log_step. intros (A1 & A2 & A3 & A4) (B1 & B2 & B3 & B4).
  repeat split; congruence.
Qed.

Lemma log_step_dev_err msg s : log_step s (snd (dev_err msg s)).
Proof. unfold log_step. simpl. tauto. Qed.

Lemma log_step_polls_ok s s' : log_step s s' -> polls_ok s -> polls_ok s'.
Proof. unfold log_step, polls_ok. intros (_ & _ & -> & _). trivial. Qed.

Lemma log_step_polls_errno s s' : log_step s s' -> polls_errno s -> polls_errno s'.
Proof. unfold log_step, polls_errno. intros (_ & _ & -> & _). trivial. Qed.

Lemma aware_scan_pure bridge vid n i fid s :
  exists s', aware_scan bridge vid n i fid s =
               (aware_scan_result bridge vid (vlans s) n i fid, s') /\
             log_step s s'.
Proof.
  revert i fid s. induction n as [|n IH]; intros i fid s; simpl.
  - exists s. split; [reflexivity|apply log_step_refl].
  - unfold bind at 1. unfold get at 1. cbv beta iota.
    destruct (vlan_bridge (vlans_at (vlans s) i) =? bridge).
    + unfold bind at 1.
      set (c := if negb (fid =? -1) && negb (fid =? vlan_fid (vlans_at (vlans s) i))
                then dev_err "one bridge with multiple flow ids" else ret tt).
      assert (Hc : log_step s (snd (c s))).
      { subst c. destruct (negb (fid =? -1) &&
                           negb (fid =? vlan_fid (vlans_at (vlans s) i)));
          [apply log_step_dev_err|apply log_step_refl]. }
      destruct (c s) as [[] s1]. cbn [snd] in Hc.
      destruct (vlan_vid (vlans_at (vlans s) i) =? vid).
      * exists s1. split; [reflexivity|exact Hc].
      * destruct (IH (i + 1) (vlan_fid (vlans_at (vlans s) i)) s1) as (s2 & E & L).
        exists s2. destruct Hc as (Hv & Hrest). rewrite Hv in E.
        split; [exact E|].
        eapply log_step_trans; [|exact L]. unfold log_step. tauto.
    + apply IH.
Qed.

Lemma aware_scan_result_idx bridge vid vl n i fid :
  fst (aware_scan_result bridge vid vl n i fid) =
    scan_slots (fun v => (vlan_bridge v =? bridge) && (vlan_vid v =? vid)) vl n i.
Proof.
  revert i fid. induction n as [|n IH]; intros i fid; simpl; [reflexivity|].
  destruct (vlan_bridge (vlans_at vl i) =? bridge); simpl.
  - destruct (vlan_vid (vlans_at vl i) =? vid); simpl; [reflexivity|apply IH].
  - apply IH.
Qed.

(* The flow id the scan ends with is the initial one when it met no slot
   of the bridge, else that of a slot of the bridge it went over. *)
Lemma aware_scan_result_fid bridge vid vl n i fid :
  let r := aware_scan_result bridge vid vl n i fid in
  (snd r = fid /\
   (fst r = -1 ->
    forall j, i <= j < i + Z.of_nat n -> vlan_bridge (vlans_at vl j) <> bridge)) \/
  (exists j, i <= j < i + Z.of_nat n /\ vlan_bridge (vlans_at vl j) = bridge /\
             snd r = vlan_fid (vlans_at vl j)).
Proof.
  revert i fid. induction n as [|n IH]; intros i fid; simpl.
  - left. split; [reflexivity|]. intros _ j Hj. lia.
  - destruct (Z.eqb_spec (vlan_bridge (vlans_at vl i)) bridge) as [Hb|Hb].
    + destruct (vlan_vid (vlans_at vl i) =? vid); simpl.
      * right. exists i. split; [lia|]. split; [assumption|reflexivity].
      * destruct (IH (i + 1) (vlan_fid (vlans_at vl i))) as [[E _]|(j & Hj & Hbj & E)].
        -- right. exists i. split; [lia|]. split; [assumption|exact E].
        -- right. exists j. split; [lia|]. split; assumption.
    + destruct (IH (i + 1) fid) as [[E Hn]|(j & Hj & Hbj & E)].
      * left. split; [exact E|]. intros H1 j Hj.
        destruct (Z.eq_dec j i) as [->|Hne]; [assumption|]. apply Hn; [assumption|lia].
      * right. exists j. split; [lia|]. split; assumption.
Qed.

(** ** Projections of the states the transactions leave *)

Lemma vlans_polled s : vlans (polled s) = vlans s.
Proof. reflexivity. Qed.
Lemma vlans_written t s : vlans (written t s) = vlans s.
Proof. reflexivity. Qed.
Lemma vlans_reg_written v o s : vlans (reg_written v o s) = vlans s.
Proof. reflexivity. Qed.
Lemma vlans_set_klog l s : vlans (set_klog l s) = vlans s.
Proof. reflexivity. Qed.
Lemma vlans_set_vlans vl s : vlans (set_vlans vl s) = vl.
Proof. reflexivity. Qed.
Lemma vlans_created i b v f s :
  vlans (created i b v f s) = <[Z.to_nat i := mk_vlan b (u16 v) (u8 f)]> (vlans s).
Proof. reflexivity. Qed.

Lemma hw_info_polled s : hw_info (polled s) = hw_info s.
Proof. reflexivity. Qed.
Lemma hw_info_written t s : hw_info (written t s) = hw_info s.
Proof. reflexivity. Qed.
Lemma hw_info_reg_written v o s : hw_info (reg_written v o s) = hw_info s.
Proof. reflexivity. Qed.
Lemma hw_info_set_klog l s : hw_info (set_klog l s) = hw_info s.
Proof. reflexivity. Qed.
Lemma hw_info_set_vlans vl s : hw_info (set_vlans vl s) = hw_info s.
Proof. reflexivity. Qed.
Lemma hw_info_created i b v f s : hw_info (created i b v f s) = hw_info s.
Proof. reflexivity. Qed.

Lemma bank_polled s : hw_bank (dev (polled s)) = hw_bank (dev s).
Proof. reflexivity. Qed.
Lemma bank_written t s :
  tbl_key_mode t = false ->
  hw_bank (dev (written t s)) =
    <[(tbl_table t, tbl_index t) := row_of_entry t]> (hw_bank (dev s)).
Proof. intros H. unfold written, pce_addr. rewrite H. reflexivity. Qed.
Lemma bank_reg_written v o s : hw_bank (dev (reg_written v o s)) = hw_bank (dev s).
Proof. reflexivity. Qed.
Lemma bank_set_klog l s : hw_bank (dev (set_klog l s)) = hw_bank (dev s).
Proof. reflexivity. Qed.
Lemma bank_set_vlans vl s : hw_bank (dev (set_vlans vl s)) = hw_bank (dev s).
Proof. reflexivity. Qed.
Lemma bank_created i b v f s :
  hw_bank (dev (created i b v f s)) =
    <[(GSWIP_TABLE_ACTIVE_VLAN, u16 i) := row_of_entry (active_vlan_entry i v f)]>
      (hw_bank (dev s)).
Proof. reflexivity. Qed.

Lemma regs_polled s : hw_regs (dev (polled s)) = hw_regs (dev s).
Proof. reflexivity. Qed.
Lemma regs_written t s : hw_regs (dev (written t s)) = hw_regs (dev s).
Proof. reflexivity. Qed.
Lemma regs_reg_written v o s :
  hw_regs (dev (reg_written v o s)) = <[o := u32 v]> (hw_regs (dev s)).
Proof. reflexivity. Qed.
Lemma regs_set_klog l s : hw_regs (dev (set_klog l s)) = hw_regs (dev s).
Proof. reflexivity. Qed.
Lemma regs_set_vlans vl s : hw_regs (dev (set_vlans vl s)) = hw_regs (dev s).
Proof. reflexivity. Qed.
Lemma regs_created i b v f s : hw_regs (dev (created i b v f s)) = hw_regs (dev s).
Proof. reflexivity. Qed.

Lemma polls_ok_created i b v f s : polls_ok s -> polls_ok (created i b v f s).
Proof. intros H. unfold created. auto with gsw. Qed.

#[local] Hint Resolve polls_ok_created : gsw.

Create Rewrite HintDb gswdb.
#[local] Hint Rewrite vlans_polled vlans_written vlans_reg_written vlans_set_klog
  vlans_set_vlans vlans_created hw_info_polled hw_info_written hw_info_reg_written
  hw_info_set_klog hw_info_set_vlans hw_info_created bank_polled bank_reg_written
  bank_set_klog bank_set_vlans bank_created regs_polled regs_written regs_reg_written
  regs_set_klog regs_set_vlans regs_created : gswdb.

Lemma aware_mapping_addr e vid c p u :
  tbl_table (aware_mapping e vid c p u) = tbl_table e /\
  tbl_index (aware_mapping e vid c p u) = tbl_index e /\
  tbl_key_mode (aware_mapping e vid c p u) = tbl_key_mode e.
Proof. destruct u; repeat split. Qed.

Lemma unaware_mapping_addr e c p :
  tbl_table (unaware_mapping e c p) = tbl_table e /\
  tbl_index (unaware_mapping e c p) = tbl_index e /\
  tbl_key_mode (unaware_mapping e c p) = tbl_key_mode e.
Proof. repeat split. Qed.

Lemma remove_mapping_addr e p :
  tbl_table (remove_mapping e p) = tbl_table e /\
  tbl_index (remove_mapping e p) = tbl_index e /\
  tbl_key_mode (remove_mapping e p) = tbl_key_mode e.
Proof. repeat split. Qed.

Lemma read_mapping_view s s1 idx :
  dev s1 = dev s -> 0 <= idx < 65536 ->
  load_row (bank_row (dev s1) (tbl_table (mapping_entry0 idx))
                     (pce_addr (dev s1) (mapping_entry0 idx)))
           (mapping_entry0 idx)
  = read_view s GSWIP_TABLE_VLAN_MAPPING idx.
Proof.
  intros -> H. unfold read_view, mapping_entry0, pce_addr. simpl.
  rewrite (u16_id idx) by lia. reflexivity.
Qed.

(** ** gswip_vlan_add_aware when no poll times out *)

Lemma add_aware_existing_ok bridge port vid untagged pvid s idx :
  polls_ok s -> 0 <= idx < 65536 ->
  fst (aware_scan_result bridge vid (vlans s)
         (Z.to_nat (VLANS_SIZE - max_ports (hw_info s))) (max_ports (hw_info s)) (-1))
    = idx ->
  idx <> -1 ->
  exists s',
    gswip_vlan_add_aware bridge port vid untagged pvid s = (0, s') /\
    hw_bank (dev s') =
      <[(GSWIP_TABLE_VLAN_MAPPING, idx)
        := row_of_entry (aware_mapping (read_view s GSWIP_TABLE_VLAN_MAPPING idx) vid
                                       (cpu_port (hw_info s)) port untagged)]>
        (hw_bank (dev s)) /\
    hw_regs (dev s') =
      (if pvid then <[GSWIP_PCE_DEFPVID port := u32 idx]> (hw_regs (dev s))
       else hw_regs (dev s)) /\
    vlans s' = vlans s /\ hw_info s' = hw_info s /\ polls_ok s'.
Proof.
  intros Hp Hidx Hscan Hne. unfold gswip_vlan_add_aware.
  unfold bind at 1. unfold get at 1. cbv beta iota zeta.
  unfold bind at 1.
  destruct (aware_scan_pure bridge vid
              (Z.to_nat (VLANS_SIZE - max_ports (hw_info s)))
              (max_ports (hw_info s)) (-1) s) as (s1 & E & L).
  rewrite E. clear E.
  destruct (aware_scan_result bridge vid (vlans s)
              (Z.to_nat (VLANS_SIZE - max_ports (hw_info s)))
              (max_ports (hw_info s)) (-1)) as [idx0 fid0].
  cbn [fst] in Hscan. subst idx0.
  assert (E1 : (idx =? -1) = false) by (apply Z.eqb_neq; lia).
  rewrite E1. pose proof (log_step_polls_ok s s1 L Hp) as Hp1.
  destruct L as (Lv & Li & Ld & Lf).
  mrun. fold (mapping_entry0 idx). mok.
  rewrite (read_mapping_view s s1 idx Ld Hidx).
  set (m := aware_mapping (read_view s GSWIP_TABLE_VLAN_MAPPING idx) vid
                          (cpu_port (hw_info s)) port untagged).
  assert (Hm : tbl_table m = GSWIP_TABLE_VLAN_MAPPING /\ tbl_index m = idx /\
               tbl_key_mode m = false).
  { subst m. destruct (aware_mapping_addr (read_view s GSWIP_TABLE_VLAN_MAPPING idx)
                         vid (cpu_port (hw_info s)) port untagged) as (-> & -> & ->).
    unfold read_view. simpl. rewrite (u16_id idx) by lia. repeat split. }
  destruct Hm as (Ht & Hi & Hk).
  destruct pvid; rewrite ?switch_w_eq; cbv beta iota;
    (eexists; split; [reflexivity|]);
    autorewrite with gswdb; rewrite (bank_written m _ Hk), Ht, Hi;
    autorewrite with gswdb; rewrite ?Ld, ?Lv, ?Li; repeat split; auto with gsw.
Qed.

Lemma add_aware_new_ok bridge port vid untagged pvid s idx fid0 :
  polls_ok s -> 0 <= idx < 65536 ->
  aware_scan_result bridge vid (vlans s)
    (Z.to_nat (VLANS_SIZE - max_ports (hw_info s))) (max_ports (hw_info s)) (-1)
    = (-1, fid0) ->
  find_slot slot_free s = idx ->
  let fid := if fid0 =? -1 then idx else fid0 in
  exists s',
    gswip_vlan_add_aware bridge port vid untagged pvid s = (0, s') /\
    hw_bank (dev s') =
      <[(GSWIP_TABLE_VLAN_MAPPING, idx)
        := row_of_entry (aware_mapping (with_val 0 vid (mapping_entry0 idx)) vid
                                       (cpu_port (hw_info s)) port untagged)]>
        (<[(GSWIP_TABLE_ACTIVE_VLAN, idx) := row_of_entry (active_vlan_entry idx vid fid)]>
           (hw_bank (dev s))) /\
    hw_regs (dev s') =
      (if pvid then <[GSWIP_PCE_DEFPVID port := u32 idx]> (hw_regs (dev s))
       else hw_regs (dev s)) /\
    vlans s' = <[Z.to_nat idx := mk_vlan bridge (u16 vid) (u8 fid)]> (vlans s) /\
    hw_info s' = hw_info s /\ polls_ok s'.
Proof.
  intros Hp Hidx Hscan Hfree fid. unfold gswip_vlan_add_aware.
  unfold bind at 1. unfold get at 1. cbv beta iota zeta.
  unfold bind at 1.
  destruct (aware_scan_pure bridge vid
              (Z.to_nat (VLANS_SIZE - max_ports (hw_info s)))
              (max_ports (hw_info s)) (-1) s) as (s1 & E & L).
  rewrite E, Hscan. clear E.
  pose proof (log_step_polls_ok s s1 L Hp) as Hp1.
  destruct L as (Lv & Li & Ld & Lf).
  assert (Hfree1 : find_slot slot_free s1 = idx)
    by (rewrite (find_slot_frame slot_free s s1 Lv Li); exact Hfree).
  change (-1 =? -1) with true. mrun.
  rewrite create_ok by (auto; rewrite Hfree1; lia).
  cbv zeta. rewrite Hfree1. fold fid.
  assert (E1 : (idx <? 0) = false) by lia.
  rewrite E1. fold (mapping_entry0 idx). mok.
  set (m := aware_mapping (with_val 0 vid (mapping_entry0 idx)) vid
                          (cpu_port (hw_info s)) port untagged).
  assert (Hm : tbl_table m = GSWIP_TABLE_VLAN_MAPPING /\ tbl_index m = idx /\
               tbl_key_mode m = false).
  { subst m. destruct (aware_mapping_addr (with_val 0 vid (mapping_entry0 idx))
                         vid (cpu_port (hw_info s)) port untagged) as (-> & -> & ->).
    simpl. rewrite (u16_id idx) by lia. repeat split. }
  destruct Hm as (Ht & Hi & Hk).
  destruct pvid; rewrite ?switch_w_eq; cbv beta iota;
    (eexists; split; [reflexivity|]);
    autorewrite with gswdb; rewrite (bank_written m _ Hk), Ht, Hi;
    autorewrite with gswdb; rewrite ?Ld, ?Lv, ?Li, ?(u16_id idx) by lia;
    repeat split; auto with gsw.
Qed.

(** ** Words of the VLAN-mapping entry *)

Lemma word_at_with_val_same i x e :
  (i < length (tbl_val e))%nat -> word_at (tbl_val (with_val i x e)) i = u16 x.
Proof.
  intros H. unfold word_at, with_val. simpl.
  rewrite list_lookup_insert_eq by assumption. reflexivity.
Qed.

Lemma word_at_with_val_other i j x e :
  i <> j -> word_at (tbl_val (with_val i x e)) j = word_at (tbl_val e) j.
Proof.
  intros H. unfold word_at, with_val. simpl.
  rewrite list_lookup_insert_ne by assumption. reflexivity.
Qed.

Lemma length_with_val i x e : length (tbl_val (with_val i x e)) = length (tbl_val e).
Proof. unfold with_val. simpl. apply length_insert. Qed.

Lemma read_view_length s t i :
  bank_typed s -> length (tbl_val (read_view s t i)) = 5%nat.
Proof.
  intros H. unfold read_view, load_row. simpl. rewrite length_map. apply (H t i).
Qed.

Lemma aware_mapping_words e vid c p u :
  length (tbl_val e) = 5%nat ->
  let m := aware_mapping e vid c p u in
  word_at (tbl_val m) 0 = u16 vid /\
  word_at (tbl_val m) 1 =
    u16 (Z.lor (u16 (Z.lor (word_at (tbl_val e) 1) (BIT c))) (BIT p)) /\
  word_at (tbl_val m) 2 =
    (if u
     then u16 (Z.land (u16 (Z.lor (word_at (tbl_val e) 2) (BIT c))) (Z.lnot (BIT p)))
     else u16 (Z.lor (u16 (Z.lor (word_at (tbl_val e) 2) (BIT c))) (BIT p))).
Proof.
  intros Hl. cbv zeta. unfold aware_mapping. cbv zeta.
  destruct u;
    repeat first
      [ rewrite word_at_with_val_same by (rewrite ?length_with_val; lia)
      | rewrite word_at_with_val_other by lia ];
    repeat split.
Qed.

Lemma aware_mapping_bits e vid c p u q :
  length (tbl_val e) = 5%nat -> 0 <= c -> 0 <= p -> 0 <= q < 16 ->
  let m := aware_mapping e vid c p u in
  Z.testbit (word_at (tbl_val m) 1) q =
    Z.testbit (word_at (tbl_val e) 1) q || (q =? c) || (q =? p) /\
  Z.testbit (word_at (tbl_val m) 2) q =
    (if q =? p then negb u else Z.testbit (word_at (tbl_val e) 2) q || (q =? c)).
Proof.
  intros Hl Hc Hp Hq. cbv zeta.
  destruct (aware_mapping_words e vid c p u Hl) as (_ & -> & ->).
  assert (Hq16 : (q <? 16) = true) by lia.
  split.
  - rewrite u16_testbit, Z.lor_spec, u16_testbit, Z.lor_spec, !testbit_BIT by lia.
    rewrite Hq16, !andb_true_r, (Z.eqb_sym c q), (Z.eqb_sym p q). reflexivity.
  - destruct u.
    + rewrite u16_testbit, Z.land_spec, Z.lnot_spec, u16_testbit, Z.lor_spec,
        !testbit_BIT by lia.
      rewrite Hq16, !andb_true_r, (Z.eqb_sym c q), (Z.eqb_sym p q).
      destruct (q =? p); simpl; [apply andb_false_r|apply andb_true_r].
    + rewrite u16_testbit, Z.lor_spec, u16_testbit, Z.lor_spec, !testbit_BIT by lia.
      rewrite Hq16, !andb_true_r, (Z.eqb_sym c q), (Z.eqb_sym p q).
      destruct (q =? p); simpl; [apply orb_true_r|apply orb_false_r].
Qed.

Lemma find_slot_in_pool test s :
  0 <= max_ports (hw_info s) -> find_slot test s <> -1 ->
  in_pool s (find_slot test s) /\ test (vlans_at (vlans s) (find_slot test s)) = true.
Proof.
  intros HN Hne. destruct (find_slot_inv test s HN) as [[E _]|(H1 & H2 & _)];
    cbv zeta in *; [congruence|auto].
Qed.

Lemma bank_row_insert_same (b : gmap (Z * Z) pce_row) h t i r :
  hw_bank h = <[(t, i) := r]> b -> bank_row h t i = r.
Proof. intros H. unfold bank_row. rewrite H, lookup_insert_eq. reflexivity. Qed.

(** ** VLAN add on a VLAN-aware bridge *)

(** C3 (as amended). A VLAN add that succeeds on the slot of (bridge, vid),
    found or newly created, sets the joining port's bit in the slot's port
    map (val[1]) whatever the flags; in the tagged port map (val[2]) it
    sets the port's bit when the untagged flag is clear and clears it when
    the flag is set.  The CPU port's bit is set in both maps, every other
    port keeps the bit it had (none, in a new slot), and with the pvid flag
    the slot's index is written to the port's default-VLAN-id register. *)
Theorem vlan_add_aware_membership bridge port vid untagged pvid s :
  priv_typed s -> bank_typed s -> polls_ok s -> 0 <= port < 16 ->
  let test := fun v => (vlan_bridge v =? bridge) && (vlan_vid v =? vid) in
  let idx := pool_target test s in
  idx <> -1 ->
  let old :=
    if find_slot test s =? -1 then mapping_entry0 idx
    else read_view s GSWIP_TABLE_VLAN_MAPPING idx in
  exists s',
    gswip_vlan_add_aware bridge port vid untagged pvid s = (0, s') /\
    let new := row_val (bank_row (dev s') GSWIP_TABLE_VLAN_MAPPING idx) in
    (forall q, 0 <= q < 16 ->
       Z.testbit (word_at new 1) q =
         Z.testbit (word_at (tbl_val old) 1) q || (q =? cpu_port (hw_info s))
         || (q =? port)) /\
    (forall q, 0 <= q < 16 ->
       Z.testbit (word_at new 2) q =
         if q =? port then negb untagged
         else Z.testbit (word_at (tbl_val old) 2) q || (q =? cpu_port (hw_info s))) /\
    reg s' (GSWIP_PCE_DEFPVID port) =
      (if pvid then idx else reg s (GSWIP_PCE_DEFPVID port)).
Proof.
  intros Hty Hbank Hp Hport test idx Hidx old.
  pose proof Hty as (Hlen & Hall & [HN HN'] & Hcpu).
  pose proof (aware_scan_result_idx bridge vid (vlans s)
                (Z.to_nat (VLANS_SIZE - max_ports (hw_info s)))
                (max_ports (hw_info s)) (-1)) as Hscan.
  change (scan_slots _ _ _ _) with (find_slot test s) in Hscan.
  subst idx old. unfold pool_target in *. cbv zeta in *.
  destruct (Z.eqb_spec (find_slot test s) (-1)) as [Hnone|Hsome].
  - (* a new slot *)
    destruct (find_slot_in_pool slot_free s HN Hidx) as [Hin _].
    set (idx := find_slot slot_free s) in *.
    assert (Hr : 0 <= idx < 65536) by (unfold in_pool, VLANS_SIZE in Hin; lia).
    destruct (aware_scan_result bridge vid (vlans s)
                (Z.to_nat (VLANS_SIZE - max_ports (hw_info s)))
                (max_ports (hw_info s)) (-1)) as [i0 fid0] eqn:Es.
    cbn [fst] in Hscan. rewrite Hnone in Hscan. subst i0.
    destruct (add_aware_new_ok bridge port vid untagged pvid s idx fid0 Hp Hr Es eq_refl)
      as (s' & E & Hb & Hregs & _).
    exists s'. split; [exact E|]. cbv zeta.
    rewrite (bank_row_insert_same _ _ _ _ _ Hb). cbn [row_val row_of_entry].
    split; [|split].
    + intros q Hq.
      destruct (aware_mapping_bits (with_val 0 vid (mapping_entry0 idx)) vid
                  (cpu_port (hw_info s)) port untagged q) as [B1 _];
        [reflexivity|lia|lia|lia|].
      rewrite B1, word_at_with_val_other by lia. reflexivity.
    + intros q Hq.
      destruct (aware_mapping_bits (with_val 0 vid (mapping_entry0 idx)) vid
                  (cpu_port (hw_info s)) port untagged q) as [_ B2];
        [reflexivity|lia|lia|lia|].
      rewrite B2, word_at_with_val_other by lia. reflexivity.
    + unfold reg. rewrite Hregs. destruct pvid; [|reflexivity].
      rewrite lookup_insert_eq. simpl. apply u32_id. lia.
  - (* the slot exists *)
    destruct (find_slot_in_pool test s HN Hsome) as [Hin _].
    set (idx := find_slot test s) in *.
    assert (Hr : 0 <= idx < 65536) by (unfold in_pool, VLANS_SIZE in Hin; lia).
    destruct (add_aware_existing_ok bridge port vid untagged pvid s idx Hp Hr Hscan Hsome)
      as (s' & E & Hb & Hregs & _).
    exists s'. split; [exact E|]. cbv zeta.
    rewrite (bank_row_insert_same _ _ _ _ _ Hb). cbn [row_val row_of_entry].
    pose proof (read_view_length s GSWIP_TABLE_VLAN_MAPPING idx Hbank) as Hl.
    split; [|split].
    + intros q Hq.
      destruct (aware_mapping_bits (read_view s GSWIP_TABLE_VLAN_MAPPING idx) vid
                  (cpu_port (hw_info s)) port untagged q) as [B1 _];
        [exact Hl|lia|lia|lia|]. exact B1.
    + intros q Hq.
      destruct (aware_mapping_bits (read_view s GSWIP_TABLE_VLAN_MAPPING idx) vid
                  (cpu_port (hw_info s)) port untagged q) as [_ B2];
        [exact Hl|lia|lia|lia|]. exact B2.
    + unfold reg. rewrite Hregs. destruct pvid; [|reflexivity].
      rewrite lookup_insert_eq. simpl. apply u32_id. lia.
Qed.

(** ** gswip_vlan_add_unaware and gswip_vlan_remove when no poll times out *)

Lemma remove_ok idx s :
  polls_ok s -> gswip_vlan_active_remove idx s = (0, released idx s).
Proof.
  intros Hp. unfold gswip_vlan_active_remove. mrun. mok.
  unfold clear_slot. mrun. reflexivity.
Qed.

Lemma add_unaware_existing_ok bridge port s idx :
  polls_ok s -> 0 <= idx < 65536 ->
  find_slot (fun v => vlan_bridge v =? bridge) s = idx -> idx <> -1 ->
  exists s',
    gswip_vlan_add_unaware bridge port s = (0, s') /\
    hw_bank (dev s') =
      <[(GSWIP_TABLE_VLAN_MAPPING, idx)
        := row_of_entry (unaware_mapping (read_view s GSWIP_TABLE_VLAN_MAPPING idx)
                                         (cpu_port (hw_info s)) port)]>
        (hw_bank (dev s)) /\
    hw_regs (dev s') = <[GSWIP_PCE_DEFPVID port := u32 0]> (hw_regs (dev s)) /\
    vlans s' = vlans s /\ hw_info s' = hw_info s /\ polls_ok s'.
Proof.
  intros Hp Hidx Hfind Hne. unfold gswip_vlan_add_unaware. mrun.
  rewrite Hfind.
  assert (E1 : (idx =? -1) = false) by (apply Z.eqb_neq; lia).
  rewrite E1. fold (mapping_entry0 idx). mok.
  rewrite (read_mapping_view s s idx eq_refl Hidx).
  set (m := unaware_mapping (read_view s GSWIP_TABLE_VLAN_MAPPING idx)
                            (cpu_port (hw_info s)) port).
  assert (Hm : tbl_table m = GSWIP_TABLE_VLAN_MAPPING /\ tbl_index m = idx /\
               tbl_key_mode m = false).
  { subst m. unfold read_view. simpl. rewrite (u16_id idx) by lia. repeat split. }
  destruct Hm as (Ht & Hi & Hk).
  rewrite switch_w_eq. cbv beta iota.
  eexists. split; [reflexivity|].
  autorewrite with gswdb. rewrite (bank_written m _ Hk), Ht, Hi.
  autorewrite with gswdb. repeat split; auto with gsw.
Qed.

Lemma add_unaware_new_ok bridge port s idx :
  polls_ok s -> 0 <= idx < 65536 ->
  find_slot (fun v => vlan_bridge v =? bridge) s = -1 ->
  find_slot slot_free s = idx ->
  exists s',
    gswip_vlan_add_unaware bridge port s = (0, s') /\
    hw_bank (dev s') =
      <[(GSWIP_TABLE_VLAN_MAPPING, idx)
        := row_of_entry (unaware_mapping (with_val 0 0 (mapping_entry0 idx))
                                         (cpu_port (hw_info s)) port)]>
        (<[(GSWIP_TABLE_ACTIVE_VLAN, idx) := row_of_entry (active_vlan_entry idx 0 idx)]>
           (hw_bank (dev s))) /\
    hw_regs (dev s') = <[GSWIP_PCE_DEFPVID port := u32 0]> (hw_regs (dev s)) /\
    vlans s' = <[Z.to_nat idx := mk_vlan bridge (u16 0) (u8 idx)]> (vlans s) /\
    hw_info s' = hw_info s /\ polls_ok s'.
Proof.
  intros Hp Hidx Hfind Hfree. unfold gswip_vlan_add_unaware. mrun.
  rewrite Hfind. change (-1 =? -1) with true. cbv beta iota.
  rewrite create_ok by (auto; rewrite Hfree; lia).
  cbv zeta. rewrite Hfree. change (-1 =? -1) with true. cbv beta iota.
  assert (E1 : (idx <? 0) = false) by lia.
  rewrite E1. fold (mapping_entry0 idx). mok.
  set (m := unaware_mapping (with_val 0 0 (mapping_entry0 idx))
                            (cpu_port (hw_info s)) port).
  assert (Hm : tbl_table m = GSWIP_TABLE_VLAN_MAPPING /\ tbl_index m = idx /\
               tbl_key_mode m = false).
  { subst m. simpl. rewrite (u16_id idx) by lia. repeat split. }
  destruct Hm as (Ht & Hi & Hk).
  rewrite switch_w_eq. cbv beta iota.
  eexists. split; [reflexivity|].
  autorewrite with gswdb. rewrite (bank_written m _ Hk), Ht, Hi.
  autorewrite with gswdb. rewrite ?(u16_id idx) by lia.
  repeat split; auto with gsw.
Qed.

Lemma released_proj idx s :
  vlans (released idx s) =
    <[Z.to_nat idx := mk_vlan NULL (vlan_vid (vlans_at (vlans s) idx))
                              (vlan_fid (vlans_at (vlans s) idx))]> (vlans s) /\
  hw_info (released idx s) = hw_info s /\
  hw_regs (dev (released idx s)) = hw_regs (dev s) /\
  hw_bank (dev (released idx s)) =
    <[(GSWIP_TABLE_ACTIVE_VLAN, u16 idx) := row_of_entry (inactive_vlan_entry idx)]>
      (hw_bank (dev s)).
Proof. repeat split. Qed.

Lemma polls_ok_released idx s : polls_ok s -> polls_ok (released idx s).
Proof. intros H. unfold released. auto with gsw. Qed.

#[local] Hint Resolve polls_ok_released : gsw.

Lemma vlan_remove_ok bridge port vid pvid vlan_aware s idx :
  polls_ok s -> 0 <= idx < 65536 ->
  find_slot (fun v => (vlan_bridge v =? bridge) &&
                      (negb vlan_aware || (vlan_vid v =? vid))) s = idx ->
  idx <> -1 ->
  let m := remove_mapping (read_view s GSWIP_TABLE_VLAN_MAPPING idx) port in
  let last :=
    Z.land (word_at (tbl_val m) 1) (Z.lnot (BIT (cpu_port (hw_info s)))) =? 0 in
  exists s',
    gswip_vlan_remove bridge port vid pvid vlan_aware s = (0, s') /\
    hw_bank (dev s') =
      (if last
       then <[(GSWIP_TABLE_ACTIVE_VLAN, idx) := row_of_entry (inactive_vlan_entry idx)]>
              (<[(GSWIP_TABLE_VLAN_MAPPING, idx) := row_of_entry m]> (hw_bank (dev s)))
       else <[(GSWIP_TABLE_VLAN_MAPPING, idx) := row_of_entry m]> (hw_bank (dev s))) /\
    hw_regs (dev s') =
      (if pvid then <[GSWIP_PCE_DEFPVID port := u32 0]> (hw_regs (dev s))
       else hw_regs (dev s)) /\
    vlans s' =
      (if last
       then <[Z.to_nat idx := mk_vlan NULL (vlan_vid (vlans_at (vlans s) idx))
                                      (vlan_fid (vlans_at (vlans s) idx))]> (vlans s)
       else vlans s) /\
    hw_info s' = hw_info s /\ polls_ok s'.
Proof.
  intros Hp Hidx Hfind Hne m last. unfold gswip_vlan_remove. mrun.
  rewrite Hfind.
  assert (E1 : (idx =? -1) = false) by (apply Z.eqb_neq; lia).
  rewrite E1. fold (mapping_entry0 idx). mok.
  rewrite (read_mapping_view s s idx eq_refl Hidx). fold m. fold last.
  assert (Hm : tbl_table m = GSWIP_TABLE_VLAN_MAPPING /\ tbl_index m = idx /\
               tbl_key_mode m = false).
  { subst m. unfold read_view. simpl. rewrite (u16_id idx) by lia. repeat split. }
  destruct Hm as (Ht & Hi & Hk).
  destruct last.
  - rewrite remove_ok by auto with gsw. mok.
    destruct pvid; rewrite ?switch_w_eq; cbv beta iota;
      (eexists; split; [reflexivity|]);
      autorewrite with gswdb;
      destruct (released_proj idx (written m (polled s))) as (-> & -> & -> & ->);
      rewrite (bank_written m _ Hk), Ht, Hi; autorewrite with gswdb;
      rewrite ?(u16_id idx) by lia; repeat split; auto with gsw.
  - mok.
    destruct pvid; rewrite ?switch_w_eq; cbv beta iota;
      (eexists; split; [reflexivity|]);
      autorewrite with gswdb; rewrite (bank_written m _ Hk), Ht, Hi;
      autorewrite with gswdb; repeat split; auto with gsw.
Qed.

Lemma remove_mapping_bits e p q :
  length (tbl_val e) = 5%nat -> 0 <= p -> 0 <= q < 16 ->
  let m := remove_mapping e p in
  Z.testbit (word_at (tbl_val m) 1) q =
    Z.testbit (word_at (tbl_val e) 1) q && negb (q =? p) /\
  Z.testbit (word_at (tbl_val m) 2) q =
    Z.testbit (word_at (tbl_val e) 2) q && negb (q =? p).
Proof.
  intros Hl Hp Hq. cbv zeta. unfold remove_mapping. cbv zeta.
  assert (Hq16 : (q <? 16) = true) by lia.
  rewrite word_at_with_val_other by lia.
  rewrite !word_at_with_val_same by (rewrite ?length_with_val; lia).
  rewrite word_at_with_val_other by lia.
  rewrite !u16_testbit, !Z.land_spec, !Z.lnot_spec, !testbit_BIT by lia.
  rewrite Hq16, !andb_true_r, (Z.eqb_sym p q). split; reflexivity.
Qed.

Lemma no_port_but p x :
  0 <= p ->
  (Z.land x (Z.lnot (BIT p)) =? 0) = true <->
  (forall q, 0 <= q -> q <> p -> Z.testbit x q = false).
Proof.
  intros Hp. rewrite Z.eqb_eq. split.
  - intros H q Hq Hne.
    assert (Hb : Z.testbit (Z.land x (Z.lnot (BIT p))) q = false)
      by (rewrite H; apply Z.bits_0).
    rewrite Z.land_spec, Z.lnot_spec, testbit_BIT in Hb by lia.
    destruct (Z.eqb_spec p q); [congruence|].
    rewrite andb_true_r in Hb. exact Hb.
  - intros H. apply Z.bits_inj'. intros q Hq.
    rewrite Z.land_spec, Z.lnot_spec, testbit_BIT, Z.bits_0 by lia.
    destruct (Z.eqb_spec p q) as [->|Hne]; [apply andb_false_r|].
    rewrite H by congruence. reflexivity.
Qed.

Lemma slot_bound_insert s s' i v :
  priv_typed s -> in_pool s i ->
  vlans s' = <[Z.to_nat i := v]> (vlans s) ->
  slot_bound s' i = negb (vlan_bridge v =? NULL).
Proof.
  intros Hty Hi Hv. destruct (in_pool_nat s i Hty Hi) as [H0 Hlt].
  unfold slot_bound, slot_free. rewrite Hv, vlans_at_insert_same by assumption.
  reflexivity.
Qed.

(** ** VLAN delete *)

(** C4. A VLAN delete that finds the slot clears the leaving port's bit in
    both port maps of the slot's VLAN-mapping row.  If the port map then
    holds no port but the CPU port, the slot's Active-VLAN row is written
    back invalid and the slot is unbound; the next allocation returns an
    index no higher than the freed one, with every pool slot below it
    bound, so the freed index is taken before any higher one.  Otherwise
    the slot stays bound. *)
Theorem vlan_remove_releases_and_reuses bridge port vid pvid vlan_aware s idx :
  priv_typed s -> bank_typed s -> polls_ok s -> 0 <= port < 16 ->
  bridge <> NULL ->
  find_slot (fun v => (vlan_bridge v =? bridge) &&
                      (negb vlan_aware || (vlan_vid v =? vid))) s = idx ->
  idx <> -1 ->
  let old := tbl_val (read_view s GSWIP_TABLE_VLAN_MAPPING idx) in
  exists s',
    gswip_vlan_remove bridge port vid pvid vlan_aware s = (0, s') /\
    let new := row_val (bank_row (dev s') GSWIP_TABLE_VLAN_MAPPING idx) in
    (forall q, 0 <= q < 16 ->
       Z.testbit (word_at new 1) q = Z.testbit (word_at old 1) q && negb (q =? port) /\
       Z.testbit (word_at new 2) q = Z.testbit (word_at old 2) q && negb (q =? port)) /\
    ((forall q, 0 <= q -> q <> cpu_port (hw_info s) ->
                Z.testbit (word_at new 1) q = false) ->
     row_valid (bank_row (dev s') GSWIP_TABLE_ACTIVE_VLAN idx) = false /\
     slot_bound s' idx = false /\
     forall bridge' fid' vid',
       let i := fst (gswip_vlan_active_create bridge' fid' vid' s') in
       max_ports (hw_info s) <= i <= idx /\
       vlan_bridge (vlans_at (vlans (snd (gswip_vlan_active_create bridge' fid' vid' s'))) i)
         = bridge' /\
       forall j, in_pool s j -> j < i -> slot_bound s' j = true) /\
    ((exists q, 0 <= q /\ q <> cpu_port (hw_info s) /\
                Z.testbit (word_at new 1) q = true) ->
     slot_bound s' idx = true /\ vlans s' = vlans s).
Proof.
  intros Hty Hbank Hp Hport Hbr Hfind Hne old.
  pose proof Hty as (Hlen & Hall & [HN HN'] & Hcpu).
  assert (Hin : in_pool s idx /\
                (vlan_bridge (vlans_at (vlans s) idx) =? bridge) &&
                (negb vlan_aware || (vlan_vid (vlans_at (vlans s) idx) =? vid)) = true).
  { rewrite <- Hfind. apply find_slot_in_pool; [assumption|]. rewrite Hfind. exact Hne. }
  destruct Hin as [Hin Hmatch]. apply andb_true_iff in Hmatch as [Hmb _].
  apply Z.eqb_eq in Hmb.
  assert (Hr : 0 <= idx < 65536) by (unfold in_pool, VLANS_SIZE in Hin; lia).
  destruct (vlan_remove_ok bridge port vid pvid vlan_aware s idx Hp Hr Hfind Hne)
    as (s' & E & Hb & _ & Hv & Hi & Hp').
  cbv zeta in Hb, Hv.
  set (m := remove_mapping (read_view s GSWIP_TABLE_VLAN_MAPPING idx) port) in *.
  exists s'. split; [exact E|]. cbv zeta.
  assert (Hnew : row_val (bank_row (dev s') GSWIP_TABLE_VLAN_MAPPING idx) = tbl_val m).
  { unfold bank_row. rewrite Hb.
    destruct (Z.land (word_at (tbl_val m) 1) (Z.lnot (BIT (cpu_port (hw_info s)))) =? 0).
    - rewrite lookup_insert_ne by (unfold GSWIP_TABLE_ACTIVE_VLAN,
                                     GSWIP_TABLE_VLAN_MAPPING; congruence).
      rewrite lookup_insert_eq. reflexivity.
    - rewrite lookup_insert_eq. reflexivity. }
  rewrite Hnew.
  pose proof (read_view_length s GSWIP_TABLE_VLAN_MAPPING idx Hbank) as Hl.
  split; [|split].
  - intros q Hq. apply remove_mapping_bits; [exact Hl|lia|exact Hq].
  - intros Hempty.
    apply (proj2 (no_port_but (cpu_port (hw_info s)) _ ltac:(lia))) in Hempty.
    rewrite Hempty in Hb, Hv.
    assert (Hfree : slot_bound s' idx = false)
      by (rewrite (slot_bound_insert s s' idx _ Hty Hin Hv); reflexivity).
    split; [|split].
    + unfold bank_row. rewrite Hb, lookup_insert_eq. reflexivity.
    + exact Hfree.
    + intros bridge' fid' vid'. cbv zeta.
      assert (Hin' : in_pool s' idx) by (unfold in_pool; rewrite Hi; exact Hin).
      assert (HN1 : 0 <= max_ports (hw_info s')) by (rewrite Hi; exact HN).
      destruct (find_slot_inv slot_free s' HN1) as [[_ Hall']|(Hi1 & Hf1 & Hlow)];
        cbv zeta in *.
      * exfalso. specialize (Hall' idx Hin'). unfold slot_bound in Hfree.
        rewrite Hall' in Hfree. discriminate.
      * assert (Hne1 : find_slot slot_free s' <> -1)
          by (unfold in_pool in Hi1; lia).
        rewrite (create_ok bridge' fid' vid' s' Hp' Hne1). cbn [fst snd].
        set (i := find_slot slot_free s') in *.
        assert (Hle : i <= idx).
        { destruct (Z.le_gt_cases i idx) as [|Hgt]; [assumption|].
          exfalso. specialize (Hlow idx Hin' ltac:(lia)).
          unfold slot_bound in Hfree. rewrite Hlow in Hfree. discriminate. }
        split; [unfold in_pool in Hi1; rewrite Hi in Hi1; lia|]. split.
        -- rewrite vlans_created, vlans_at_insert_same; [reflexivity| |].
           ++ unfold in_pool in Hi1. lia.
           ++ rewrite Hv, length_insert, Hlen. unfold in_pool, VLANS_SIZE in Hi1. lia.
        -- intros j Hj Hlt. unfold slot_bound. rewrite Hlow; [reflexivity| |assumption].
           unfold in_pool. rewrite Hi. exact Hj.
  - intros (q & Hq & Hqc & Hbit).
    assert (Hlast : (Z.land (word_at (tbl_val m) 1)
                            (Z.lnot (BIT (cpu_port (hw_info s)))) =? 0) = false).
    { destruct (Z.land (word_at (tbl_val m) 1)
                       (Z.lnot (BIT (cpu_port (hw_info s)))) =? 0) eqn:El; [|reflexivity].
      pose proof (proj1 (no_port_but (cpu_port (hw_info s)) _ ltac:(lia)) El) as El'.
      rewrite (El' q Hq Hqc) in Hbit. discriminate. }
    rewrite Hlast in Hv. split; [|exact Hv].
    unfold slot_bound, slot_free. rewrite Hv, Hmb.
    apply negb_true_iff. apply Z.eqb_neq. exact Hbr.
Qed.

(** ** First fit *)

Lemma pool_target_spec test s :
  0 <= max_ports (hw_info s) ->
  let t := pool_target test s in
  (t = -1 /\
   forall j, in_pool s j ->
     test (vlans_at (vlans s) j) = false /\ slot_free (vlans_at (vlans s) j) = false) \/
  (in_pool s t /\ test (vlans_at (vlans s) t) = true /\
   forall j, in_pool s j -> j < t -> test (vlans_at (vlans s) j) = false) \/
  (in_pool s t /\ slot_free (vlans_at (vlans s) t) = true /\
   (forall j, in_pool s j -> test (vlans_at (vlans s) j) = false) /\
   forall j, in_pool s j -> j < t -> slot_free (vlans_at (vlans s) j) = false).
Proof.
  intros HN. cbv zeta. unfold pool_target.
  destruct (find_slot_inv test s HN) as [[E Hn]|(Hin & Ht & Hlow)]; cbv zeta in *.
  - rewrite E. change (-1 =? -1) with true. cbv iota.
    destruct (find_slot_inv slot_free s HN) as [[E' Hn']|(Hin' & Ht' & Hlow')];
      cbv zeta in *.
    + left. split; [assumption|]. intros j Hj. split; auto.
    + right. right. auto.
  - assert (E : (find_slot test s =? -1) = false)
      by (apply Z.eqb_neq; unfold in_pool in Hin; lia).
    rewrite E. right. left. auto.
Qed.

Lemma create_first_fit bridge fid vid s idx :
  priv_typed s -> polls_ok s -> in_pool s idx ->
  slot_free (vlans_at (vlans s) idx) = true ->
  (forall j, in_pool s j -> j < idx -> slot_free (vlans_at (vlans s) j) = false) ->
  let r := gswip_vlan_active_create bridge fid vid s in
  fst r = idx /\
  vlans_at (vlans (snd r)) idx =
    mk_vlan bridge (u16 vid) (u8 (if fid =? -1 then idx else fid)) /\
  (forall j, 0 <= j -> j <> idx -> vlans_at (vlans (snd r)) j = vlans_at (vlans s) j) /\
  bank_row (dev (snd r)) GSWIP_TABLE_ACTIVE_VLAN idx =
    row_of_entry (active_vlan_entry idx vid (if fid =? -1 then idx else fid)).
Proof.
  intros Hty Hp Hin Hfree Hlow. pose proof Hty as (Hlen & Hall & [HN HN'] & Hcpu).
  pose proof (find_slot_first slot_free s idx HN Hin Hfree Hlow) as Hf.
  destruct (in_pool_nat s idx Hty Hin) as [H0 Hlt].
  assert (Hne : find_slot slot_free s <> -1) by (rewrite Hf; lia).
  cbv zeta. rewrite (create_ok bridge fid vid s Hp Hne). rewrite Hf. cbn [fst snd].
  split; [reflexivity|]. rewrite vlans_created. split; [|split].
  - apply vlans_at_insert_same; assumption.
  - intros j Hj Hne'. apply vlans_at_insert_other; [assumption|assumption|congruence].
  - unfold bank_row. rewrite bank_created, u16_id by
      (unfold in_pool, VLANS_SIZE in Hin; lia).
    rewrite lookup_insert_eq. reflexivity.
Qed.

Lemma priv_typed_insert s s' i v :
  priv_typed s -> vlan_typed v ->
  vlans s' = <[i := v]> (vlans s) -> hw_info s' = hw_info s ->
  priv_typed s'.
Proof.
  intros (Hlen & Hall & HN & Hcpu) Hv E Ei. unfold priv_typed.
  rewrite E, Ei, length_insert. repeat split; try tauto.
  apply Forall_insert; assumption.
Qed.

Lemma join_unaware_seq l :
  forall s k,
    priv_typed s -> polls_ok s -> 0 <= k ->
    max_ports (hw_info s) + k + Z.of_nat (length l) <= VLANS_SIZE ->
    (forall j, max_ports (hw_info s) <= j < max_ports (hw_info s) + k ->
       vlan_bridge (vlans_at (vlans s) j) <> NULL /\
       vlan_bridge (vlans_at (vlans s) j) ∉ map fst l) ->
    (forall j, max_ports (hw_info s) + k <= j < VLANS_SIZE ->
       slot_free (vlans_at (vlans s) j) = true) ->
    NoDup (map fst l) -> NULL ∉ map fst l ->
    exists s',
      join_unaware l s = (replicate (length l) 0, s') /\
      hw_info s' = hw_info s /\
      (forall i b p, l !! i = Some (b, p) ->
         vlans_at (vlans s') (max_ports (hw_info s) + k + Z.of_nat i) =
           mk_vlan b 0 (max_ports (hw_info s) + k + Z.of_nat i)) /\
      (forall j, 0 <= j < max_ports (hw_info s) + k ->
         vlans_at (vlans s') j = vlans_at (vlans s) j).
Proof.
  induction l as [|[b p] l IH]; intros s k Hty Hp Hk Hfit Hbound Hfree Hnd Hnn.
  - exists s. simpl. split; [reflexivity|]. split; [reflexivity|].
    split; [intros i b p H; discriminate|reflexivity].
  - pose proof Hty as (Hlen & Hall & [HN HN'] & Hcpu).
    set (N := max_ports (hw_info s)) in *.
    simpl in Hfit, Hnd, Hnn. apply NoDup_cons in Hnd as [Hb Hnd].
    assert (Hbn : b <> NULL) by (intros ->; apply Hnn; apply elem_of_cons; auto).
    assert (Hin : in_pool s (N + k)) by (unfold in_pool, VLANS_SIZE in *; lia).
    assert (Hfind : find_slot (fun v => vlan_bridge v =? b) s = -1).
    { apply find_slot_none. intros j Hj. apply Z.eqb_neq.
      destruct (Z.lt_ge_cases j (N + k)) as [Hlt|Hge].
      - intros E. apply (Hbound j); [unfold in_pool in Hj; lia|].
        rewrite E. apply elem_of_cons. auto.
      - specialize (Hfree j ltac:(unfold in_pool in Hj; lia)).
        unfold slot_free in Hfree. apply Z.eqb_eq in Hfree. congruence. }
    assert (Hff : find_slot slot_free s = N + k).
    { apply find_slot_first; [assumption|exact Hin| |].
      - apply Hfree. unfold VLANS_SIZE in *. lia.
      - intros j Hj Hlt. unfold slot_free. apply Z.eqb_neq.
        apply (Hbound j). unfold in_pool in Hj. lia. }
    destruct (add_unaware_new_ok b p s (N + k) Hp
                ltac:(unfold VLANS_SIZE in *; lia) Hfind Hff)
      as (s1 & E1 & _ & _ & Hv1 & Hi1 & Hp1).
    change (u16 0) with 0 in Hv1.
    rewrite (u8_id (N + k)) in Hv1 by (unfold VLANS_SIZE in *; lia).
    assert (Hty1 : priv_typed s1).
    { eapply priv_typed_insert; [exact Hty| |exact Hv1|exact Hi1].
      unfold vlan_typed. simpl. unfold VLANS_SIZE in *. lia. }
    destruct (in_pool_nat s (N + k) Hty Hin) as [H0 Hlt].
    destruct (IH s1 (k + 1) Hty1 Hp1 ltac:(lia)) as (s2 & E2 & Hi2 & Hseq & Hkeep).
    + rewrite Hi1. fold N. lia.
    + rewrite Hi1. fold N. intros j Hj. rewrite Hv1.
      destruct (Z.eq_dec j (N + k)) as [->|Hne].
      * rewrite vlans_at_insert_same by assumption. simpl. split; assumption.
      * rewrite vlans_at_insert_other by lia.
        destruct (Hbound j ltac:(lia)) as [Hb1 Hb2]. split; [assumption|].
        intros Hc. apply Hb2. simpl. apply elem_of_cons. auto.
    + rewrite Hi1. fold N. intros j Hj. rewrite Hv1.
      rewrite vlans_at_insert_other by lia. apply Hfree. lia.
    + exact Hnd.
    + intros Hc. apply Hnn. apply elem_of_cons. auto.
    + exists s2. split; [|split; [|split]].
      * simpl. unfold bind. rewrite E1, E2. reflexivity.
      * congruence.
      * intros i b' p' Hl. rewrite Hi1 in Hseq, Hkeep. fold N in Hseq, Hkeep.
        destruct i as [|i]; simpl in Hl.
        -- inversion Hl; subst b' p'. rewrite Hkeep by lia.
           rewrite Hv1, Z.add_0_r. apply vlans_at_insert_same; assumption.
        -- replace (N + k + Z.of_nat (S i)) with (N + (k + 1) + Z.of_nat i) by lia.
           apply (Hseq i b' p' Hl).
      * intros j Hj. rewrite Hi1 in Hkeep. fold N in Hkeep.
        rewrite Hkeep by lia. rewrite Hv1. apply vlans_at_insert_other; lia.
Qed.

Lemma add_unaware_enospc bridge port s :
  pool_target (fun v => vlan_bridge v =? bridge) s = -1 ->
  gswip_vlan_add_unaware bridge port s = (- ENOSPC, s).
Proof.
  unfold pool_target. cbv zeta. intros H.
  destruct (Z.eqb_spec (find_slot (fun v => vlan_bridge v =? bridge) s) (-1))
    as [E|E]; [|congruence].
  unfold gswip_vlan_add_unaware. mrun. rewrite E. change (-1 =? -1) with true.
  cbv beta iota. rewrite (create_enospc bridge (-1) 0 s H). reflexivity.
Qed.

Lemma add_unaware_target bridge port s :
  priv_typed s -> polls_ok s -> bridge <> NULL ->
  let t := pool_target (fun v => vlan_bridge v =? bridge) s in
  t <> -1 ->
  exists s',
    gswip_vlan_add_unaware bridge port s = (0, s') /\
    vlan_bridge (vlans_at (vlans s') t) = bridge /\
    (forall j, 0 <= j -> j <> t -> vlans_at (vlans s') j = vlans_at (vlans s) j).
Proof.
  intros Hty Hp Hb t Ht. pose proof Hty as (Hlen & Hall & [HN HN'] & Hcpu).
  subst t. unfold pool_target in *. cbv zeta in *.
  destruct (Z.eqb_spec (find_slot (fun v => vlan_bridge v =? bridge) s) (-1))
    as [E|E].
  - destruct (find_slot_in_pool slot_free s HN Ht) as [Hin _].
    set (idx := find_slot slot_free s) in *.
    destruct (in_pool_nat s idx Hty Hin) as [H0 Hlt].
    destruct (add_unaware_new_ok bridge port s idx Hp
                ltac:(unfold in_pool, VLANS_SIZE in Hin; lia) E eq_refl)
      as (s' & E' & _ & _ & Hv & _).
    exists s'. split; [exact E'|]. rewrite Hv. split.
    + rewrite vlans_at_insert_same by assumption. reflexivity.
    + intros j Hj Hne. apply vlans_at_insert_other; [assumption|assumption|congruence].
  - destruct (find_slot_in_pool _ s HN E) as [Hin Hm].
    set (idx := find_slot (fun v => vlan_bridge v =? bridge) s) in *.
    destruct (add_unaware_existing_ok bridge port s idx Hp
                ltac:(unfold in_pool, VLANS_SIZE in Hin; lia) eq_refl E)
      as (s' & E' & _ & _ & Hv & _).
    exists s'. split; [exact E'|]. rewrite Hv. split.
    + apply Z.eqb_eq. exact Hm.
    + reflexivity.
Qed.

(** ** Slot pool *)

(** C5. An allocation request is resolved over the indices max_ports..63
    in ascending order: to the lowest slot that matches the requested
    binding, else to the lowest free slot.  gswip_vlan_active_create
    returns the lowest free index and records the binding there, and
    returns -ENOSPC, leaving the state as it was, when no slot of the range
    is free; gswip_vlan_add_unaware passes that error on.  Joining n
    distinct bridges on an empty pool binds them to the slots max_ports,
    max_ports + 1, ..., max_ports + n - 1 in order. *)
Theorem slot_pool_first_fit s :
  priv_typed s ->
  (forall test,
     let t := pool_target test s in
     (t = -1 /\
      forall j, in_pool s j ->
        test (vlans_at (vlans s) j) = false /\
        slot_free (vlans_at (vlans s) j) = false) \/
     (in_pool s t /\ test (vlans_at (vlans s) t) = true /\
      forall j, in_pool s j -> j < t -> test (vlans_at (vlans s) j) = false) \/
     (in_pool s t /\ slot_free (vlans_at (vlans s) t) = true /\
      (forall j, in_pool s j -> test (vlans_at (vlans s) j) = false) /\
      forall j, in_pool s j -> j < t -> slot_free (vlans_at (vlans s) j) = false)) /\
  (forall bridge fid vid,
     (forall j, in_pool s j -> slot_free (vlans_at (vlans s) j) = false) ->
     gswip_vlan_active_create bridge fid vid s = (- ENOSPC, s)) /\
  (forall bridge fid vid idx,
     polls_ok s -> in_pool s idx -> slot_free (vlans_at (vlans s) idx) = true ->
     (forall j, in_pool s j -> j < idx -> slot_free (vlans_at (vlans s) j) = false) ->
     let r := gswip_vlan_active_create bridge fid vid s in
     fst r = idx /\
     vlans_at (vlans (snd r)) idx =
       mk_vlan bridge (u16 vid) (u8 (if fid =? -1 then idx else fid)) /\
     (forall j, 0 <= j -> j <> idx ->
        vlans_at (vlans (snd r)) j = vlans_at (vlans s) j) /\
     bank_row (dev (snd r)) GSWIP_TABLE_ACTIVE_VLAN idx =
       row_of_entry (active_vlan_entry idx vid (if fid =? -1 then idx else fid))) /\
  (forall bridge port,
     pool_target (fun v => vlan_bridge v =? bridge) s = -1 ->
     gswip_vlan_add_unaware bridge port s = (- ENOSPC, s)) /\
  (forall bridge port,
     polls_ok s -> bridge <> NULL ->
     let t := pool_target (fun v => vlan_bridge v =? bridge) s in
     t <> -1 ->
     exists s',
       gswip_vlan_add_unaware bridge port s = (0, s') /\
       vlan_bridge (vlans_at (vlans s') t) = bridge /\
       (forall j, 0 <= j -> j <> t -> vlans_at (vlans s') j = vlans_at (vlans s) j)) /\
  (forall l,
     polls_ok s ->
     (forall j, in_pool s j -> slot_free (vlans_at (vlans s) j) = true) ->
     NoDup (map fst l) -> NULL ∉ map fst l ->
     max_ports (hw_info s) + Z.of_nat (length l) <= VLANS_SIZE ->
     exists s',
       join_unaware l s = (replicate (length l) 0, s') /\
       forall i b p, l !! i = Some (b, p) ->
         vlans_at (vlans s') (max_ports (hw_info s) + Z.of_nat i) =
           mk_vlan b 0 (max_ports (hw_info s) + Z.of_nat i)).
Proof.
  intros Hty. pose proof Hty as (Hlen & Hall & [HN HN'] & Hcpu).
  split; [|split; [|split; [|split; [|split]]]].
  - intros test. apply pool_target_spec. exact HN.
  - intros bridge fid vid Hfull. apply create_enospc. apply find_slot_none. exact Hfull.
  - intros bridge fid vid idx Hp Hin Hfree Hlow.
    apply create_first_fit; assumption.
  - intros bridge port. apply add_unaware_enospc.
  - intros bridge port Hp Hb. apply add_unaware_target; assumption.
  - intros l Hp Hempty Hnd Hnn Hfit.
    destruct (join_unaware_seq l s 0 Hty Hp ltac:(lia)) as (s' & E & _ & Hseq & _).
    + lia.
    + intros j Hj. lia.
    + intros j Hj. apply Hempty. unfold in_pool. lia.
    + exact Hnd.
    + exact Hnn.
    + exists s'. split; [exact E|]. intros i b p Hl.
      rewrite <- (Z.add_0_r (max_ports (hw_info s))) at 1 2.
      apply (Hseq i b p Hl).
Qed.

(** ** The slot array after a VLAN add, whatever the polls yield *)

Lemma polls_errno_set_klog l s : polls_errno s -> polls_errno (set_klog l s).
Proof. intros H. exact H. Qed.

Lemma polls_errno_reg_written v o s : polls_errno s -> polls_errno (reg_written v o s).
Proof. intros H. exact H. Qed.

Ltac write_cases e s' F Er :=
  match goal with
  | |- context [gswip_pce_table_entry_write ?t ?s] =>
      destruct (write_frame t s) as (F & Er);
      destruct (gswip_pce_table_entry_write t s) as [e s'];
      cbn [fst snd] in F, Er
  end.

Ltac read_cases e m s' F Er :=
  match goal with
  | |- context [gswip_pce_table_entry_read ?t ?s] =>
      destruct (read_frame t s) as (F & _ & Er);
      destruct (gswip_pce_table_entry_read t s) as [[e m] s'];
      cbn [fst snd] in F, Er
  end.

(* What a find-or-create of the translator leaves in priv->vlans: nothing
   new, the slot [free] bound to [v], or that slot bound and released. *)
Lemma tail_shape (created : bool) idx m s1 s (wr : gswip_pce_table_entry)
    (fin : M unit) v :
  polls_errno s1 -> hw_info s1 = hw_info s ->
  (forall x, vlans (snd (fin x)) = vlans x /\ hw_info (snd (fin x)) = hw_info x /\
             (polls_errno x -> polls_errno (snd (fin x)))) ->
  (if created then vlans s1 = <[Z.to_nat idx := v]> (vlans s) /\
                   (Z.to_nat idx < length (vlans s))%nat /\ 0 <= idx
   else vlans s1 = vlans s) ->
  let r :=
    (err <- gswip_pce_table_entry_write wr ;;
     if negb (err =? 0) then
       dev_err m ;;;
       (if created then gswip_vlan_active_remove idx ;;; ret tt else ret tt) ;;;
       ret err
     else fin ;;; ret 0) s1 in
  hw_info (snd r) = hw_info s /\ polls_errno (snd r) /\ fst r <= 0 /\
  (if created
   then (fst r = 0 /\ vlans (snd r) = <[Z.to_nat idx := v]> (vlans s)) \/
        (fst r < 0 /\
         vlans (snd r) =
           <[Z.to_nat idx := mk_vlan NULL (vlan_vid v) (vlan_fid v)]> (vlans s))
   else vlans (snd r) = vlans s).
Proof.
  intros Hp Hi Hfin Hv. cbv zeta. mrun.
  write_cases e s2 F Er. destruct F as (Fv & Fi & _ & _ & _ & Fp).
  specialize (Er Hp). specialize (Fp Hp).
  destruct (Z.eqb_spec e 0) as [->|Hne]; cbn [negb].
  - destruct (Hfin s2) as (Gv & Gi & Gp). destruct (fin s2) as [[] s3].
    cbn [fst snd] in *. split; [congruence|]. split; [auto|]. split; [lia|].
    destruct created.
    + left. split; [reflexivity|]. destruct Hv as [Hv _]. congruence.
    + congruence.
  - destruct created.
    + destruct Hv as (Hv & Hlt & H0).
      match goal with |- context [gswip_vlan_active_remove idx ?x] =>
        destruct (remove_shape idx x) as (Ri & Rp & Re & Rv);
        [apply polls_errno_set_klog; exact Fp|];
        destruct (gswip_vlan_active_remove idx x) as [e3 s3] end.
      cbn [fst snd] in *. rewrite vlans_set_klog in Rv. rewrite hw_info_set_klog in Ri.
      split; [congruence|]. split; [assumption|]. split; [lia|].
      right. split; [lia|]. rewrite Rv, Fv, Hv.
      rewrite vlans_at_insert_same by assumption.
      apply list_insert_insert_eq.
    + cbn [fst snd]. rewrite vlans_set_klog, hw_info_set_klog.
      split; [congruence|]. split; [apply polls_errno_set_klog; assumption|].
      split; [lia|]. congruence.
Qed.

Lemma tail_shape_ex (created : bool) idx m s1 s (wr : gswip_pce_table_entry)
    (fin : M unit) v :
  polls_errno s1 -> hw_info s1 = hw_info s ->
  (forall x, vlans (snd (fin x)) = vlans x /\ hw_info (snd (fin x)) = hw_info x /\
             (polls_errno x -> polls_errno (snd (fin x)))) ->
  (if created then vlans s1 = <[Z.to_nat idx := v]> (vlans s) /\
                   (Z.to_nat idx < length (vlans s))%nat /\ 0 <= idx
   else vlans s1 = vlans s) ->
  exists e s',
    (err <- gswip_pce_table_entry_write wr ;;
     if negb (err =? 0) then
       dev_err m ;;;
       (if created then gswip_vlan_active_remove idx ;;; ret tt else ret tt) ;;;
       ret err
     else fin ;;; ret 0) s1 = (e, s') /\
    hw_info s' = hw_info s /\ polls_errno s' /\ e <= 0 /\
    (if created
     then (e = 0 /\ vlans s' = <[Z.to_nat idx := v]> (vlans s)) \/
          (e < 0 /\
           vlans s' = <[Z.to_nat idx := mk_vlan NULL (vlan_vid v) (vlan_fid v)]> (vlans s))
     else vlans s' = vlans s).
Proof.
  intros Hp Hi Hfin Hv.
  pose proof (tail_shape created idx m s1 s wr fin v Hp Hi Hfin Hv) as H.
  cbv zeta in H.
  destruct ((err <- gswip_pce_table_entry_write wr ;;
             if negb (err =? 0) then
               dev_err m ;;;
               (if created then gswip_vlan_active_remove idx ;;; ret tt else ret tt) ;;;
               ret err
             else fin ;;; ret 0) s1) as [e s'].
  exists e, s'. split; [reflexivity|exact H].
Qed.

Lemma fin_pvid (pvid : bool) idx port x :
  let fin := if pvid then gswip_switch_w idx (GSWIP_PCE_DEFPVID port) else ret tt in
  vlans (snd (fin x)) = vlans x /\ hw_info (snd (fin x)) = hw_info x /\
  (polls_errno x -> polls_errno (snd (fin x))).
Proof. destruct pvid; simpl; auto. Qed.

Lemma add_aware_shape bridge port vid untagged pvid s :
  priv_typed s -> polls_errno s ->
  let sc := aware_scan_result bridge vid (vlans s)
              (Z.to_nat (VLANS_SIZE - max_ports (hw_info s)))
              (max_ports (hw_info s)) (-1) in
  let free := find_slot slot_free s in
  let fid := if snd sc =? -1 then free else snd sc in
  exists e s',
    gswip_vlan_add_aware bridge port vid untagged pvid s = (e, s') /\
    hw_info s' = hw_info s /\ polls_errno s' /\ e <= 0 /\
    (vlans s' = vlans s \/
     (fst sc = -1 /\ in_pool s free /\ e = 0 /\
      vlans s' = <[Z.to_nat free := mk_vlan bridge (u16 vid) (u8 fid)]> (vlans s)) \/
     (fst sc = -1 /\ in_pool s free /\ e < 0 /\
      vlans s' = <[Z.to_nat free := mk_vlan NULL (u16 vid) (u8 fid)]> (vlans s))).
Proof.
  intros Hty Hp sc free fid. pose proof Hty as (Hlen & Hall & [HN HN'] & Hcpu).
  unfold gswip_vlan_add_aware.
  unfold bind at 1. unfold get at 1. cbv beta iota zeta.
  unfold bind at 1.
  destruct (aware_scan_pure bridge vid
              (Z.to_nat (VLANS_SIZE - max_ports (hw_info s)))
              (max_ports (hw_info s)) (-1) s) as (s1 & E & L).
  rewrite E. clear E. fold sc.
  pose proof (log_step_polls_errno s s1 L Hp) as Hp1.
  destruct L as (Lv & Li & Ld & Lf).
  destruct sc as [idx0 fid0] eqn:Esc. cbn [fst snd] in *.
  unfold bind at 1.
  destruct (Z.eqb_spec idx0 (-1)) as [->|Hidx].
  - (* no slot for (bridge, vid): create one *)
    unfold bind at 1.
    destruct (create_shape bridge fid0 vid s1 Hp1 ltac:(rewrite Li; exact HN))
      as (Ci & Cp & Cv).
    rewrite (find_slot_frame slot_free s s1 Lv Li) in Cv. fold free in Cv.
    fold fid in Cv.
    destruct (gswip_vlan_active_create bridge fid0 vid s1) as [i s2].
    cbn [fst snd] in *.
    destruct Cv as [[Hneg Cv]|(Hin & -> & Cv)].
    + assert (E1 : (i <? 0) = true) by lia. rewrite E1.
      assert (E2 : (i =? 0) = false) by lia.
      unfold ret. cbv beta iota. rewrite E2. cbn [negb].
      exists i, s2. split; [reflexivity|]. split; [congruence|]. split; [assumption|].
      split; [lia|]. left. congruence.
    + unfold in_pool in Hin. rewrite Li in Hin.
      assert (E1 : (free <? 0) = false) by lia. rewrite E1.
      unfold ret at 1. cbv beta iota. change (negb (0 =? 0)) with false. cbv iota.
      match goal with
      | |- context [@bind ?A ?B (gswip_pce_table_entry_write ?wr) ?k ?st] =>
          destruct (tail_shape_ex true free "failed to write VLAN mapping: %d" st s wr
                      (if pvid then gswip_switch_w free (GSWIP_PCE_DEFPVID port)
                       else ret tt)
                      (mk_vlan bridge (u16 vid) (u8 fid)) Cp ltac:(congruence)
                      (fin_pvid pvid free port)
                      ltac:(rewrite Cv, Lv; unfold VLANS_SIZE in *;
                            repeat split; lia))
            as (e & s' & E & Hi & Hpe & He & Hv)
      end.
      exists e, s'. split; [exact E|]. split; [exact Hi|]. split; [exact Hpe|].
      split; [exact He|]. right. cbn [vlan_vid vlan_fid] in Hv.
      assert (Hin' : in_pool s free) by (unfold in_pool; lia).
      destruct Hv as [[-> Hv]|[Hneg Hv]]; [left|right]; auto.
  - (* the slot exists: read its mapping *)
    unfold bind at 1.
    read_cases e m s2 F Er. destruct F as (Fv & Fi & _ & _ & _ & Fp).
    specialize (Er Hp1). specialize (Fp Hp1).
    destruct (Z.eqb_spec e 0) as [->|Hne]; cbn [negb].
    + unfold ret at 1. cbv beta iota. change (negb (0 =? 0)) with false. cbv iota.
      match goal with
      | |- context [@bind ?A ?B (gswip_pce_table_entry_write ?wr) ?k ?st] =>
          destruct (tail_shape_ex false idx0 "failed to write VLAN mapping: %d" st s wr
                      (if pvid then gswip_switch_w idx0 (GSWIP_PCE_DEFPVID port)
                       else ret tt)
                      vlan0 Fp ltac:(congruence) (fin_pvid pvid idx0 port)
                      ltac:(congruence))
            as (e & s' & E & Hi & Hpe & He & Hv)
      end.
      exists e, s'. split; [exact E|]. split; [exact Hi|]. split; [exact Hpe|].
      split; [exact He|]. left. exact Hv.
    + mrun. apply Z.eqb_neq in Hne. rewrite Hne. cbn [negb].
      eexists _, _. split; [reflexivity|]. rewrite hw_info_set_klog, vlans_set_klog.
      split; [congruence|]. split; [apply polls_errno_set_klog; assumption|].
      split; [assumption|]. left. congruence.
Qed.

Lemma fin_switch_w v o x :
  vlans (snd (gswip_switch_w v o x)) = vlans x /\
  hw_info (snd (gswip_switch_w v o x)) = hw_info x /\
  (polls_errno x -> polls_errno (snd (gswip_switch_w v o x))).
Proof. simpl. auto. Qed.

Lemma add_unaware_shape bridge port s :
  priv_typed s -> polls_errno s ->
  let m := find_slot (fun v => vlan_bridge v =? bridge) s in
  let free := find_slot slot_free s in
  exists e s',
    gswip_vlan_add_unaware bridge port s = (e, s') /\
    hw_info s' = hw_info s /\ polls_errno s' /\ e <= 0 /\
    (vlans s' = vlans s \/
     (m = -1 /\ in_pool s free /\ e = 0 /\
      vlans s' = <[Z.to_nat free := mk_vlan bridge (u16 0) (u8 free)]> (vlans s)) \/
     (m = -1 /\ in_pool s free /\ e < 0 /\
      vlans s' = <[Z.to_nat free := mk_vlan NULL (u16 0) (u8 free)]> (vlans s))).
Proof.
  intros Hty Hp m free. pose proof Hty as (Hlen & Hall & [HN HN'] & Hcpu).
  unfold gswip_vlan_add_unaware.
  unfold bind at 1. unfold get at 1. cbv beta iota zeta. fold m.
  unfold bind at 1.
  destruct (Z.eqb_spec m (-1)) as [Hm|Hm].
  - unfold bind at 1.
    destruct (create_shape bridge (-1) 0 s Hp HN) as (Ci & Cp & Cv).
    fold free in Cv. change (-1 =? -1) with true in Cv. cbv iota in Cv.
    destruct (gswip_vlan_active_create bridge (-1) 0 s) as [i s2].
    cbn [fst snd] in *.
    destruct Cv as [[Hneg Cv]|(Hin & -> & Cv)].
    + assert (E1 : (i <? 0) = true) by lia. rewrite E1.
      assert (E2 : (i =? 0) = false) by lia.
      unfold ret. cbv beta iota. rewrite E2. cbn [negb].
      exists i, s2. split; [reflexivity|]. split; [congruence|]. split; [assumption|].
      split; [lia|]. left. congruence.
    + pose proof Hin as Hin'. unfold in_pool in Hin.
      assert (E1 : (free <? 0) = false) by lia. rewrite E1.
      unfold ret at 1. cbv beta iota. change (negb (0 =? 0)) with false. cbv iota.
      match goal with
      | |- context [@bind ?A ?B (gswip_pce_table_entry_write ?wr) ?k ?st] =>
          destruct (tail_shape_ex true free "failed to write VLAN mapping: %d" st s wr
                      (gswip_switch_w 0 (GSWIP_PCE_DEFPVID port))
                      (mk_vlan bridge (u16 0) (u8 free)) Cp ltac:(congruence)
                      (fin_switch_w 0 (GSWIP_PCE_DEFPVID port))
                      ltac:(rewrite Cv; unfold VLANS_SIZE in *; repeat split; lia))
            as (e & s' & E & Hi & Hpe & He & Hv)
      end.
      exists e, s'. split; [exact E|]. split; [exact Hi|]. split; [exact Hpe|].
      split; [exact He|]. right. cbn [vlan_vid vlan_fid] in Hv.
      destruct Hv as [[-> Hv]|[Hneg Hv]]; [left|right]; auto.
  - unfold bind at 1.
    read_cases e mp s2 F Er. destruct F as (Fv & Fi & _ & _ & _ & Fp).
    specialize (Er Hp). specialize (Fp Hp).
    destruct (Z.eqb_spec e 0) as [->|Hne]; cbn [negb].
    + unfold ret at 1. cbv beta iota. change (negb (0 =? 0)) with false. cbv iota.
      match goal with
      | |- context [@bind ?A ?B (gswip_pce_table_entry_write ?wr) ?k ?st] =>
          destruct (tail_shape_ex false m "failed to write VLAN mapping: %d" st s wr
                      (gswip_switch_w 0 (GSWIP_PCE_DEFPVID port))
                      vlan0 Fp ltac:(congruence)
                      (fin_switch_w 0 (GSWIP_PCE_DEFPVID port))
                      ltac:(congruence))
            as (e & s' & E & Hi & Hpe & He & Hv)
      end.
      exists e, s'. split; [exact E|]. split; [exact Hi|]. split; [exact Hpe|].
      split; [exact He|]. left. exact Hv.
    + mrun. apply Z.eqb_neq in Hne. rewrite Hne. cbn [negb].
      eexists _, _. split; [reflexivity|]. rewrite hw_info_set_klog, vlans_set_klog.
      split; [congruence|]. split; [apply polls_errno_set_klog; assumption|].
      split; [assumption|]. left. congruence.
Qed.

Lemma vlan_remove_shape bridge port vid pvid vlan_aware s :
  priv_typed s -> polls_errno s ->
  let idx := find_slot (fun v => (vlan_bridge v =? bridge) &&
                                 (negb vlan_aware || (vlan_vid v =? vid))) s in
  exists e s',
    gswip_vlan_remove bridge port vid pvid vlan_aware s = (e, s') /\
    hw_info s' = hw_info s /\ polls_errno s' /\ e <= 0 /\
    (vlans s' = vlans s \/
     (in_pool s idx /\
      vlans s' =
        <[Z.to_nat idx := mk_vlan NULL (vlan_vid (vlans_at (vlans s) idx))
                                  (vlan_fid (vlans_at (vlans s) idx))]> (vlans s))).
Proof.
  intros Hty Hp idx. pose proof Hty as (Hlen & Hall & [HN HN'] & Hcpu).
  unfold gswip_vlan_remove.
  unfold bind at 1. unfold get at 1. cbv beta iota zeta. fold idx.
  destruct (Z.eqb_spec idx (-1)) as [Hm|Hm].
  - mrun. eexists _, _. split; [reflexivity|]. rewrite hw_info_set_klog, vlans_set_klog.
    split; [reflexivity|]. split; [apply polls_errno_set_klog; assumption|].
    split; [unfold ENOENT; lia|]. left. reflexivity.
  - assert (Hin : in_pool s idx) by (apply find_slot_in_pool; assumption).
    unfold bind at 1.
    read_cases e mp s2 F Er. destruct F as (Fv & Fi & _ & _ & _ & Fp).
    specialize (Er Hp). specialize (Fp Hp).
    destruct (Z.eqb_spec e 0) as [->|Hne]; cbn [negb].
    + unfold bind at 1.
      write_cases e2 s3 F2 Er2. destruct F2 as (Gv & Gi & _ & _ & _ & Gp).
      specialize (Er2 Fp). specialize (Gp Fp).
      destruct (Z.eqb_spec e2 0) as [->|Hne2]; cbn [negb].
      * unfold bind at 1.
        destruct (Z.land (word_at (tbl_val (remove_mapping mp port)) 1)
                         (Z.lnot (BIT (cpu_port (hw_info s)))) =? 0).
        -- unfold bind at 1.
           destruct (remove_shape idx s3 Gp) as (Ri & Rp & Re & Rv).
           destruct (gswip_vlan_active_remove idx s3) as [e3 s4].
           cbn [fst snd] in *.
           assert (Rv' : vlans s4 =
                     <[Z.to_nat idx := mk_vlan NULL (vlan_vid (vlans_at (vlans s) idx))
                                               (vlan_fid (vlans_at (vlans s) idx))]>
                       (vlans s)) by (rewrite Rv; congruence).
           destruct (Z.eqb_spec e3 0) as [->|Hne3]; cbn [negb].
           ++ unfold ret at 1. cbv beta iota. change (negb (0 =? 0)) with false.
              cbv iota. destruct pvid; mrun; rewrite ?switch_w_eq; cbv beta iota;
                (eexists _, _; split; [reflexivity|]);
                autorewrite with gswdb;
                (split; [congruence|]); (split; [assumption|]); (split; [lia|]);
                right; auto.
           ++ mrun. apply Z.eqb_neq in Hne3. rewrite Hne3. cbn [negb].
              eexists _, _. split; [reflexivity|].
              rewrite hw_info_set_klog, vlans_set_klog.
              split; [congruence|]. split; [apply polls_errno_set_klog; assumption|].
              split; [assumption|]. right. auto.
        -- unfold ret at 1. cbv beta iota. change (negb (0 =? 0)) with false.
           cbv iota. destruct pvid; mrun; rewrite ?switch_w_eq; cbv beta iota;
             (eexists _, _; split; [reflexivity|]);
             autorewrite with gswdb;
             (split; [congruence|]); (split; [assumption|]); (split; [lia|]);
             left; congruence.
      * mrun. eexists _, _. split; [reflexivity|].
        rewrite hw_info_set_klog, vlans_set_klog.
        split; [congruence|]. split; [apply polls_errno_set_klog; assumption|].
        split; [assumption|]. left. congruence.
    + mrun. eexists _, _. split; [reflexivity|].
      rewrite hw_info_set_klog, vlans_set_klog.
      split; [congruence|]. split; [apply polls_errno_set_klog; assumption|].
      split; [assumption|]. left. congruence.
Qed.

(** ** One flow id per bridge *)

Lemma u16_range x : 0 <= u16 x < 65536.
Proof.
  unfold u16. change 65535 with (Z.ones 16). rewrite Z.land_ones by lia.
  apply Z.mod_pos_bound. lia.
Qed.

Lemma u8_range x : 0 <= u8 x < 256.
Proof.
  unfold u8. change 255 with (Z.ones 8). rewrite Z.land_ones by lia.
  apply Z.mod_pos_bound. lia.
Qed.

Lemma consistent_clear s s' idx vid fid :
  priv_typed s -> fid_consistent s ->
  vlans s' = <[Z.to_nat idx := mk_vlan NULL vid fid]> (vlans s) ->
  hw_info s' = hw_info s -> 0 <= idx ->
  fid_consistent s'.
Proof.
  intros Hty Hc Hv Hi H0. unfold fid_consistent, in_pool in *. rewrite Hv, Hi.
  pose proof Hty as (Hlen & _ & [HN _] & _).
  intros i j Hini Hinj Hb Hij.
  destruct (Z.eq_dec i idx) as [->|Hne].
  - destruct (Nat.lt_ge_cases (Z.to_nat idx) (length (vlans s))) as [Hlt|Hge].
    + rewrite vlans_at_insert_same in Hb by assumption. simpl in Hb. congruence.
    + rewrite list_insert_ge in * by assumption. apply Hc; assumption.
  - rewrite vlans_at_insert_other in Hb, Hij |- * by lia.
    destruct (Z.eq_dec j idx) as [->|Hne'].
    + destruct (Nat.lt_ge_cases (Z.to_nat idx) (length (vlans s))) as [Hlt|Hge].
      * rewrite vlans_at_insert_same in Hij by assumption. simpl in Hij. congruence.
      * rewrite list_insert_ge in * by assumption. apply Hc; assumption.
    + rewrite vlans_at_insert_other in Hij |- * by lia. apply Hc; assumption.
Qed.

Lemma consistent_bind s s' idx b vid fid :
  priv_typed s -> fid_consistent s -> in_pool s idx ->
  vlans s' = <[Z.to_nat idx := mk_vlan b vid fid]> (vlans s) ->
  hw_info s' = hw_info s ->
  (b <> NULL ->
   forall j, in_pool s j -> vlan_bridge (vlans_at (vlans s) j) = b ->
             vlan_fid (vlans_at (vlans s) j) = fid) ->
  fid_consistent s'.
Proof.
  intros Hty Hc Hin Hv Hi Hsame.
  destruct (in_pool_nat s idx Hty Hin) as [H0 Hlt].
  destruct (Z.eq_dec b NULL) as [->|Hb].
  { eapply consistent_clear; eassumption. }
  specialize (Hsame Hb). pose proof Hty as (_ & _ & [HN _] & _).
  unfold fid_consistent. unfold in_pool at 1 2. rewrite Hv, Hi.
  intros i j Hini Hinj Hbi Hij.
  destruct (Z.eq_dec i idx) as [->|Hne]; destruct (Z.eq_dec j idx) as [->|Hne'].
  - reflexivity.
  - rewrite vlans_at_insert_same in Hij |- * by assumption.
    rewrite vlans_at_insert_other in Hij |- * by (unfold in_pool in *; lia).
    simpl in *. symmetry. apply Hsame; [exact Hinj|congruence].
  - rewrite vlans_at_insert_same in Hij |- * by assumption.
    rewrite vlans_at_insert_other in Hij, Hbi |- * by (unfold in_pool in *; lia).
    simpl in *. apply Hsame; [exact Hini|congruence].
  - rewrite !vlans_at_insert_other in * by (unfold in_pool in *; lia).
    apply Hc; assumption.
Qed.

Lemma pool_inv_frame s s' :
  pool_inv s -> vlans s' = vlans s -> hw_info s' = hw_info s -> polls_errno s' ->
  pool_inv s'.
Proof.
  intros (Hty & _ & Hc) Hv Hi Hp. unfold pool_inv, priv_typed, fid_consistent, in_pool.
  rewrite Hv, Hi. auto.
Qed.

Lemma pool_inv_clear s s' idx vid fid :
  pool_inv s -> 0 <= idx -> 0 <= vid < 65536 -> 0 <= fid < 256 ->
  vlans s' = <[Z.to_nat idx := mk_vlan NULL vid fid]> (vlans s) ->
  hw_info s' = hw_info s -> polls_errno s' ->
  pool_inv s'.
Proof.
  intros (Hty & _ & Hc) H0 Hvid Hfid Hv Hi Hp. split; [|split].
  - eapply priv_typed_insert; [exact Hty| |exact Hv|exact Hi].
    unfold vlan_typed. simpl. lia.
  - exact Hp.
  - eapply consistent_clear; eassumption.
Qed.

Lemma add_aware_inv bridge port vid untagged pvid s :
  pool_inv s -> pool_inv (snd (gswip_vlan_add_aware bridge port vid untagged pvid s)).
Proof.
  intros Hinv. pose proof Hinv as (Hty & Hp & Hc).
  pose proof Hty as (Hlen & Hall & [HN HN'] & Hcpu).
  destruct (add_aware_shape bridge port vid untagged pvid s Hty Hp)
    as (e & s' & E & Hi & Hp' & He & Hv).
  rewrite E. cbn [snd]. cbv zeta in Hv.
  set (sc := aware_scan_result bridge vid (vlans s)
               (Z.to_nat (VLANS_SIZE - max_ports (hw_info s)))
               (max_ports (hw_info s)) (-1)) in *.
  set (free := find_slot slot_free s) in *.
  destruct Hv as [Hv|[(Hsc & Hin & _ & Hv)|(Hsc & Hin & _ & Hv)]].
  - eapply pool_inv_frame; eassumption.
  - split; [|split; [exact Hp'|]].
    + eapply priv_typed_insert; [exact Hty| |exact Hv|exact Hi].
      unfold vlan_typed. simpl. split; [apply u16_range|apply u8_range].
    + eapply consistent_bind; [exact Hty|exact Hc|exact Hin|exact Hv|exact Hi|].
      intros Hb j Hj Hbj.
      destruct (aware_scan_result_fid bridge vid (vlans s)
                  (Z.to_nat (VLANS_SIZE - max_ports (hw_info s)))
                  (max_ports (hw_info s)) (-1)) as [[_ Hn]|(j0 & Hj0 & Hb0 & Hf0)];
        cbv zeta in *; fold sc in Hn || fold sc in Hf0.
      * exfalso. apply (Hn Hsc j); [|exact Hbj]. apply pool_range; assumption.
      * apply pool_range in Hj0; [|assumption].
        destruct (vlans_at_typed (vlans s) j0 Hall) as [_ Hr].
        rewrite Hf0.
        assert (E1 : (vlan_fid (vlans_at (vlans s) j0) =? -1) = false) by lia.
        rewrite E1, u8_id by assumption.
        apply Hc; [exact Hj|exact Hj0|congruence|congruence].
  - destruct (in_pool_nat s free Hty Hin) as [H0 _].
    eapply pool_inv_clear; [exact Hinv|exact H0|apply u16_range|apply u8_range| | |];
      eassumption.
Qed.

Lemma add_unaware_inv bridge port s :
  pool_inv s -> pool_inv (snd (gswip_vlan_add_unaware bridge port s)).
Proof.
  intros Hinv. pose proof Hinv as (Hty & Hp & Hc).
  pose proof Hty as (Hlen & Hall & [HN HN'] & Hcpu).
  destruct (add_unaware_shape bridge port s Hty Hp)
    as (e & s' & E & Hi & Hp' & He & Hv).
  rewrite E. cbn [snd]. cbv zeta in Hv.
  set (free := find_slot slot_free s) in *.
  destruct Hv as [Hv|[(Hm & Hin & _ & Hv)|(Hm & Hin & _ & Hv)]].
  - eapply pool_inv_frame; eassumption.
  - split; [|split; [exact Hp'|]].
    + eapply priv_typed_insert; [exact Hty| |exact Hv|exact Hi].
      unfold vlan_typed. simpl. split; [apply u16_range|apply u8_range].
    + eapply consistent_bind; [exact Hty|exact Hc|exact Hin|exact Hv|exact Hi|].
      intros Hb j Hj Hbj. exfalso.
      destruct (find_slot_inv (fun v => vlan_bridge v =? bridge) s HN)
        as [[_ Hn]|(Hin' & _)]; cbv zeta in *.
      * specialize (Hn j Hj). apply Z.eqb_neq in Hn. contradiction.
      * unfold in_pool in Hin'. lia.
  - destruct (in_pool_nat s free Hty Hin) as [H0 _].
    eapply pool_inv_clear; [exact Hinv|exact H0|apply u16_range|apply u8_range| | |];
      eassumption.
Qed.

Lemma vlan_remove_inv bridge port vid pvid vlan_aware s :
  pool_inv s ->
  pool_inv (snd (gswip_vlan_remove bridge port vid pvid vlan_aware s)).
Proof.
  intros Hinv. pose proof Hinv as (Hty & Hp & Hc).
  pose proof Hty as (Hlen & Hall & [HN HN'] & Hcpu).
  destruct (vlan_remove_shape bridge port vid pvid vlan_aware s Hty Hp)
    as (e & s' & E & Hi & Hp' & He & Hv).
  rewrite E. cbn [snd]. cbv zeta in Hv.
  destruct Hv as [Hv|(Hin & Hv)].
  - eapply pool_inv_frame; eassumption.
  - destruct (in_pool_nat s _ Hty Hin) as [H0 _].
    destruct (vlans_at_typed (vlans s)
                (find_slot (fun v => (vlan_bridge v =? bridge) &&
                                     (negb vlan_aware || (vlan_vid v =? vid))) s)
                Hall) as [Hr1 Hr2].
    eapply pool_inv_clear; [exact Hinv|exact H0|exact Hr1|exact Hr2| | |]; eassumption.
Qed.

Lemma vlans_at_replicate n i : vlans_at (replicate n vlan0) i = vlan0.
Proof.
  unfold vlans_at. destruct (replicate n vlan0 !! Z.to_nat i) as [v|] eqn:E;
    [|reflexivity].
  apply lookup_replicate in E as [-> _]. reflexivity.
Qed.

Lemma pool_inv_init info h :
  info_typed info -> Forall (fun e => e <= 0) (hw_polls h) ->
  pool_inv (priv_init info h).
Proof.
  intros [HN Hc] Hp. split; [|split].
  - unfold priv_typed, priv_init. cbn [vlans hw_info].
    split; [apply length_replicate|]. split; [|split; assumption].
    apply Forall_replicate. unfold vlan_typed, vlan0. simpl. lia.
  - exact Hp.
  - unfold fid_consistent. intros i j _ _ Hb _.
    change (vlans (priv_init info h)) with (replicate 64 vlan0) in *.
    rewrite vlans_at_replicate in Hb. exfalso. apply Hb. reflexivity.
Qed.

Lemma reachable_inv s : reachable s -> pool_inv s.
Proof.
  induction 1 as [info h Hi Hp| s b p _ IH | s b p v u pv _ IH | s b p v pv a _ IH
                  | s s' _ IH Hv Hi Hp].
  - apply pool_inv_init; assumption.
  - apply add_unaware_inv; assumption.
  - apply add_aware_inv; assumption.
  - apply vlan_remove_inv; assumption.
  - eapply pool_inv_frame; eassumption.
Qed.




(** ** Failing table writes *)

Lemma pool_view_clear_free s s' idx vid fid :
  priv_typed s -> in_pool s idx ->
  slot_free (vlans_at (vlans s) idx) = true ->
  vlans s' = <[Z.to_nat idx := mk_vlan NULL vid fid]> (vlans s) ->
  pool_view s' = pool_view s.
Proof.
  intros Hty Hin Hfree Hv. destruct (in_pool_nat s idx Hty Hin) as [H0 Hlt].
  unfold pool_view. rewrite Hv.
  change (map slot_view) with (fmap (M := list) slot_view).
  rewrite list_fmap_insert. apply list_insert_id.
  rewrite list_lookup_fmap. unfold vlans_at in Hfree.
  destruct (vlans s !! Z.to_nat idx) as [v|] eqn:E.
  - simpl in *. unfold slot_view. rewrite Hfree. reflexivity.
  - apply lookup_ge_None in E. lia.
Qed.




(** ** Aging the forwarding table *)

Lemma load_row_eq r e1 e2 :
  tbl_index e1 = tbl_index e2 -> tbl_table e1 = tbl_table e2 ->
  tbl_key_mode e1 = tbl_key_mode e2 -> load_row r e1 = load_row r e2.
Proof. unfold load_row. intros -> -> ->. reflexivity. Qed.

Lemma read_view_ext s s' t j :
  hw_bank (dev s') !! (t, j) = hw_bank (dev s) !! (t, j) ->
  read_view s' t j = read_view s t j.
Proof. unfold read_view, bank_row. intros ->. reflexivity. Qed.






(** ** Dumping the forwarding table *)

Lemma port_bit_test x p :
  0 <= p -> negb (Z.land x (BIT p) =? 0) = Z.testbit x p.
Proof.
  intros Hp. destruct (Z.testbit x p) eqn:E.
  - apply negb_true_iff. apply Z.eqb_neq. intros H0.
    assert (Hb : Z.testbit (Z.land x (BIT p)) p = false) by (rewrite H0; apply Z.bits_0).
    rewrite Z.land_spec, testbit_BIT, Z.eqb_refl, E in Hb by assumption. discriminate.
  - apply negb_false_iff. apply Z.eqb_eq. apply Z.bits_inj'. intros q Hq.
    rewrite Z.land_spec, testbit_BIT, Z.bits_0 by assumption.
    destruct (Z.eqb_spec p q) as [<-|Hne]; [rewrite E; reflexivity|apply andb_false_r].
Qed.

Lemma fdb_dump_loop_ok port n :
  forall i mb data s,
    polls_ok s -> 0 <= port -> 0 <= i -> i + Z.of_nat n <= 65536 ->
    tbl_key_mode mb = false ->
    exists s',
      fdb_dump_loop record_cb port n i mb data s =
        ((0, data ++ flat_map (fun j => spec_dump_report port
                                          (read_view s GSWIP_TABLE_MAC_BRIDGE j))
                              (indices n i)), s') /\
      hw_bank (dev s') = hw_bank (dev s) /\ polls_ok s' /\
      vlans s' = vlans s /\ hw_regs (dev s') = hw_regs (dev s).
Proof.
  induction n as [|n IH]; intros i mb data s Hp Hport Hi Hfit Hk.
  - exists s. simpl. rewrite app_nil_r. repeat split; auto.
  - cbn [fdb_dump_loop indices flat_map]. cbv zeta. unfold bind at 1.
    rewrite read_ok by assumption. cbv beta iota.
    set (e := load_row _ _).
    assert (He : e = read_view s GSWIP_TABLE_MAC_BRIDGE i).
    { subst e. unfold read_view, pce_addr. cbn [tbl_key_mode with_index with_table].
      rewrite Hk. cbn [tbl_table tbl_index with_index with_table].
      rewrite (u16_id i) by lia.
      apply load_row_eq; [reflexivity|reflexivity|exact Hk]. }
    assert (Hke : tbl_key_mode e = false) by (rewrite He; reflexivity).
    change (negb (0 =? 0)) with false. cbv iota.
    rewrite <- He. unfold spec_dump_report at 1.
    assert (Hnext : forall data',
      exists s',
        fdb_dump_loop record_cb port n (i + 1) e data' (polled s) =
          ((0, data' ++ flat_map (fun j => spec_dump_report port
                                             (read_view s GSWIP_TABLE_MAC_BRIDGE j))
                                 (indices n (i + 1))), s') /\
        hw_bank (dev s') = hw_bank (dev s) /\ polls_ok s' /\
        vlans s' = vlans s /\ hw_regs (dev s') = hw_regs (dev s)).
    { intros data'.
      destruct (IH (i + 1) e data' (polled s) ltac:(auto with gsw) Hport
                  ltac:(lia) ltac:(lia) Hke) as (s' & E & Hb & Hp' & Hv & Hr).
      exists s'. split; [|auto].
      rewrite E.
      rewrite (flat_map_ext
                 (fun j => spec_dump_report port
                             (read_view (polled s) GSWIP_TABLE_MAC_BRIDGE j))
                 (fun j => spec_dump_report port
                             (read_view s GSWIP_TABLE_MAC_BRIDGE j))).
      - reflexivity.
      - intros j. rewrite (read_view_ext s (polled s)) by reflexivity. reflexivity. }
    destruct (tbl_valid e); cbn [negb]; [|apply Hnext].
    destruct (mac_static e).
    + rewrite port_bit_test by assumption.
      destruct (Z.testbit (word_at (tbl_val e) 0) port); [|apply Hnext].
      unfold record_cb at 1. cbv beta iota. change (negb (0 =? 0)) with false.
      cbv iota. destruct (Hnext (data ++ [(fdb_addr e, 0, true)])) as (s' & E & H).
      exists s'. split; [|exact H]. rewrite E, <- app_assoc. reflexivity.
    + destruct (mac_port_field e =? port); [|apply Hnext].
      unfold record_cb at 1. cbv beta iota. change (negb (0 =? 0)) with false.
      cbv iota. destruct (Hnext (data ++ [(fdb_addr e, 0, false)])) as (s' & E & H).
      exists s'. split; [|exact H]. rewrite E, <- app_assoc. reflexivity.
Qed.

Lemma port_fdb_ok ds port addr vid add s :
  priv_typed s -> polls_ok s -> bridge_dev ds port <> NULL ->
  find_slot (fun v => vlan_bridge v =? bridge_dev ds port) s <> -1 ->
  let fid := vlan_fid (vlans_at (vlans s)
                         (find_slot (fun v => vlan_bridge v =? bridge_dev ds port) s)) in
  exists s',
    gswip_port_fdb ds port addr vid add s = (0, s') /\
    hw_bank (dev s') =
      <[(GSWIP_TABLE_MAC_BRIDGE,
         hw_ks (dev s) (hw_bank (dev s)) GSWIP_TABLE_MAC_BRIDGE (fdb_key addr fid))
        := fdb_static_row addr fid port add]> (hw_bank (dev s)) /\
    polls_ok s' /\ vlans s' = vlans s.
Proof.
  intros Hty Hp Hb Hf fid. destruct Hty as (Hlen & Hall & [HN HN'] & Hcpu).
  unfold gswip_port_fdb. cbv zeta. mrun.
  apply Z.eqb_neq in Hb. rewrite Hb. apply Z.eqb_neq in Hf. rewrite Hf. fold fid.
  assert (Hfid : 0 <= fid < 256) by (apply (vlans_at_typed (vlans s) _ Hall)).
  assert (Hf1 : (fid =? -1) = false) by (apply Z.eqb_neq; lia).
  rewrite Hf1. mok.
  eexists. split; [reflexivity|]. split; [|split; [auto with gsw|reflexivity]].
  unfold written, fdb_static_row, fdb_key, row_of_entry, pce_addr. simpl.
  rewrite (u16_id fid) by lia. reflexivity.
Qed.

Lemma byte_high_bits a n : 0 <= a < 256 -> 8 <= n -> Z.testbit a n = false.
Proof.
  intros Ha Hn. rewrite <- (Z.mod_small a (2 ^ 8)) by (change (2 ^ 8) with 256; lia).
  apply Z.mod_pow2_bits_high. lia.
Qed.

Lemma byte_pair lo hi :
  0 <= lo < 256 -> 0 <= hi < 256 ->
  let w := u16 (u16 (Z.lor lo (Z.shiftl hi 8))) in
  Z.land w 255 = lo /\ Z.land (Z.shiftr w 8) 255 = hi.
Proof.
  intros Hlo Hhi. cbv zeta. rewrite u16_idem. change 255 with (Z.ones 8). split.
  - apply Z.bits_inj'. intros n Hn.
    rewrite Z.land_spec, Z.testbit_ones_nonneg, u16_testbit, Z.lor_spec, Z.shiftl_spec
      by lia.
    destruct (Z.ltb_spec n 8).
    + rewrite (Z.testbit_neg_r hi (n - 8)) by lia.
      assert (H16 : (n <? 16) = true) by lia.
      rewrite H16, orb_false_r, !andb_true_r. reflexivity.
    + rewrite andb_false_r. symmetry. apply byte_high_bits; assumption.
  - apply Z.bits_inj'. intros n Hn.
    rewrite Z.land_spec, Z.testbit_ones_nonneg, Z.shiftr_spec, u16_testbit, Z.lor_spec,
      Z.shiftl_spec by lia.
    replace (n + 8 - 8) with n by lia.
    rewrite (byte_high_bits lo (n + 8)) by lia. cbn [orb].
    destruct (Z.ltb_spec n 8).
    + assert (H16 : (n + 8 <? 16) = true) by lia.
      rewrite H16, !andb_true_r. reflexivity.
    + rewrite andb_false_r. symmetry. apply byte_high_bits; assumption.
Qed.

Lemma flat_map_single {A} (f : Z -> list A) n :
  forall i k,
    i <= k < i + Z.of_nat n ->
    (forall j, i <= j < i + Z.of_nat n -> j <> k -> f j = []) ->
    flat_map f (indices n i) = f k.
Proof.
  induction n as [|n IH]; intros i k Hk Hf; [lia|].
  cbn [indices flat_map]. destruct (Z.eq_dec i k) as [->|Hne].
  - assert (Hrest : flat_map f (indices n (k + 1)) = []).
    { clear IH Hk. assert (Hf' : forall j, k + 1 <= j < k + 1 + Z.of_nat n -> f j = [])
        by (intros j Hj; apply Hf; lia).
      clear Hf. revert Hf'. generalize (k + 1). induction n as [|n IHn]; intros m Hm.
      - reflexivity.
      - cbn [indices flat_map]. rewrite (Hm m) by lia. rewrite IHn; [reflexivity|].
        intros j Hj. apply Hm. lia. }
    rewrite Hrest. apply app_nil_r.
  - rewrite (Hf i) by lia. apply IH; [lia|]. intros j Hj Hjk. apply Hf; lia.
Qed.

Lemma static_entry_report s1 k a0 a1 a2 a3 a4 a5 fid p q :
  hw_bank (dev s1) !! (GSWIP_TABLE_MAC_BRIDGE, k) =
    Some (fdb_static_row [a0; a1; a2; a3; a4; a5] fid p true) ->
  0 <= a0 < 256 -> 0 <= a1 < 256 -> 0 <= a2 < 256 ->
  0 <= a3 < 256 -> 0 <= a4 < 256 -> 0 <= a5 < 256 ->
  0 <= p < 16 -> 0 <= q ->
  spec_dump_report q (read_view s1 GSWIP_TABLE_MAC_BRIDGE k) =
    if q =? p then [([a0; a1; a2; a3; a4; a5], 0, true)] else [].
Proof.
  intros Hrow H0 H1 H2 H3 H4 H5 Hp Hq.
  assert (Hv : read_view s1 GSWIP_TABLE_MAC_BRIDGE k =
               load_row (fdb_static_row [a0; a1; a2; a3; a4; a5] fid p true)
                        (with_table GSWIP_TABLE_MAC_BRIDGE (with_index k entry0))).
  { unfold read_view, bank_row. rewrite Hrow. reflexivity. }
  rewrite Hv. clear Hv Hrow.
  set (e := load_row _ _).
  assert (Ev : tbl_valid e = true) by reflexivity.
  assert (Es : mac_static e = true) by reflexivity.
  assert (E0 : word_at (tbl_val e) 0 = u16 (u16 (BIT p))) by reflexivity.
  assert (K0 : word_at (tbl_key e) 0 = u16 (u16 (Z.lor a5 (Z.shiftl a4 8))))
    by reflexivity.
  assert (K1 : word_at (tbl_key e) 1 = u16 (u16 (Z.lor a3 (Z.shiftl a2 8))))
    by reflexivity.
  assert (K2 : word_at (tbl_key e) 2 = u16 (u16 (Z.lor a1 (Z.shiftl a0 8))))
    by reflexivity.
  unfold spec_dump_report, fdb_addr. rewrite Ev, Es, E0, K0, K1, K2.
  rewrite u16_idem, u16_testbit, testbit_BIT by lia.
  destruct (byte_pair a5 a4 H5 H4) as [-> ->].
  destruct (byte_pair a3 a2 H3 H2) as [-> ->].
  destruct (byte_pair a1 a0 H1 H0) as [-> ->].
  rewrite (Z.eqb_sym p q).
  destruct (Z.eqb_spec q p) as [->|Hne]; [|reflexivity].
  assert (H16 : (p <? 16) = true) by lia. rewrite H16. reflexivity.
Qed.

Lemma fdb_dump_ok ds port s :
  polls_ok s -> 0 <= port ->
  exists s',
    gswip_port_fdb_dump record_cb ds port [] s =
      ((0, flat_map (fun j => spec_dump_report port
                                (read_view s GSWIP_TABLE_MAC_BRIDGE j))
                    (indices 2048 0)), s') /\
    hw_bank (dev s') = hw_bank (dev s).
Proof.
  intros Hp Hport. unfold gswip_port_fdb_dump.
  destruct (fdb_dump_loop_ok port 2048 0 entry0 [] s Hp Hport ltac:(lia)
              ltac:(change (Z.of_nat 2048) with 2048; lia) eq_refl)
    as (s' & E & Hb & _).
  exists s'. split; [exact E|exact Hb].
Qed.

Lemma dump_single_static ds q s s1 k a0 a1 a2 a3 a4 a5 fid p :
  polls_ok s1 ->
  hw_bank (dev s1) =
    <[(GSWIP_TABLE_MAC_BRIDGE, k) := fdb_static_row [a0; a1; a2; a3; a4; a5] fid p true]>
      (hw_bank (dev s)) ->
  (forall j, 0 <= j < 2048 -> tbl_valid (read_view s GSWIP_TABLE_MAC_BRIDGE j) = false) ->
  0 <= k < 2048 ->
  0 <= a0 < 256 -> 0 <= a1 < 256 -> 0 <= a2 < 256 ->
  0 <= a3 < 256 -> 0 <= a4 < 256 -> 0 <= a5 < 256 ->
  0 <= p < 16 -> 0 <= q ->
  exists s2,
    gswip_port_fdb_dump record_cb ds q [] s1 =
      ((0, if q =? p then [([a0; a1; a2; a3; a4; a5], 0, true)] else []), s2).
Proof.
  intros Hp Hbank Hempty Hk H0 H1 H2 H3 H4 H5 Hpp Hq.
  destruct (fdb_dump_ok ds q s1 Hp Hq) as (s2 & E & _).
  exists s2. rewrite E. f_equal. f_equal.
  rewrite (flat_map_single _ 2048 0 k).
  - apply (static_entry_report s1 k a0 a1 a2 a3 a4 a5 fid p q); try assumption.
    rewrite Hbank. apply lookup_insert_eq.
  - change (Z.of_nat 2048) with 2048. lia.
  - change (Z.of_nat 2048) with 2048. intros j Hj Hne.
    rewrite (read_view_ext s s1).
    + unfold spec_dump_report. rewrite Hempty by lia. reflexivity.
    + rewrite Hbank. apply lookup_insert_ne. intros Heq. inversion Heq. lia.
Qed.

(** C8. When no poll times out and the callback never stops the scan,
    gswip_port_fdb_dump for a port calls the callback, in index order over
    the 2048 rows, for exactly the valid static entries whose port map has
    the port's bit set, flagged static, and the valid dynamic entries whose
    ingress-port field is the port, flagged learned.  Hence on an empty
    forwarding table a static entry added for port p is the one report of
    a dump for p and is absent from a dump for any other port q. *)
Theorem fdb_dump_filter :
  (forall ds port s,
     polls_ok s -> 0 <= port ->
     exists s',
       gswip_port_fdb_dump record_cb ds port [] s =
         ((0, flat_map (fun j => spec_dump_report port
                                   (read_view s GSWIP_TABLE_MAC_BRIDGE j))
                       (indices 2048 0)), s') /\
       hw_bank (dev s') = hw_bank (dev s)) /\
  (forall ds p q a0 a1 a2 a3 a4 a5 vid s,
     priv_typed s -> polls_ok s ->
     0 <= a0 < 256 -> 0 <= a1 < 256 -> 0 <= a2 < 256 ->
     0 <= a3 < 256 -> 0 <= a4 < 256 -> 0 <= a5 < 256 ->
     0 <= p < 16 -> 0 <= q -> q <> p ->
     bridge_dev ds p <> NULL ->
     find_slot (fun v => vlan_bridge v =? bridge_dev ds p) s <> -1 ->
     (forall j, 0 <= j < 2048 ->
        tbl_valid (read_view s GSWIP_TABLE_MAC_BRIDGE j) = false) ->
     0 <= hw_ks (dev s) (hw_bank (dev s)) GSWIP_TABLE_MAC_BRIDGE
            (fdb_key [a0; a1; a2; a3; a4; a5]
               (vlan_fid (vlans_at (vlans s)
                  (find_slot (fun v => vlan_bridge v =? bridge_dev ds p) s)))) < 2048 ->
     exists s1 s2 s3,
       gswip_port_fdb_add ds p [a0; a1; a2; a3; a4; a5] vid s = (0, s1) /\
       gswip_port_fdb_dump record_cb ds p [] s1 =
         ((0, [([a0; a1; a2; a3; a4; a5], 0, true)]), s2) /\
       gswip_port_fdb_dump record_cb ds q [] s1 = ((0, []), s3)).
Proof.
  split.
  - intros ds port s. apply fdb_dump_ok.
  - intros ds p q a0 a1 a2 a3 a4 a5 vid s Hty Hp H0 H1 H2 H3 H4 H5 Hpp Hq Hne Hb Hf
      Hempty Hk.
    destruct (port_fdb_ok ds p [a0; a1; a2; a3; a4; a5] vid true s Hty Hp Hb Hf)
      as (s1 & E & Hbank & Hp1 & _).
    cbv zeta in Hbank.
    destruct (dump_single_static ds p s s1 _ a0 a1 a2 a3 a4 a5 _ p Hp1 Hbank Hempty Hk
                H0 H1 H2 H3 H4 H5 Hpp ltac:(lia)) as (s2 & E2).
    destruct (dump_single_static ds q s s1 _ a0 a1 a2 a3 a4 a5 _ p Hp1 Hbank Hempty Hk
                H0 H1 H2 H3 H4 H5 Hpp Hq) as (s3 & E3).
    rewrite Z.eqb_refl in E2.
    assert (Eq : (q =? p) = false) by (apply Z.eqb_neq; exact Hne).
    rewrite Eq in E3.
    exists s1, s2, s3. split; [exact E|]. split; assumption.
Qed.

(** ** The example configurations are well-formed *)

Lemma bank_typed_empty s : hw_bank (dev s) = ∅ -> bank_typed s.
Proof.
  intros H t i. unfold bank_row. rewrite H, lookup_empty. split; reflexivity.
Qed.

Lemma bank_typed_insert s s' k r :
  bank_typed s -> row_typed r ->
  hw_bank (dev s') = <[k := r]> (hw_bank (dev s)) ->
  bank_typed s'.
Proof.
  intros Hs Hr Hb t i. unfold bank_row. rewrite Hb.
  destruct (decide (k = (t, i))) as [->|Hne].
  - rewrite lookup_insert_eq. exact Hr.
  - rewrite lookup_insert_ne by assumption. apply (Hs t i).
Qed.

Lemma priv_example_typed : priv_typed priv_example.
Proof.
  split; [reflexivity|]. split; [|split; simpl; lia].
  apply Forall_replicate. split; simpl; lia.
Qed.

Lemma priv_example_polls_ok : polls_ok priv_example.
Proof. constructor. Qed.

Lemma priv_example_bank_typed : bank_typed priv_example.
Proof. apply bank_typed_empty. reflexivity. Qed.

Lemma priv_member_typed : priv_typed priv_member.
Proof.
  split; [reflexivity|]. split; [|split; simpl; lia].
  apply Forall_insert; [apply Forall_replicate|]; split; simpl; lia.
Qed.

Lemma priv_member_polls_ok : polls_ok priv_member.
Proof. constructor. Qed.

Lemma priv_member_bank_typed : bank_typed priv_member.
Proof.
  intros t i. unfold bank_row, priv_member. cbn [dev hw_bank].
  destruct (decide ((GSWIP_TABLE_VLAN_MAPPING, 6) = (t, i))) as [<-|Hne].
  - rewrite lookup_insert_eq. split; reflexivity.
  - rewrite lookup_insert_ne by assumption.
    destruct (decide ((GSWIP_TABLE_ACTIVE_VLAN, 6) = (t, i))) as [<-|Hne'].
    + rewrite lookup_insert_eq. split; reflexivity.
    + rewrite lookup_insert_ne by assumption. rewrite lookup_empty. split; reflexivity.
Qed.



Lemma priv_member_no_fdb j :
  tbl_valid (read_view priv_member GSWIP_TABLE_MAC_BRIDGE j) = false.
Proof.
  unfold read_view, bank_row, priv_member. cbn [dev hw_bank].
  rewrite lookup_insert_ne by (intros H; inversion H).
  rewrite lookup_insert_ne by (intros H; inversion H).
  rewrite lookup_empty. reflexivity.
Qed.

(** * Concrete runs *)

(** C3, on a concrete run.  On the zeroed priv, adding port 3 to VLAN 10
    of bridge 200 as an untagged member sets bit 3 of the port map (val[1])
    and leaves bit 3 of the tag map (val[2]) clear; adding it as a tagged
    member sets bit 3 in both.  The bit that depends on the untagged flag
    is set exactly when the flag is clear. *)
Lemma vlan_add_aware_untagged_clears_tag_bit :
  fst (gswip_vlan_add_aware 200 3 10 true false priv_example) = 0 /\
  Z.testbit
    (word_at (row_val (bank_row
       (dev (snd (gswip_vlan_add_aware 200 3 10 true false priv_example)))
       GSWIP_TABLE_VLAN_MAPPING 6)) 1) 3 = true /\
  Z.testbit
    (word_at (row_val (bank_row
       (dev (snd (gswip_vlan_add_aware 200 3 10 true false priv_example)))
       GSWIP_TABLE_VLAN_MAPPING 6)) 2) 3 = false /\
  fst (gswip_vlan_add_aware 200 3 10 false false priv_example) = 0 /\
  Z.testbit
    (word_at (row_val (bank_row
       (dev (snd (gswip_vlan_add_aware 200 3 10 false false priv_example)))
       GSWIP_TABLE_VLAN_MAPPING 6)) 1) 3 = true /\
  Z.testbit
    (word_at (row_val (bank_row
       (dev (snd (gswip_vlan_add_aware 200 3 10 false false priv_example)))
       GSWIP_TABLE_VLAN_MAPPING 6)) 2) 3 = true.
Proof. vm_compute. repeat split. Qed.


(** ** The theorems at the example configurations *)



(** C3 at the zeroed priv: an untagged pvid add of port 3 to VLAN 10 of
    bridge 200 succeeds. *)
Lemma vlan_add_aware_membership_example :
  exists s', gswip_vlan_add_aware 200 3 10 true true priv_example = (0, s').
Proof.
  destruct (vlan_add_aware_membership 200 3 10 true true priv_example
              priv_example_typed priv_example_bank_typed priv_example_polls_ok
              ltac:(lia) ltac:(vm_compute; discriminate))
    as (s' & E & _).
  exists s'. exact E.
Defined.

(** C4 at the priv where bridge 100 holds slot 6 with ports 1 and 2: port 1
    leaves and the operation succeeds. *)
Lemma vlan_remove_releases_and_reuses_example :
  exists s', gswip_vlan_remove 100 1 0 false false priv_member = (0, s').
Proof.
  destruct (vlan_remove_releases_and_reuses 100 1 0 false false priv_member 6
              priv_member_typed priv_member_bank_typed priv_member_polls_ok
              ltac:(lia) ltac:(vm_compute; discriminate)
              ltac:(vm_compute; reflexivity) ltac:(lia))
    as (s' & E & _).
  exists s'. exact E.
Defined.

(** C5 at the priv where only slot 6 is bound: creating a slot for bridge
    300 takes index 7. *)
Lemma slot_pool_first_fit_example :
  fst (gswip_vlan_active_create 300 (-1) 0 priv_member) = 7.
Proof.
  destruct (slot_pool_first_fit priv_member priv_member_typed)
    as (_ & _ & Hcreate & _).
  apply (Hcreate 300 (-1) 0 7 priv_member_polls_ok).
  - vm_compute. intuition congruence.
  - reflexivity.
  - intros j [Hj _] Hlt. change (max_ports (hw_info priv_member)) with 6 in Hj.
    assert (j = 6) as -> by lia. reflexivity.
Defined.



(** C8 at the spec's scenario: the static entry aa:bb:cc:dd:ee:ff added on
    port 2 is reported by the dump of port 2 and not by the dump of port 3. *)
Lemma fdb_dump_filter_example :
  exists s1 s2 s3,
    gswip_port_fdb_add ds_example 2 [170; 187; 204; 221; 238; 255] 0 priv_member
      = (0, s1) /\
    gswip_port_fdb_dump record_cb ds_example 2 [] s1 =
      ((0, [([170; 187; 204; 221; 238; 255], 0, true)]), s2) /\
    gswip_port_fdb_dump record_cb ds_example 3 [] s1 = ((0, []), s3).
Proof.
  apply (proj2 fdb_dump_filter ds_example 2 3 170 187 204 221 238 255 0 priv_member
           priv_member_typed priv_member_polls_ok);
    try lia.
  - vm_compute. discriminate.
  - vm_compute. discriminate.
  - intros j _. apply priv_member_no_fdb.
  - vm_compute. intuition congruence.
Defined.

(** C9 at port 1 of the example switch, a member of bridge 100 with
    filtering off: switching filtering on is refused. *)
Lemma vlan_filtering_toggle_gate_example :
  gswip_port_vlan_filtering ds_example 1 true priv_example = (- EIO, priv_example).
Proof.
  apply (proj1 (vlan_filtering_toggle_gate ds_example 1 true priv_example)).
  split; vm_compute; discriminate.
Defined.

(** C10 at port 0 of the example switch, which is in no bridge. *)
Lemma fdb_flow_id_from_first_slot_example :
  gswip_port_fdb ds_example 0 [170; 187; 204; 221; 238; 255] 0 true priv_example
    = (- EINVAL, priv_example).
Proof.
  apply (proj1 (fdb_flow_id_from_first_slot ds_example 0
                  [170; 187; 204; 221; 238; 255] 0 true priv_example)).
  reflexivity.
Defined.

(** * Further properties of the driver *)

(** * Further properties of the driver *)

(** ** Register fields *)

Lemma mask_bits x c st q :
  0 <= q < 32 ->
  Z.testbit (u32 (Z.lor (Z.land x (Z.lnot c)) st)) q =
    (Z.testbit x q && negb (Z.testbit c q)) || Z.testbit st q.
Proof.
  intros Hq. unfold u32. change 4294967295 with (Z.ones 32).
  rewrite Z.land_spec, Z.lor_spec, Z.land_spec, Z.lnot_spec by lia.
  rewrite Z.ones_spec_low by lia. apply andb_true_r.
Qed.

Lemma mask_high_bits x c st q :
  32 <= q -> Z.testbit (u32 (Z.lor (Z.land x (Z.lnot c)) st)) q = false.
Proof.
  intros Hq. unfold u32. change 4294967295 with (Z.ones 32).
  rewrite Z.land_spec, Z.ones_spec_high by lia. apply andb_false_r.
Qed.

Lemma reg_mask_same c st o s :
  reg (snd (gswip_switch_mask c st o s)) o =
    u32 (Z.lor (Z.land (reg s o) (Z.lnot c)) st).
Proof. rewrite switch_mask_eq. apply reg_written_same. Qed.

Lemma reg_mask_other c st o o' s :
  o <> o' -> reg (snd (gswip_switch_mask c st o s)) o' = reg s o'.
Proof. intros H. rewrite switch_mask_eq. apply reg_written_other. exact H. Qed.

Lemma mdio_mask_same c st o s :
  mdio_reg (snd (gswip_slave_mdio_mask c st o s)) o =
    u32 (Z.lor (Z.land (mdio_reg s o) (Z.lnot c)) st).
Proof.
  unfold mdio_reg, gswip_slave_mdio_mask, gswip_slave_mdio_r, gswip_slave_mdio_w,
    bind, modify. simpl. rewrite lookup_insert_eq. reflexivity.
Qed.

Lemma mdio_mask_other c st o o' s :
  o <> o' -> mdio_reg (snd (gswip_slave_mdio_mask c st o s)) o' = mdio_reg s o'.
Proof.
  intros H. unfold mdio_reg, gswip_slave_mdio_mask, gswip_slave_mdio_r,
    gswip_slave_mdio_w, bind, modify. simpl.
  rewrite lookup_insert_ne by exact H. reflexivity.
Qed.

(* What a register write leaves alone. *)
Lemma switch_mask_frame c st o s :
  let s' := snd (gswip_switch_mask c st o s) in
  vlans s' = vlans s /\ hw_info s' = hw_info s /\ klog s' = klog s /\
  port_vlan_filter s' = port_vlan_filter s /\
  hw_bank (dev s') = hw_bank (dev s) /\ hw_mdio (dev s') = hw_mdio (dev s) /\
  hw_polls (dev s') = hw_polls (dev s).
Proof. cbv zeta. rewrite switch_mask_eq. repeat split. Qed.

Lemma mdio_mask_frame c st o s :
  let s' := snd (gswip_slave_mdio_mask c st o s) in
  vlans s' = vlans s /\ hw_info s' = hw_info s /\ klog s' = klog s /\
  port_vlan_filter s' = port_vlan_filter s /\
  hw_bank (dev s') = hw_bank (dev s) /\ hw_regs (dev s') = hw_regs (dev s) /\
  hw_polls (dev s') = hw_polls (dev s).
Proof. cbv zeta. repeat split. Qed.

Lemma bind_unit_snd {B} (m : M unit) (k : M B) s :
  (m ;;; k) s = k (snd (m s)).
Proof. unfold bind. destruct (m s) as [[] s1]. reflexivity. Qed.

(** ** Port disable *)

(** X1. gswip_port_disable does nothing on a port that is not a user port.
    On a user port it clears the enable bit (bit 0) of the port's fetch-DMA
    and store-DMA control registers and keeps every other bit of the two;
    it writes no other register and leaves the table rows, the MDIO
    registers and priv->vlans as they are: the single-port bridge of the
    port stays in place. *)
Theorem port_disable_clears_dma_enable ds port s :
  0 <= port ->
  (dsa_is_user_port ds port = false -> gswip_port_disable ds port s = (tt, s)) /\
  (dsa_is_user_port ds port = true ->
   let s' := snd (gswip_port_disable ds port s) in
   (forall q, 0 <= q < 32 ->
      Z.testbit (reg s' (GSWIP_FDMA_PCTRLp port)) q =
        Z.testbit (reg s (GSWIP_FDMA_PCTRLp port)) q && negb (q =? 0) /\
      Z.testbit (reg s' (GSWIP_SDMA_PCTRLp port)) q =
        Z.testbit (reg s (GSWIP_SDMA_PCTRLp port)) q && negb (q =? 0)) /\
   (forall o, o <> GSWIP_FDMA_PCTRLp port -> o <> GSWIP_SDMA_PCTRLp port ->
      reg s' o = reg s o) /\
   hw_bank (dev s') = hw_bank (dev s) /\ hw_mdio (dev s') = hw_mdio (dev s) /\
   vlans s' = vlans s /\ port_vlan_filter s' = port_vlan_filter s).
Proof.
  intros Hport. unfold gswip_port_disable. split.
  - intros ->. reflexivity.
  - intros ->. cbv zeta. change (negb true) with false. cbv iota.
    rewrite bind_unit_snd.
    assert (Hne : GSWIP_FDMA_PCTRLp port <> GSWIP_SDMA_PCTRLp port)
      by (unfold GSWIP_FDMA_PCTRLp, GSWIP_SDMA_PCTRLp; lia).
    split; [|split].
    + intros q Hq. rewrite reg_mask_other, !reg_mask_same by auto.
      rewrite reg_mask_other by auto.
      rewrite !mask_bits by exact Hq.
      change GSWIP_FDMA_PCTRL_EN with (BIT 0). change GSWIP_SDMA_PCTRL_EN with (BIT 0).
      rewrite testbit_BIT, Z.bits_0, !orb_false_r by lia.
      rewrite (Z.eqb_sym 0 q). split; reflexivity.
    + intros o H1 H2. rewrite !reg_mask_other by auto. reflexivity.
    + rewrite !switch_mask_eq. repeat split.
Qed.

Lemma mdio_mask_eq c st o s :
  gswip_slave_mdio_mask c st o s =
    (tt, mdio_written (Z.lor (Z.land (mdio_reg s o) (Z.lnot c)) st) o s).
Proof. reflexivity. Qed.

Lemma mdio_written_same v o s : mdio_reg (mdio_written v o s) o = u32 v.
Proof. unfold mdio_reg, mdio_written. simpl. rewrite lookup_insert_eq. reflexivity. Qed.

Lemma mdio_written_other v o o' s :
  o <> o' -> mdio_reg (mdio_written v o s) o' = mdio_reg s o'.
Proof.
  intros H. unfold mdio_reg, mdio_written. simpl.
  rewrite lookup_insert_ne by exact H. reflexivity.
Qed.

Lemma reg_mdio_written v o s o' : reg (mdio_written v o s) o' = reg s o'.
Proof. reflexivity. Qed.

Lemma mdio_reg_written v o s o' : mdio_reg (reg_written v o s) o' = mdio_reg s o'.
Proof. reflexivity. Qed.

Ltac ne := first [assumption | apply not_eq_sym; assumption].

(** ** Port enable *)

(** X2. On a user port below max_ports, or on the CPU port, with no poll
    timing out, gswip_port_enable returns 0 and leaves the port's counter
    register at CNTEN alone, sets the enable bit and both VLAN-modification
    bits of the fetch-DMA control register and the enable bit of the
    store-DMA control register, keeping their other bits.  On a user port
    the five address bits of the port's MDIO PHY register become the low
    five bits of the PHY address (0 without a PHY) and its other bits are
    kept; on the CPU port no MDIO register and no table row is written. *)
Theorem port_enable_registers ds port phydev s :
  priv_typed s -> polls_ok s -> 0 <= port < max_ports (hw_info s) ->
  dsa_is_user_port ds port = true \/ dsa_is_cpu_port ds port = true ->
  exists s',
    gswip_port_enable ds port phydev s = (0, s') /\
    reg s' (GSWIP_BM_PCFGp port) = GSWIP_BM_PCFG_CNTEN /\
    (forall q, 0 <= q < 32 ->
       Z.testbit (reg s' (GSWIP_FDMA_PCTRLp port)) q =
         Z.testbit (reg s (GSWIP_FDMA_PCTRLp port)) q
         || (q =? 0) || (q =? 3) || (q =? 4)) /\
    (forall q, 0 <= q < 32 ->
       Z.testbit (reg s' (GSWIP_SDMA_PCTRLp port)) q =
         Z.testbit (reg s (GSWIP_SDMA_PCTRLp port)) q || (q =? 0)) /\
    (dsa_is_cpu_port ds port = true ->
       hw_bank (dev s') = hw_bank (dev s) /\ hw_mdio (dev s') = hw_mdio (dev s)) /\
    (dsa_is_cpu_port ds port = false ->
       forall q, 0 <= q < 32 ->
         Z.testbit (mdio_reg s' (GSWIP_MDIO_PHYp port)) q =
           if q <? 5 then Z.testbit (phydev_addr phydev) q
           else Z.testbit (mdio_reg s (GSWIP_MDIO_PHYp port)) q) /\
    vlans s' = vlans s.
Proof.
  intros Hty Hp Hport Hkind.
  assert (Hd1 : GSWIP_BM_PCFGp port <> GSWIP_FDMA_PCTRLp port)
    by (unfold GSWIP_BM_PCFGp, GSWIP_FDMA_PCTRLp; lia).
  assert (Hd2 : GSWIP_BM_PCFGp port <> GSWIP_SDMA_PCTRLp port)
    by (unfold GSWIP_BM_PCFGp, GSWIP_SDMA_PCTRLp; lia).
  assert (Hd3 : GSWIP_FDMA_PCTRLp port <> GSWIP_SDMA_PCTRLp port)
    by (unfold GSWIP_FDMA_PCTRLp, GSWIP_SDMA_PCTRLp; lia).
  assert (Hfd : forall x q, 0 <= q < 32 ->
            Z.testbit (u32 (Z.lor (Z.land x (Z.lnot 0))
                              (Z.lor GSWIP_FDMA_PCTRL_EN GSWIP_FDMA_PCTRL_VLANMOD_BOTH))) q
            = Z.testbit x q || (q =? 0) || (q =? 3) || (q =? 4)).
  { intros x q Hq. rewrite mask_bits by exact Hq.
    rewrite Z.bits_0, andb_true_r.
    change (Z.lor GSWIP_FDMA_PCTRL_EN GSWIP_FDMA_PCTRL_VLANMOD_BOTH)
      with (Z.lor (BIT 0) (Z.lor (BIT 3) (BIT 4))).
    rewrite !Z.lor_spec, !testbit_BIT by lia.
    rewrite (Z.eqb_sym 0 q), (Z.eqb_sym 3 q), (Z.eqb_sym 4 q).
    rewrite !orb_assoc. reflexivity. }
  assert (Hsd : forall x q, 0 <= q < 32 ->
            Z.testbit (u32 (Z.lor (Z.land x (Z.lnot 0)) GSWIP_SDMA_PCTRL_EN)) q
            = Z.testbit x q || (q =? 0)).
  { intros x q Hq. rewrite mask_bits by exact Hq.
    rewrite Z.bits_0, andb_true_r. change GSWIP_SDMA_PCTRL_EN with (BIT 0).
    rewrite testbit_BIT by lia. rewrite (Z.eqb_sym 0 q). reflexivity. }
  unfold gswip_port_enable.
  destruct (dsa_is_cpu_port ds port) eqn:Hcpu.
  - (* the CPU port *)
    rewrite andb_false_r. change (negb true) with false. cbv iota.
    unfold bind at 1. unfold ret at 1. change (negb (0 =? 0)) with false. cbv iota.
    rewrite !bind_unit_snd. rewrite switch_w_eq, !switch_mask_eq.
    unfold ret. cbn [snd]. eexists. split; [reflexivity|].
    split; [|split; [|split; [|split; [|split]]]].
    + rewrite !reg_written_other by ne. rewrite reg_written_same. reflexivity.
    + intros q Hq. rewrite reg_written_other by ne. rewrite reg_written_same.
      rewrite reg_written_other by ne. apply Hfd. exact Hq.
    + intros q Hq. rewrite reg_written_same. rewrite !reg_written_other by ne.
      apply Hsd. exact Hq.
    + intros _. split; reflexivity.
    + intros H. discriminate H.
    + reflexivity.
  - (* a user port *)
    destruct Hkind as [Huser|Hc]; [|discriminate Hc]. rewrite Huser.
    change (negb true && negb false) with false. change (negb false) with true.
    cbv iota.
    pose proof (add_single_port_br_ok port true s Hty Hp Hport) as Hon.
    cbv zeta in Hon. unfold bind at 1.
    destruct (gswip_add_single_port_br port true s) as [e s1].
    cbn [fst snd] in Hon. destruct Hon as (-> & _ & Hr & Hm & Hv & _ & _).
    change (negb (0 =? 0)) with false. cbv iota.
    rewrite !bind_unit_snd. rewrite switch_w_eq, !switch_mask_eq, mdio_mask_eq.
    cbn [snd]. unfold ret. eexists. split; [reflexivity|].
    assert (Hreg : forall o, reg s1 o = reg s o)
      by (intros o; unfold reg; rewrite Hr; reflexivity).
    assert (Hmd : forall o, mdio_reg s1 o = mdio_reg s o)
      by (intros o; unfold mdio_reg; rewrite Hm; reflexivity).
    split; [|split; [|split; [|split; [|split]]]].
    + rewrite reg_mdio_written. rewrite !reg_written_other by ne.
      rewrite reg_written_same. reflexivity.
    + intros q Hq. rewrite reg_mdio_written. rewrite reg_written_other by ne.
      rewrite reg_written_same. rewrite reg_written_other by ne.
      rewrite Hreg. apply Hfd. exact Hq.
    + intros q Hq. rewrite reg_mdio_written. rewrite reg_written_same.
      rewrite !reg_written_other by ne. rewrite Hreg. apply Hsd. exact Hq.
    + intros H. discriminate H.
    + intros _ q Hq. rewrite mdio_written_same. rewrite !mdio_reg_written, Hmd.
      rewrite mask_bits by exact Hq.
      change GSWIP_MDIO_PHY_ADDR_MASK with (Z.ones 5).
      assert (Ha : Z.testbit
                (match phydev with
                 | Some addr => Z.land addr (Z.ones 5)
                 | None => 0
                 end) q = Z.testbit (phydev_addr phydev) q && (q <? 5)).
      { destruct phydev as [a|]; simpl.
        - rewrite Z.land_spec. destruct (Z.ltb_spec q 5).
          + rewrite Z.ones_spec_low by lia. reflexivity.
          + rewrite Z.ones_spec_high by lia. reflexivity.
        - rewrite Z.bits_0. reflexivity. }
      rewrite Ha. destruct (Z.ltb_spec q 5).
      * rewrite Z.ones_spec_low by lia. simpl. rewrite andb_false_r, andb_true_r.
        reflexivity.
      * rewrite Z.ones_spec_high by lia. simpl. rewrite andb_true_r, andb_false_r.
        apply orb_false_r.
    + exact Hv.
Qed.

(** ** STP state *)

(** X3. gswip_port_stp_state_set, for a port below 16.  A blocking,
    listening, learning or forwarding state sets the enable bit of the
    port's store-DMA control register and writes the state's code
    (listen 0 for blocking and listening, learning 3, forwarding 7) to
    the three low bits of PCE_PCTRL_0, keeping the other bits of both.
    The disabled state clears the store-DMA enable bit and leaves
    PCE_PCTRL_0 as it is.  Any other state value only logs.  No case
    writes another register, a table row or priv->vlans. *)
Theorem stp_state_set_effect ds port state s :
  0 <= port < 16 ->
  let s' := snd (gswip_port_stp_state_set ds port state s) in
  (forall code, stp_pstate state = Some code ->
     forall q, 0 <= q < 32 ->
       Z.testbit (reg s' (GSWIP_SDMA_PCTRLp port)) q =
         Z.testbit (reg s (GSWIP_SDMA_PCTRLp port)) q || (q =? 0) /\
       Z.testbit (reg s' (GSWIP_PCE_PCTRL_0p port)) q =
         if q <? 3 then Z.testbit code q
         else Z.testbit (reg s (GSWIP_PCE_PCTRL_0p port)) q) /\
  (state = BR_STATE_DISABLED ->
     (forall q, 0 <= q < 32 ->
        Z.testbit (reg s' (GSWIP_SDMA_PCTRLp port)) q =
          Z.testbit (reg s (GSWIP_SDMA_PCTRLp port)) q && negb (q =? 0)) /\
     reg s' (GSWIP_PCE_PCTRL_0p port) = reg s (GSWIP_PCE_PCTRL_0p port)) /\
  (state = BR_STATE_OTHER ->
     dev s' = dev s /\ klog s' = klog s ++ ["invalid STP state: %d"%string]) /\
  (forall o, o <> GSWIP_SDMA_PCTRLp port -> o <> GSWIP_PCE_PCTRL_0p port ->
     reg s' o = reg s o) /\
  hw_bank (dev s') = hw_bank (dev s) /\ hw_mdio (dev s') = hw_mdio (dev s) /\
  vlans s' = vlans s /\ port_vlan_filter s' = port_vlan_filter s.
Proof.
  intros Hport. cbv zeta.
  assert (Hne : GSWIP_SDMA_PCTRLp port <> GSWIP_PCE_PCTRL_0p port)
    by (unfold GSWIP_SDMA_PCTRLp, GSWIP_PCE_PCTRL_0p; lia).
  assert (Hcommit : forall code, 0 <= code < 8 ->
    let s' := snd (stp_state_commit port code s) in
    (forall q, 0 <= q < 32 ->
       Z.testbit (reg s' (GSWIP_SDMA_PCTRLp port)) q =
         Z.testbit (reg s (GSWIP_SDMA_PCTRLp port)) q || (q =? 0) /\
       Z.testbit (reg s' (GSWIP_PCE_PCTRL_0p port)) q =
         if q <? 3 then Z.testbit code q
         else Z.testbit (reg s (GSWIP_PCE_PCTRL_0p port)) q) /\
    (forall o, o <> GSWIP_SDMA_PCTRLp port -> o <> GSWIP_PCE_PCTRL_0p port ->
       reg s' o = reg s o) /\
    hw_bank (dev s') = hw_bank (dev s) /\ hw_mdio (dev s') = hw_mdio (dev s) /\
    vlans s' = vlans s /\ port_vlan_filter s' = port_vlan_filter s).
  { intros code Hcode. cbv zeta. unfold stp_state_commit.
    rewrite bind_unit_snd, !switch_mask_eq. cbn [snd].
    split; [|split; [|repeat split]].
    - intros q Hq. split.
      + rewrite reg_written_other by ne. rewrite reg_written_same.
        rewrite mask_bits by exact Hq. rewrite Z.bits_0, andb_true_r.
        change GSWIP_SDMA_PCTRL_EN with (BIT 0). rewrite testbit_BIT by lia.
        rewrite (Z.eqb_sym 0 q). reflexivity.
      + rewrite reg_written_same. rewrite reg_written_other by ne.
        rewrite mask_bits by exact Hq.
        change GSWIP_PCE_PCTRL_0_PSTATE_MASK with (Z.ones 3).
        destruct (Z.ltb_spec q 3).
        * rewrite Z.ones_spec_low by lia. simpl. rewrite andb_false_r. reflexivity.
        * rewrite Z.ones_spec_high by lia. simpl. rewrite andb_true_r.
          replace (Z.testbit code q) with false; [apply orb_false_r|].
          symmetry. apply Z.bits_above_log2; [lia|].
          destruct (Z.eq_dec code 0) as [->|]; [simpl; lia|].
          apply Z.log2_lt_pow2; [lia|].
          apply Z.lt_le_trans with (2 ^ 3); [simpl; lia|].
          apply Z.pow_le_mono_r; lia.
    - intros o H1 H2. rewrite !reg_written_other by ne. reflexivity. }
  destruct state; cbn [gswip_port_stp_state_set stp_pstate].
  - (* disabled *)
    rewrite switch_mask_eq. cbn [snd].
    split; [intros code H; discriminate H|].
    split; [|split; [intros H; discriminate H|]].
    + intros _. split.
      * intros q Hq. rewrite reg_written_same. rewrite mask_bits by exact Hq.
        change GSWIP_SDMA_PCTRL_EN with (BIT 0). rewrite testbit_BIT by lia.
        rewrite Z.bits_0, orb_false_r, (Z.eqb_sym 0 q). reflexivity.
      * apply reg_written_other. exact Hne.
    + split; [|repeat split].
      intros o H1 H2. apply reg_written_other. ne.
  - destruct (Hcommit 0 ltac:(lia)) as (Hb & Ho & Hrest).
    split; [intros code [= <-]; exact Hb|].
    split; [intros H; discriminate H|].
    split; [intros H; discriminate H|].
    split; [exact Ho|exact Hrest].
  - destruct (Hcommit 0 ltac:(lia)) as (Hb & Ho & Hrest).
    split; [intros code [= <-]; exact Hb|].
    split; [intros H; discriminate H|].
    split; [intros H; discriminate H|].
    split; [exact Ho|exact Hrest].
  - destruct (Hcommit 3 ltac:(lia)) as (Hb & Ho & Hrest).
    split; [intros code [= <-]; exact Hb|].
    split; [intros H; discriminate H|].
    split; [intros H; discriminate H|].
    split; [exact Ho|exact Hrest].
  - destruct (Hcommit 7 ltac:(lia)) as (Hb & Ho & Hrest).
    split; [intros code [= <-]; exact Hb|].
    split; [intros H; discriminate H|].
    split; [intros H; discriminate H|].
    split; [exact Ho|exact Hrest].
  - (* any other value *)
    split; [intros code H; discriminate H|].
    split; [intros H; discriminate H|].
    repeat split.
Qed.

(** ** Table transport *)



(** X5. A busy table engine.  A table read leaves every table row as it
    was, and when it fails the caller's entry comes back as it was passed.
    A table write whose first poll fails returns that poll's error and has
    written no row. *)
Theorem pce_table_busy_leaves_table :
  (forall tbl s,
     hw_bank (dev (snd (gswip_pce_table_entry_read tbl s))) = hw_bank (dev s) /\
     (fst (fst (gswip_pce_table_entry_read tbl s)) <> 0 ->
      snd (fst (gswip_pce_table_entry_read tbl s)) = tbl)) /\
  (forall tbl s e l,
     hw_polls (dev s) = e :: l -> e <> 0 ->
     fst (gswip_pce_table_entry_write tbl s) = e /\
     hw_bank (dev (snd (gswip_pce_table_entry_write tbl s))) = hw_bank (dev s) /\
     hw_polls (dev (snd (gswip_pce_table_entry_write tbl s))) = l).
Proof.
  split.
  - intros tbl s. split; [apply read_frame|].
    unfold gswip_pce_table_entry_read, bind, ret, get, gswip_switch_r_timeout.
    cbv beta iota zeta.
    destruct (hd 0 (hw_polls (dev s)) =? 0) eqn:E1; cbn [negb fst snd];
      [|reflexivity].
    cbn [dev set_dev hw_polls].
    destruct (hd 0 (tl (hw_polls (dev s))) =? 0) eqn:E2; cbn [negb fst snd];
      [|reflexivity].
    intros H. exfalso. apply H. reflexivity.
  - intros tbl s e l Hl He.
    unfold gswip_pce_table_entry_write, bind, ret, gswip_switch_r_timeout.
    cbv beta iota zeta. rewrite Hl. cbn [hd tl].
    apply Z.eqb_neq in He. rewrite He. cbn [negb fst snd dev set_dev hw_bank hw_polls].
    repeat split.
Qed.

(** ** What a computation leaves alone *)

Lemma keeps_ret {T A} (f : gswip_priv -> T) (a : A) : keeps f (ret a).
Proof. intros s. reflexivity. Qed.

Lemma keeps_get {T} (f : gswip_priv -> T) : keeps f get.
Proof. intros s. reflexivity. Qed.

Lemma keeps_bind {T A B} (f : gswip_priv -> T) (m : M A) (k : A -> M B) :
  keeps f m -> (forall a, keeps f (k a)) -> keeps f (bind m k).
Proof.
  intros Hm Hk s. unfold bind. specialize (Hm s).
  destruct (m s) as [a s1]. cbn [snd] in Hm. rewrite (Hk a s1). exact Hm.
Qed.

Ltac keeps_step :=
  match goal with
  | |- keeps _ (bind _ _) => apply keeps_bind; [|intros ?]
  | |- keeps _ (ret _) => apply keeps_ret
  | |- keeps _ get => apply keeps_get
  | |- keeps _ (if ?b then _ else _) => destruct b
  | |- keeps _ (match ?x with _ => _ end) => destruct x
  | |- keeps _ _ => solve [eauto]
  end.

Ltac keeps_tac := cbv zeta; repeat (keeps_step; cbv zeta).

Section Keeps.
Context {T : Type} (f : gswip_priv -> T).
Hypothesis Hpoll : keeps f gswip_switch_r_timeout.
Hypothesis Hcommit : forall tbl, keeps f (pce_commit tbl).
Hypothesis Hlog : forall msg, keeps f (dev_err msg).
Hypothesis Hw : forall v o, keeps f (gswip_switch_w v o).
Hypothesis Hbind : forall i b v fid, keeps f (bind_slot i b v fid).
Hypothesis Hclear : forall i, keeps f (clear_slot i).

Lemma keeps_table_read tbl : keeps f (gswip_pce_table_entry_read tbl).
Proof. unfold gswip_pce_table_entry_read. keeps_tac. Qed.

Lemma keeps_table_write tbl : keeps f (gswip_pce_table_entry_write tbl).
Proof. unfold gswip_pce_table_entry_write. keeps_tac. Qed.

Lemma keeps_add_single_port_br port add : keeps f (gswip_add_single_port_br port add).
Proof.
  pose proof keeps_table_write.
  unfold gswip_add_single_port_br. keeps_tac.
Qed.

Lemma keeps_active_create bridge fid vid :
  keeps f (gswip_vlan_active_create bridge fid vid).
Proof.
  pose proof keeps_table_write.
  unfold gswip_vlan_active_create. keeps_tac.
Qed.

Lemma keeps_active_remove idx : keeps f (gswip_vlan_active_remove idx).
Proof.
  pose proof keeps_table_write.
  unfold gswip_vlan_active_remove. keeps_tac.
Qed.

Lemma keeps_add_unaware bridge port : keeps f (gswip_vlan_add_unaware bridge port).
Proof.
  pose proof keeps_table_write. pose proof keeps_table_read.
  pose proof keeps_active_create. pose proof keeps_active_remove.
  unfold gswip_vlan_add_unaware. keeps_tac.
Qed.

Lemma keeps_aware_scan bridge vid n : forall i fid, keeps f (aware_scan bridge vid n i fid).
Proof.
  induction n as [|n IH]; intros i fid; cbn [aware_scan]; keeps_tac.
Qed.

Lemma keeps_add_aware bridge port vid untagged pvid :
  keeps f (gswip_vlan_add_aware bridge port vid untagged pvid).
Proof.
  pose proof keeps_table_write. pose proof keeps_table_read.
  pose proof keeps_active_create. pose proof keeps_active_remove.
  pose proof keeps_aware_scan.
  unfold gswip_vlan_add_aware. keeps_tac.
Qed.

Lemma keeps_vlan_remove bridge port vid pvid vlan_aware :
  keeps f (gswip_vlan_remove bridge port vid pvid vlan_aware).
Proof.
  pose proof keeps_table_write. pose proof keeps_table_read.
  pose proof keeps_active_remove.
  unfold gswip_vlan_remove. keeps_tac.
Qed.


Lemma keeps_port_fdb ds port addr vid add : keeps f (gswip_port_fdb ds port addr vid add).
Proof.
  pose proof keeps_table_write.
  unfold gswip_port_fdb. keeps_tac.
Qed.


Lemma keeps_port_vlan_prepare ds port vlan : keeps f (gswip_port_vlan_prepare ds port vlan).
Proof. unfold gswip_port_vlan_prepare. keeps_tac. Qed.

Lemma keeps_port_vlan_add ds port vlan : keeps f (gswip_port_vlan_add ds port vlan).
Proof.
  pose proof keeps_port_vlan_prepare. pose proof keeps_add_aware.
  unfold gswip_port_vlan_add. keeps_tac.
Qed.

Lemma keeps_port_vlan_del ds port vlan : keeps f (gswip_port_vlan_del ds port vlan).
Proof.
  pose proof keeps_vlan_remove.
  unfold gswip_port_vlan_del. keeps_tac.
Qed.

Lemma keeps_bridge_leave ds port bridge : keeps f (gswip_port_bridge_leave ds port bridge).
Proof.
  pose proof keeps_add_single_port_br. pose proof keeps_vlan_remove.
  unfold gswip_port_bridge_leave. keeps_tac.
Qed.

End Keeps.

Lemma aside_poll : keeps aside gswip_switch_r_timeout.
Proof. intros s. reflexivity. Qed.
Lemma aside_commit tbl : keeps aside (pce_commit tbl).
Proof. intros s. reflexivity. Qed.
Lemma aside_log msg : keeps aside (dev_err msg).
Proof. intros s. reflexivity. Qed.
Lemma aside_w v o : keeps aside (gswip_switch_w v o).
Proof. intros s. reflexivity. Qed.
Lemma aside_bind i b v fid : keeps aside (bind_slot i b v fid).
Proof. intros s. reflexivity. Qed.
Lemma aside_clear i : keeps aside (clear_slot i).
Proof. intros s. reflexivity. Qed.

Lemma fdb_aside_poll : keeps fdb_aside gswip_switch_r_timeout.
Proof. intros s. reflexivity. Qed.
Lemma fdb_aside_commit tbl : keeps fdb_aside (pce_commit tbl).
Proof. intros s. reflexivity. Qed.
Lemma fdb_aside_log msg : keeps fdb_aside (dev_err msg).
Proof. intros s. reflexivity. Qed.


Lemma aside_eq s s' :
  aside s' = aside s ->
  port_vlan_filter s' = port_vlan_filter s /\ hw_mdio (dev s') = hw_mdio (dev s) /\
  hw_info s' = hw_info s /\ hw_ks (dev s') = hw_ks (dev s).
Proof. unfold aside. intros [= -> -> -> ->]. repeat split. Qed.

Lemma fdb_aside_eq s s' :
  fdb_aside s' = fdb_aside s ->
  vlans s' = vlans s /\ hw_regs (dev s') = hw_regs (dev s) /\
  port_vlan_filter s' = port_vlan_filter s /\ hw_mdio (dev s') = hw_mdio (dev s) /\
  hw_info s' = hw_info s /\ hw_ks (dev s') = hw_ks (dev s).
Proof.
  unfold fdb_aside, aside. intros [= -> -> -> -> -> ->]. repeat split.
Qed.

(** ** What the translator and the forwarding-table functions never write *)

(** X6. Whatever the polls yield, the VLAN translator (the unaware and the
    aware VLAN add, the VLAN remove, and the port_vlan_add and
    port_vlan_del callbacks over them) writes neither priv->port_vlan_filter
    nor a register of the MDIO window, and leaves hw_info as it is. *)
Theorem translator_leaves_filter_and_mdio s :
  (forall bridge port,
     aside (snd (gswip_vlan_add_unaware bridge port s)) = aside s) /\
  (forall bridge port vid untagged pvid,
     aside (snd (gswip_vlan_add_aware bridge port vid untagged pvid s)) = aside s) /\
  (forall bridge port vid pvid vlan_aware,
     aside (snd (gswip_vlan_remove bridge port vid pvid vlan_aware s)) = aside s) /\
  (forall ds port vlan, aside (snd (gswip_port_vlan_add ds port vlan s)) = aside s) /\
  (forall ds port vlan, aside (snd (gswip_port_vlan_del ds port vlan s)) = aside s).
Proof.
  split; [|split; [|split; [|split]]]; intros.
  - apply (keeps_add_unaware aside aside_poll aside_commit aside_log aside_w aside_bind
             aside_clear).
  - apply (keeps_add_aware aside aside_poll aside_commit aside_log aside_w aside_bind
             aside_clear).
  - apply (keeps_vlan_remove aside aside_poll aside_commit aside_log aside_w aside_clear).
  - apply (keeps_port_vlan_add aside aside_poll aside_commit aside_log aside_w aside_bind
             aside_clear).
  - apply (keeps_port_vlan_del aside aside_poll aside_commit aside_log aside_w aside_clear).
Qed.


(** ** port_vlan_prepare, port_vlan_add and port_vlan_del *)

(** X8. gswip_port_vlan_prepare never changes the state.  On a port that is
    neither the CPU port nor in a bridge it returns -EOPNOTSUPP; otherwise
    it returns 0 when the pool range holds a slot of (bridge, vid) or a
    free slot, and -ENOSPC when it holds neither.  On the CPU port
    gswip_port_vlan_add does no more than that, and gswip_port_vlan_del
    returns 0 with the state untouched. *)
Theorem port_vlan_gatekeeping ds port vlan s :
  let bridge := bridge_dev ds port in
  let test := fun v => (vlan_bridge v =? bridge) && (vlan_vid v =? obj_vid vlan) in
  (dsa_is_cpu_port ds port = false -> bridge = NULL ->
   gswip_port_vlan_prepare ds port vlan s = (- EOPNOTSUPP, s) /\
   gswip_port_vlan_add ds port vlan s = (- EOPNOTSUPP, s)) /\
  (dsa_is_cpu_port ds port = true \/ bridge <> NULL ->
   gswip_port_vlan_prepare ds port vlan s =
     (if pool_target test s =? -1 then - ENOSPC else 0, s)) /\
  (dsa_is_cpu_port ds port = true \/ bridge <> NULL ->
   pool_target test s = -1 ->
   gswip_port_vlan_add ds port vlan s = (- ENOSPC, s)) /\
  (dsa_is_cpu_port ds port = true ->
   gswip_port_vlan_add ds port vlan s = gswip_port_vlan_prepare ds port vlan s /\
   gswip_port_vlan_del ds port vlan s = (0, s)).
Proof.
  cbv zeta.
  assert (Hprep : dsa_is_cpu_port ds port = true \/ bridge_dev ds port <> NULL ->
    gswip_port_vlan_prepare ds port vlan s =
      (if pool_target
            (fun v => (vlan_bridge v =? bridge_dev ds port) &&
                      (vlan_vid v =? obj_vid vlan)) s =? -1
       then - ENOSPC else 0, s)).
  { intros H. unfold gswip_port_vlan_prepare, pool_target. cbv zeta.
    unfold bind, get, ret. cbv beta iota.
    assert (E : negb (dsa_is_cpu_port ds port) && (bridge_dev ds port =? NULL) = false).
    { destruct H as [->|H]; [reflexivity|].
      apply Z.eqb_neq in H. rewrite H. apply andb_false_r. }
    rewrite E.
    destruct (find_slot _ s =? -1) eqn:E1.
    - destruct (find_slot slot_free s =? -1); reflexivity.
    - rewrite E1. reflexivity. }
  split; [|split; [|split]].
  - intros Hc Hb. unfold gswip_port_vlan_add, gswip_port_vlan_prepare. cbv zeta.
    unfold bind, get, ret. cbv beta iota. rewrite Hc, Hb. split; reflexivity.
  - exact Hprep.
  - intros H Ht. unfold gswip_port_vlan_add. cbv zeta. unfold bind at 1.
    rewrite (Hprep H), Ht. reflexivity.
  - intros Hc. split.
    + unfold gswip_port_vlan_add. cbv zeta. unfold bind at 1.
      rewrite (Hprep (or_introl Hc)). rewrite Hc.
      destruct (pool_target _ s =? -1); reflexivity.
    + unfold gswip_port_vlan_del. rewrite Hc. reflexivity.
Qed.

(** ** VLAN remove: the missing slot and the default VLAN id *)


(** ** Bridge join and leave *)

Lemma unaware_mapping_bits e c p q :
  length (tbl_val e) = 5%nat -> 0 <= c -> 0 <= p -> 0 <= q < 16 ->
  Z.testbit (word_at (tbl_val (unaware_mapping e c p)) 1) q =
    Z.testbit (word_at (tbl_val e) 1) q || (q =? c) || (q =? p).
Proof.
  intros Hl Hc Hp Hq. unfold unaware_mapping. cbv zeta.
  assert (Hq16 : (q <? 16) = true) by lia.
  rewrite !word_at_with_val_same by (rewrite ?length_with_val; lia).
  rewrite u16_testbit, Z.lor_spec, u16_testbit, Z.lor_spec, !testbit_BIT by lia.
  rewrite Hq16, !andb_true_r, (Z.eqb_sym c q), (Z.eqb_sym p q). reflexivity.
Qed.

Lemma pool_target_in_pool test s :
  0 <= max_ports (hw_info s) -> pool_target test s <> -1 -> in_pool s (pool_target test s).
Proof.
  intros HN Ht. destruct (pool_target_spec test s HN) as [[E _]|[(H & _)|(H & _)]];
    cbv zeta in *; [congruence|exact H|exact H].
Qed.

(* The unaware VLAN add when it succeeds, on a found slot or on a new one. *)
Lemma add_unaware_ok bridge port s :
  priv_typed s -> polls_ok s ->
  let test := fun v => vlan_bridge v =? bridge in
  let t := pool_target test s in
  t <> -1 ->
  let found := negb (find_slot test s =? -1) in
  let old := if found then read_view s GSWIP_TABLE_VLAN_MAPPING t
             else with_val 0 0 (mapping_entry0 t) in
  exists s',
    gswip_vlan_add_unaware bridge port s = (0, s') /\
    in_pool s t /\
    hw_bank (dev s') =
      <[(GSWIP_TABLE_VLAN_MAPPING, t)
        := row_of_entry (unaware_mapping old (cpu_port (hw_info s)) port)]>
        (if found then hw_bank (dev s)
         else <[(GSWIP_TABLE_ACTIVE_VLAN, t) := row_of_entry (active_vlan_entry t 0 t)]>
                (hw_bank (dev s))) /\
    hw_regs (dev s') = <[GSWIP_PCE_DEFPVID port := 0]> (hw_regs (dev s)) /\
    vlans s' = (if found then vlans s
                else <[Z.to_nat t := mk_vlan bridge 0 t]> (vlans s)) /\
    polls_ok s' /\ priv_typed s' /\ aside s' = aside s.
Proof.
  intros Hty Hp test t Ht found old.
  pose proof Hty as (Hlen & Hall & [HN HN'] & Hcpu).
  pose proof (pool_target_in_pool test s HN Ht) as Hin. fold t in Hin.
  assert (Hr : 0 <= t < 65536) by (unfold in_pool, VLANS_SIZE in Hin; lia).
  assert (Has : aside (snd (gswip_vlan_add_unaware bridge port s)) = aside s).
  { apply (keeps_add_unaware aside aside_poll aside_commit aside_log aside_w aside_bind
             aside_clear). }
  subst found old. unfold t, pool_target in *. cbv zeta in *.
  destruct (Z.eqb_spec (find_slot test s) (-1)) as [Hnone|Hsome]; cbn [negb].
  - destruct (add_unaware_new_ok bridge port s _ Hp Hr Hnone eq_refl)
      as (s' & E & Hb & Hregs & Hv & Hi & Hp').
    rewrite E in Has. cbn [snd] in Has.
    assert (Hv' : vlans s' =
              <[Z.to_nat (find_slot slot_free s) := mk_vlan bridge 0 (find_slot slot_free s)]>
                (vlans s)).
    { rewrite Hv. rewrite (u8_id (find_slot slot_free s)) by (unfold in_pool, VLANS_SIZE in Hin; lia).
      reflexivity. }
    exists s'. split; [exact E|]. split; [exact Hin|]. split; [exact Hb|].
    split; [exact Hregs|]. split; [exact Hv'|]. split; [exact Hp'|].
    split; [|exact Has].
    apply (priv_typed_insert s s' _ _ Hty) with (2 := Hv') (3 := Hi).
    split; cbn [vlan_vid vlan_fid]; unfold in_pool, VLANS_SIZE in Hin; lia.
  - destruct (add_unaware_existing_ok bridge port s _ Hp Hr eq_refl Hsome)
      as (s' & E & Hb & Hregs & Hv & Hi & Hp').
    rewrite E in Has. cbn [snd] in Has.
    exists s'. split; [exact E|]. split; [exact Hin|]. split; [exact Hb|].
    split; [exact Hregs|]. split; [exact Hv|]. split; [exact Hp'|].
    split; [|exact Has].
    destruct Hty as (H1 & H2 & H3 & H4). unfold priv_typed. rewrite Hv, Hi. auto.
Qed.

Lemma filter_bit_test s p : 0 <= p -> port_filter_bit s p = Z.testbit (port_vlan_filter s) p.
Proof. intros Hp. unfold port_filter_bit. apply port_bit_test. exact Hp. Qed.

Lemma u32_testbit x q : 0 <= q -> Z.testbit (u32 x) q = Z.testbit x q && (q <? 32).
Proof.
  intros Hq. unfold u32. change 4294967295 with (Z.ones 32).
  rewrite Z.land_spec. destruct (Z.ltb_spec q 32).
  - rewrite Z.ones_spec_low by lia. reflexivity.
  - rewrite Z.ones_spec_high by lia. reflexivity.
Qed.

Lemma bank_row_lookup h t i :
  bank_row h t i = default row0 (hw_bank h !! (t, i)).
Proof. reflexivity. Qed.

(** X10. Joining a VLAN-unaware bridge.  For a port whose single-port
    bridge lies below the pool range (port + 1 < max_ports), with a slot
    of the bridge or a free slot in the pool and no poll timing out,
    gswip_port_bridge_join returns 0 and: the slot found or created is
    bound to the bridge and no other slot changes; the port and the CPU
    port are members of the slot's port map, beside the members it had;
    the Active-VLAN row of the port's single-port bridge is written
    invalid; the port's bit of priv->port_vlan_filter is cleared and no
    other bit changes; and the port's default-VLAN-id register is 0. *)
Theorem bridge_join_unaware ds port bridge s :
  priv_typed s -> bank_typed s -> polls_ok s ->
  0 <= port -> port + 1 < max_ports (hw_info s) ->
  bridge <> NULL -> br_vlan_enabled ds bridge = false ->
  let test := fun v => vlan_bridge v =? bridge in
  let t := pool_target test s in
  t <> -1 ->
  exists s',
    gswip_port_bridge_join ds port bridge s = (0, s') /\
    vlan_bridge (vlans_at (vlans s') t) = bridge /\
    (forall j, 0 <= j -> j <> t -> vlans_at (vlans s') j = vlans_at (vlans s) j) /\
    (forall q, 0 <= q < 16 ->
       Z.testbit (word_at (row_val (bank_row (dev s') GSWIP_TABLE_VLAN_MAPPING t)) 1) q =
         (if find_slot test s =? -1 then false
          else Z.testbit
                 (word_at (tbl_val (read_view s GSWIP_TABLE_VLAN_MAPPING t)) 1) q)
         || (q =? cpu_port (hw_info s)) || (q =? port)) /\
    bank_row (dev s') GSWIP_TABLE_ACTIVE_VLAN (port + 1) =
      single_port_active_row port false /\
    (forall q, 0 <= q < 32 ->
       port_filter_bit s' q = port_filter_bit s q && negb (q =? port)) /\
    reg s' (GSWIP_PCE_DEFPVID port) = 0.
Proof.
  intros Hty Hbank Hp Hport Hport' Hbr Hen test t Ht.
  pose proof Hty as (Hlen & Hall & [HN HN'] & Hcpu).
  destruct (add_unaware_ok bridge port s Hty Hp Ht)
    as (s1 & E1 & Hin & Hb1 & Hr1 & Hv1 & Hp1 & Hty1 & Has1).
  fold test in Hb1, Hv1. fold t in Hb1, Hv1, Hin.
  apply aside_eq in Has1. destruct Has1 as (Hf1 & Hm1 & Hi1 & Hk1).
  set (s2 := set_port_vlan_filter
               (u32 (Z.land (port_vlan_filter s1) (Z.lnot (BIT port)))) s1).
  assert (Hty2 : priv_typed s2) by exact Hty1.
  assert (Hp2 : polls_ok s2) by exact Hp1.
  assert (Hport2 : 0 <= port < max_ports (hw_info s2))
    by (change (hw_info s2) with (hw_info s1); rewrite Hi1; lia).
  pose proof (add_single_port_br_ok port false s2 Hty2 Hp2 Hport2) as Hoff.
  pose proof (keeps_add_single_port_br aside aside_poll aside_commit aside_log
                port false s2) as Has3.
  cbv zeta in Hoff.
  unfold gswip_port_bridge_join. rewrite Hen. change (negb false) with true. cbv iota.
  unfold bind at 1. unfold bind at 1. rewrite E1.
  change (negb (0 =? 0)) with false. cbv iota.
  unfold bind at 1. unfold modify at 1. unfold ret at 1.
  change (negb (0 =? 0)) with false. cbv iota. fold s2.
  destruct (gswip_add_single_port_br port false s2) as [e s3].
  cbn [fst snd] in Hoff, Has3.
  destruct Hoff as (-> & Hb3 & Hr3 & _ & Hv3 & _ & _).
  apply aside_eq in Has3. destruct Has3 as (Hf3 & _).
  exists s3. split; [reflexivity|].
  assert (Hnat : 0 <= t /\ (Z.to_nat t < length (vlans s))%nat)
    by (apply (in_pool_nat s t Hty Hin)).
  destruct Hnat as [Ht0 Htlt].
  split; [|split; [|split; [|split; [|split]]]].
  - rewrite Hv3. change (vlans s2) with (vlans s1). rewrite Hv1.
    destruct (Z.eqb_spec (find_slot test s) (-1)) as [Hnone|Hsome]; cbn [negb].
    + rewrite vlans_at_insert_same by assumption. reflexivity.
    + destruct (find_slot_in_pool test s HN Hsome) as [_ Hm].
      unfold t, pool_target. cbv zeta.
      destruct (Z.eqb_spec (find_slot test s) (-1)); [contradiction|].
      apply Z.eqb_eq. exact Hm.
  - intros j Hj Hne. rewrite Hv3. change (vlans s2) with (vlans s1). rewrite Hv1.
    destruct (negb (find_slot test s =? -1)); [reflexivity|].
    apply vlans_at_insert_other; lia.
  - intros q Hq.
    match type of Hb1 with _ = <[_ := row_of_entry ?m]> _ =>
      assert (Hrow : bank_row (dev s3) GSWIP_TABLE_VLAN_MAPPING t = row_of_entry m)
    end.
    { rewrite bank_row_lookup, Hb3.
      rewrite lookup_insert_ne by (intros H; inversion H).
      change (hw_bank (dev s2)) with (hw_bank (dev s1)). rewrite Hb1.
      rewrite lookup_insert_eq. reflexivity. }
    rewrite Hrow.
    match goal with |- context [row_val (row_of_entry ?m)] =>
      change (row_val (row_of_entry m)) with (tbl_val m) end.
    destruct (Z.eqb_spec (find_slot test s) (-1)) as [Hnone|Hsome]; cbn [negb].
    + rewrite unaware_mapping_bits by (try reflexivity; lia).
      assert (H0 : word_at (tbl_val (with_val 0 0 (mapping_entry0 t))) 1 = 0)
        by reflexivity.
      rewrite H0, Z.bits_0. reflexivity.
    + rewrite unaware_mapping_bits
        by (try apply read_view_length; try assumption; lia).
      reflexivity.
  - rewrite bank_row_lookup, Hb3, lookup_insert_eq. reflexivity.
  - intros q Hq. rewrite !filter_bit_test by lia.
    rewrite Hf3. change (port_vlan_filter s2)
      with (u32 (Z.land (port_vlan_filter s1) (Z.lnot (BIT port)))).
    rewrite u32_testbit, Z.land_spec, Z.lnot_spec, testbit_BIT, Hf1 by lia.
    assert (E : (q <? 32) = true) by lia. rewrite E, andb_true_r.
    rewrite (Z.eqb_sym port q). reflexivity.
  - unfold reg. rewrite Hr3. change (hw_regs (dev s2)) with (hw_regs (dev s1)).
    rewrite Hr1, lookup_insert_eq. reflexivity.
Qed.


Lemma word_at_map_u16 l i : word_at (map u16 l) i = u16 (word_at l i).
Proof.
  unfold word_at. change (map u16 l) with (u16 <$> l). rewrite list_lookup_fmap.
  destruct (l !! i); reflexivity.
Qed.

Lemma bridge_join_unaware_new ds port bridge s t :
  priv_typed s -> polls_ok s -> 0 <= port < max_ports (hw_info s) ->
  br_vlan_enabled ds bridge = false ->
  find_slot (fun v => vlan_bridge v =? bridge) s = -1 ->
  find_slot slot_free s = t -> t <> -1 ->
  exists s1,
    gswip_port_bridge_join ds port bridge s = (0, s1) /\
    hw_bank (dev s1) =
      <[(GSWIP_TABLE_ACTIVE_VLAN, port + 1) := single_port_active_row port false]>
        (<[(GSWIP_TABLE_VLAN_MAPPING, t)
           := row_of_entry (unaware_mapping (with_val 0 0 (mapping_entry0 t))
                                            (cpu_port (hw_info s)) port)]>
           (<[(GSWIP_TABLE_ACTIVE_VLAN, t) := row_of_entry (active_vlan_entry t 0 t)]>
              (hw_bank (dev s)))) /\
    vlans s1 = <[Z.to_nat t := mk_vlan bridge 0 t]> (vlans s) /\
    reg s1 (GSWIP_PCE_DEFPVID port) = 0 /\
    hw_info s1 = hw_info s /\ polls_ok s1 /\ priv_typed s1.
Proof.
  intros Hty Hp Hport Hen Hnone Hfree Ht.
  assert (Hpt : pool_target (fun v => vlan_bridge v =? bridge) s = t)
    by (unfold pool_target; cbv zeta; rewrite Hnone; exact Hfree).
  destruct (add_unaware_ok bridge port s Hty Hp ltac:(rewrite Hpt; exact Ht))
    as (s1 & E1 & Hin & Hb1 & Hr1 & Hv1 & Hp1 & Hty1 & Has1).
  rewrite Hpt, Hnone in Hb1, Hv1. change (negb (-1 =? -1)) with false in Hb1, Hv1.
  cbv iota in Hb1, Hv1.
  apply aside_eq in Has1. destruct Has1 as (Hf1 & Hm1 & Hi1 & Hk1).
  set (s2 := set_port_vlan_filter
               (u32 (Z.land (port_vlan_filter s1) (Z.lnot (BIT port)))) s1).
  assert (Hport2 : 0 <= port < max_ports (hw_info s2))
    by (change (hw_info s2) with (hw_info s1); rewrite Hi1; lia).
  pose proof (add_single_port_br_ok port false s2 Hty1 Hp1 Hport2) as Hoff.
  cbv zeta in Hoff.
  unfold gswip_port_bridge_join. rewrite Hen. change (negb false) with true. cbv iota.
  unfold bind at 1. unfold bind at 1. rewrite E1.
  change (negb (0 =? 0)) with false. cbv iota.
  unfold bind at 1. unfold modify at 1. unfold ret at 1.
  change (negb (0 =? 0)) with false. cbv iota. fold s2.
  destruct (gswip_add_single_port_br port false s2) as [e s3].
  cbn [fst snd] in Hoff.
  destruct Hoff as (-> & Hb3 & Hr3 & _ & Hv3 & Hi3 & Hp3).
  exists s3. split; [reflexivity|].
  split; [rewrite Hb3; change (hw_bank (dev s2)) with (hw_bank (dev s1));
          rewrite Hb1; reflexivity|].
  split; [rewrite Hv3; exact Hv1|].
  split; [unfold reg; rewrite Hr3; change (hw_regs (dev s2)) with (hw_regs (dev s1));
          rewrite Hr1, lookup_insert_eq; reflexivity|].
  split; [rewrite Hi3; exact Hi1|]. split; [exact Hp3|].
  destruct Hty1 as (H1 & H2 & H3 & H4). unfold priv_typed.
  rewrite Hv3, Hi3. change (vlans s2) with (vlans s1). change (hw_info s2) with (hw_info s1).
  auto.
Qed.

(** X12. Join and leave compose.  On a VLAN-unaware bridge that has no slot
    yet, with a free slot t in the pool, a port other than the CPU port
    whose single-port bridge lies below the pool range, and no poll timing
    out: gswip_port_bridge_join followed by gswip_port_bridge_leave binds
    slot t and releases it again, so the pool's bound slots are those it
    had; the Active-VLAN row of t ends invalid and its port map holds the
    CPU port alone; the port's single-port bridge is active again with
    port map {port, CPU port}; the port's default VLAN id is 0. *)
Theorem bridge_join_leave_round_trip ds port bridge s :
  priv_typed s -> polls_ok s ->
  0 <= port -> port + 1 < max_ports (hw_info s) -> port <> cpu_port (hw_info s) ->
  bridge <> NULL -> br_vlan_enabled ds bridge = false ->
  find_slot (fun v => vlan_bridge v =? bridge) s = -1 ->
  let t := find_slot slot_free s in
  t <> -1 ->
  exists s1 s2,
    gswip_port_bridge_join ds port bridge s = (0, s1) /\
    slot_bound s1 t = true /\
    gswip_port_bridge_leave ds port bridge s1 = (tt, s2) /\
    pool_view s2 = pool_view s /\
    row_valid (bank_row (dev s2) GSWIP_TABLE_ACTIVE_VLAN t) = false /\
    (forall q, 0 <= q ->
       Z.testbit (word_at (row_val (bank_row (dev s2) GSWIP_TABLE_VLAN_MAPPING t)) 1) q
       = (q =? cpu_port (hw_info s))) /\
    bank_row (dev s2) GSWIP_TABLE_ACTIVE_VLAN (port + 1) =
      single_port_active_row port true /\
    bank_row (dev s2) GSWIP_TABLE_VLAN_MAPPING (port + 1) =
      single_port_mapping_row port (cpu_port (hw_info s)) /\
    reg s2 (GSWIP_PCE_DEFPVID port) = 0.
Proof.
  intros Hty Hp Hport Hport' Hncpu Hbr Hen Hnone t Ht.
  pose proof Hty as (Hlen & Hall & [HN HN'] & Hcpu).
  destruct (find_slot_in_pool slot_free s HN Ht) as [Hin Hfree]. fold t in Hin, Hfree.
  destruct (in_pool_nat s t Hty Hin) as [Ht0 Htlt].
  assert (Hr16 : 0 <= t < 65536) by (unfold in_pool, VLANS_SIZE in Hin; lia).
  destruct (bridge_join_unaware_new ds port bridge s t Hty Hp ltac:(lia) Hen Hnone
              eq_refl Ht)
    as (s1 & E1 & Hb1 & Hv1 & Hr1 & Hi1 & Hp1 & Hty1).
  exists s1.
  (* the single-port bridge is switched on again *)
  assert (Hport1 : 0 <= port < max_ports (hw_info s1)) by (rewrite Hi1; lia).
  pose proof (add_single_port_br_ok port true s1 Hty1 Hp1 Hport1) as Hon.
  cbv zeta in Hon.
  unfold gswip_port_bridge_leave. rewrite Hen. change (negb false) with true. cbv iota.
  unfold bind at 1.
  destruct (gswip_add_single_port_br port true s1) as [e sa].
  cbn [fst snd] in Hon.
  destruct Hon as (_ & Hba & Hra & _ & Hva & Hia & Hpa).
  assert (Htya : priv_typed sa).
  { destruct Hty1 as (H1 & H2 & H3 & H4). unfold priv_typed. rewrite Hva, Hia. auto. }
  (* the slot of the bridge is the one just created *)
  set (test := fun v => (vlan_bridge v =? bridge) && (negb false || (vlan_vid v =? 0))).
  assert (Hfind : find_slot test sa = t).
  { apply find_slot_first.
    - rewrite Hia, Hi1. exact HN.
    - unfold in_pool in *. rewrite Hia, Hi1. exact Hin.
    - rewrite Hva, Hv1, vlans_at_insert_same by assumption.
      unfold test. cbn [vlan_bridge vlan_vid negb orb]. rewrite Z.eqb_refl. reflexivity.
    - intros j Hj Hlt. rewrite Hva, Hv1.
      assert (Hj' : in_pool s j) by (unfold in_pool in *; rewrite Hia, Hi1 in Hj; exact Hj).
      rewrite vlans_at_insert_other by (unfold in_pool in Hj'; lia).
      unfold test. cbn [negb orb]. rewrite andb_true_r.
      destruct (find_slot_inv (fun v => vlan_bridge v =? bridge) s HN) as [[_ Hall0]|[Hx _]];
        cbv zeta in *.
      + apply Hall0. exact Hj'.
      + unfold in_pool in Hx. rewrite Hnone in Hx. lia. }
  destruct (vlan_remove_ok bridge port 0 true false sa t Hpa Hr16 Hfind Ht)
    as (s2 & E2 & Hb2 & Hr2 & Hv2 & Hi2 & Hp2).
  cbv zeta in Hb2, Hv2. rewrite Hia, Hi1 in Hb2, Hv2.
  set (m := unaware_mapping (with_val 0 0 (mapping_entry0 t)) (cpu_port (hw_info s)) port)
    in *.
  assert (Hrow : bank_row (dev sa) GSWIP_TABLE_VLAN_MAPPING t = row_of_entry m).
  { rewrite bank_row_lookup, Hba.
    rewrite lookup_insert_ne
      by (intros H; inversion H; unfold in_pool in Hin; lia).
    rewrite lookup_insert_ne by (intros H; inversion H).
    rewrite Hb1.
    rewrite lookup_insert_ne by (intros H; inversion H).
    rewrite lookup_insert_eq. reflexivity. }
  set (m' := remove_mapping (read_view sa GSWIP_TABLE_VLAN_MAPPING t) port) in *.
  assert (Hlen5 : length (tbl_val (read_view sa GSWIP_TABLE_VLAN_MAPPING t)) = 5%nat).
  { unfold read_view. rewrite Hrow. reflexivity. }
  assert (Hbits : forall q, 0 <= q ->
            Z.testbit (word_at (tbl_val m') 1) q = (q =? cpu_port (hw_info s))).
  { intros q Hq. destruct (Z.ltb_spec q 16) as [Hlt|Hge].
    - unfold m'. destruct (remove_mapping_bits (read_view sa GSWIP_TABLE_VLAN_MAPPING t)
                             port q Hlen5 Hport ltac:(lia)) as [-> _].
      unfold read_view. rewrite Hrow.
      cbn [load_row row_of_entry tbl_val row_val].
      rewrite word_at_map_u16, u16_testbit by lia.
      unfold m. rewrite unaware_mapping_bits by (try reflexivity; lia).
      assert (H0 : word_at (tbl_val (with_val 0 0 (mapping_entry0 t))) 1 = 0)
        by reflexivity.
      rewrite H0, Z.bits_0. assert (E : (q <? 16) = true) by lia. rewrite E.
      destruct (Z.eqb_spec q (cpu_port (hw_info s))) as [Hqc|Hqc];
        destruct (Z.eqb_spec q port) as [Hqp|Hqp]; simpl; try reflexivity.
      exfalso. lia.
    - unfold m', remove_mapping. cbv zeta.
      rewrite word_at_with_val_other by lia.
      rewrite word_at_with_val_same by lia.
      rewrite u16_testbit by lia.
      assert (E : (q <? 16) = false) by lia. rewrite E, andb_false_r.
      symmetry. apply Z.eqb_neq. lia. }
  assert (Hlast : (Z.land (word_at (tbl_val m') 1) (Z.lnot (BIT (cpu_port (hw_info s))))
                   =? 0) = true).
  { apply no_port_but; [lia|]. intros q Hq Hne. rewrite Hbits by exact Hq.
    apply Z.eqb_neq. exact Hne. }
  rewrite Hlast in Hb2, Hv2.
  unfold bind at 1. rewrite E2. exists s2.
  split; [exact E1|].
  split.
  { unfold slot_bound, slot_free. rewrite Hv1, vlans_at_insert_same by assumption.
    cbn [vlan_bridge]. apply Z.eqb_neq in Hbr. rewrite Hbr. reflexivity. }
  split; [reflexivity|].
  split.
  { apply (pool_view_clear_free s s2 t
             (vlan_vid (vlans_at (vlans sa) t)) (vlan_fid (vlans_at (vlans sa) t))
             Hty Hin Hfree).
    rewrite Hv2, Hva, Hv1. apply list_insert_insert_eq. }
  split.
  { rewrite bank_row_lookup, Hb2, lookup_insert_eq. reflexivity. }
  split.
  { intros q Hq. rewrite bank_row_lookup, Hb2.
    rewrite lookup_insert_ne by (intros H; inversion H).
    rewrite lookup_insert_eq. apply Hbits. exact Hq. }
  split.
  { rewrite bank_row_lookup, Hb2.
    rewrite lookup_insert_ne
      by (intros H; inversion H; unfold in_pool in Hin; lia).
    rewrite lookup_insert_ne by (intros H; inversion H).
    rewrite Hba.
    rewrite lookup_insert_ne by (intros H; inversion H).
    rewrite lookup_insert_eq. reflexivity. }
  split.
  { rewrite bank_row_lookup, Hb2.
    rewrite lookup_insert_ne by (intros H; inversion H).
    rewrite lookup_insert_ne
      by (intros H; inversion H; unfold in_pool in Hin; lia).
    rewrite Hba, lookup_insert_eq. rewrite Hi1. reflexivity. }
  unfold reg. rewrite Hr2, lookup_insert_eq. reflexivity.
Qed.

(** ** Invariants of the slot array *)

Lemma unique_frame s s' :
  slots_unique s -> vlans s' = vlans s -> hw_info s' = hw_info s -> slots_unique s'.
Proof. unfold slots_unique, in_pool. intros H -> ->. exact H. Qed.

Lemma unique_clear s s' idx vid fid :
  0 <= max_ports (hw_info s) -> slots_unique s -> 0 <= idx ->
  vlans s' = <[Z.to_nat idx := mk_vlan NULL vid fid]> (vlans s) ->
  hw_info s' = hw_info s ->
  slots_unique s'.
Proof.
  intros HN Hu H0 Hv Hi. unfold slots_unique, in_pool in *. rewrite Hv, Hi.
  intros i j Hini Hinj Hb Hij Hvid.
  destruct (Nat.lt_ge_cases (Z.to_nat idx) (length (vlans s))) as [Hlt|Hge];
    [|rewrite list_insert_ge in * by assumption; apply Hu; assumption].
  destruct (Z.eq_dec i idx) as [->|Hne].
  - rewrite vlans_at_insert_same in Hb by assumption. simpl in Hb. congruence.
  - rewrite vlans_at_insert_other in Hb, Hij, Hvid by lia.
    destruct (Z.eq_dec j idx) as [->|Hne'].
    + rewrite vlans_at_insert_same in Hij by assumption. simpl in Hij. congruence.
    + rewrite vlans_at_insert_other in Hij, Hvid by lia. apply Hu; assumption.
Qed.

Lemma unique_bind s s' idx b vid fid :
  priv_typed s -> slots_unique s -> in_pool s idx ->
  vlans s' = <[Z.to_nat idx := mk_vlan b vid fid]> (vlans s) ->
  hw_info s' = hw_info s ->
  (forall j, in_pool s j ->
     (vlan_bridge (vlans_at (vlans s) j) =? b) && (vlan_vid (vlans_at (vlans s) j) =? vid)
     = false) ->
  slots_unique s'.
Proof.
  intros Hty Hu Hin Hv Hi Hnone.
  destruct (in_pool_nat s idx Hty Hin) as [H0 Hlt].
  pose proof Hty as (_ & _ & [HN _] & _).
  unfold slots_unique. unfold in_pool at 1 2. rewrite Hv, Hi.
  intros i j Hini Hinj Hbi Hij Hvid.
  destruct (Z.eq_dec i idx) as [->|Hne]; destruct (Z.eq_dec j idx) as [->|Hne'].
  - reflexivity.
  - rewrite vlans_at_insert_same in Hij, Hvid by assumption.
    rewrite vlans_at_insert_other in Hij, Hvid by (unfold in_pool in *; lia).
    simpl in Hij, Hvid. specialize (Hnone j Hinj).
    rewrite <- Hij, <- Hvid, !Z.eqb_refl in Hnone. discriminate.
  - rewrite vlans_at_insert_same in Hij, Hvid by assumption.
    rewrite vlans_at_insert_other in Hij, Hvid by (unfold in_pool in *; lia).
    simpl in Hij, Hvid. specialize (Hnone i Hini).
    rewrite Hij, Hvid, !Z.eqb_refl in Hnone. discriminate.
  - rewrite !vlans_at_insert_other in * by (unfold in_pool in *; lia).
    apply Hu; assumption.
Qed.

(** X13. At most one slot per (bridge, vid).  A zeroed priv has no two bound
    slots of the pool range with the same bridge and VLAN id, and each of
    the three translator functions keeps it so, whatever the polls yield:
    a slot is created only after the scan found none for the pair. *)
Theorem one_slot_per_bridge_vid :
  (forall info h, slots_unique (priv_init info h)) /\
  (forall s, priv_typed s -> polls_errno s -> slots_unique s ->
     (forall bridge port,
        slots_unique (snd (gswip_vlan_add_unaware bridge port s))) /\
     (forall bridge port vid untagged pvid,
        0 <= vid < 65536 ->
        slots_unique (snd (gswip_vlan_add_aware bridge port vid untagged pvid s))) /\
     (forall bridge port vid pvid vlan_aware,
        slots_unique (snd (gswip_vlan_remove bridge port vid pvid vlan_aware s)))).
Proof.
  split.
  - intros info h i j _ _ Hb _ _.
    change (vlans (priv_init info h)) with (replicate 64 vlan0) in Hb.
    rewrite vlans_at_replicate in Hb. exfalso. apply Hb. reflexivity.
  - intros s Hty Hp Hu. pose proof Hty as (Hlen & Hall & [HN HN'] & Hcpu).
    split; [|split].
    + intros bridge port.
      destruct (add_unaware_shape bridge port s Hty Hp)
        as (e & s' & E & Hi & _ & _ & Hv).
      rewrite E. cbn [snd]. cbv zeta in Hv.
      destruct Hv as [Hv|[(Hm & Hin & _ & Hv)|(Hm & Hin & _ & Hv)]].
      * eapply unique_frame; eassumption.
      * eapply unique_bind; [exact Hty|exact Hu|exact Hin|exact Hv|exact Hi|].
        intros j Hj.
        destruct (find_slot_inv (fun v => vlan_bridge v =? bridge) s HN)
          as [[_ Hall0]|[Hx _]]; cbv zeta in *.
        -- rewrite (Hall0 j Hj). reflexivity.
        -- unfold in_pool in Hx. rewrite Hm in Hx. lia.
      * destruct (in_pool_nat s _ Hty Hin) as [H0 _].
        eapply unique_clear; [exact HN|exact Hu|exact H0|exact Hv|exact Hi].
    + intros bridge port vid untagged pvid Hvid.
      destruct (add_aware_shape bridge port vid untagged pvid s Hty Hp)
        as (e & s' & E & Hi & _ & _ & Hv).
      rewrite E. cbn [snd]. cbv zeta in Hv.
      destruct Hv as [Hv|[(Hsc & Hin & _ & Hv)|(Hsc & Hin & _ & Hv)]].
      * eapply unique_frame; eassumption.
      * eapply unique_bind; [exact Hty|exact Hu|exact Hin|exact Hv|exact Hi|].
        intros j Hj. rewrite (u16_id vid Hvid).
        rewrite aware_scan_result_idx in Hsc.
        destruct (find_slot_inv
                    (fun v => (vlan_bridge v =? bridge) && (vlan_vid v =? vid)) s HN)
          as [[_ Hall0]|[Hx _]]; cbv zeta in *.
        -- apply (Hall0 j Hj).
        -- unfold find_slot in Hx. unfold in_pool in Hx. rewrite Hsc in Hx. lia.
      * destruct (in_pool_nat s _ Hty Hin) as [H0 _].
        eapply unique_clear; [exact HN|exact Hu|exact H0|exact Hv|exact Hi].
    + intros bridge port vid pvid vlan_aware.
      destruct (vlan_remove_shape bridge port vid pvid vlan_aware s Hty Hp)
        as (e & s' & E & Hi & _ & _ & Hv).
      rewrite E. cbn [snd]. cbv zeta in Hv.
      destruct Hv as [Hv|(Hin & Hv)].
      * eapply unique_frame; eassumption.
      * destruct (in_pool_nat s _ Hty Hin) as [H0 _].
        eapply unique_clear; [exact HN|exact Hu|exact H0|exact Hv|exact Hi].
Qed.

(** X14. The reserved range stays unbound.  In every state the driver
    reaches from a zeroed priv, the slots below max_ports, which belong to
    the single-port bridges, are as kzalloc left them: the translator
    binds and releases slots of the pool range only. *)
Theorem reserved_slots_never_bound s :
  reachable s ->
  forall j, 0 <= j < max_ports (hw_info s) -> vlans_at (vlans s) j = vlan0.
Proof.
  induction 1 as [info h Hi Hp| s b p Hr IH | s b p v u pv Hr IH | s b p v pv a Hr IH
                  | s s' Hr IH Hv Hi Hp]; intros j Hj.
  - change (vlans (priv_init info h)) with (replicate 64 vlan0).
    apply vlans_at_replicate.
  - destruct (reachable_inv s Hr) as (Hty & Hp & _).
    destruct (add_unaware_shape b p s Hty Hp) as (e & s' & E & Hi & _ & _ & Hv).
    rewrite E in *. cbn [snd] in *. cbv zeta in Hv. rewrite Hi in Hj.
    destruct Hv as [Hv|[(_ & Hin & _ & Hv)|(_ & Hin & _ & Hv)]]; rewrite Hv;
      try rewrite vlans_at_insert_other by (unfold in_pool in Hin; lia);
      apply IH; exact Hj.
  - destruct (reachable_inv s Hr) as (Hty & Hp & _).
    destruct (add_aware_shape b p v u pv s Hty Hp) as (e & s' & E & Hi & _ & _ & Hv).
    rewrite E in *. cbn [snd] in *. cbv zeta in Hv. rewrite Hi in Hj.
    destruct Hv as [Hv|[(_ & Hin & _ & Hv)|(_ & Hin & _ & Hv)]]; rewrite Hv;
      try rewrite vlans_at_insert_other by (unfold in_pool in Hin; lia);
      apply IH; exact Hj.
  - destruct (reachable_inv s Hr) as (Hty & Hp & _).
    destruct (vlan_remove_shape b p v pv a s Hty Hp) as (e & s' & E & Hi & _ & _ & Hv).
    rewrite E in *. cbn [snd] in *. cbv zeta in Hv. rewrite Hi in Hj.
    destruct Hv as [Hv|(Hin & Hv)]; rewrite Hv;
      try rewrite vlans_at_insert_other by (unfold in_pool in Hin; lia);
      apply IH; exact Hj.
  - rewrite Hv. apply IH. rewrite <- Hi. exact Hj.
Qed.

(** ** The dump and its callback *)

Lemma fdb_dump_loop_feed {D} (cb : list Z -> Z -> bool -> D -> Z * D) port n :
  forall i mb data s,
    polls_ok s -> 0 <= port -> 0 <= i -> i + Z.of_nat n <= 65536 ->
    tbl_key_mode mb = false ->
    exists s',
      fdb_dump_loop cb port n i mb data s =
        (feed_cb cb (flat_map (fun j => spec_dump_report port
                                          (read_view s GSWIP_TABLE_MAC_BRIDGE j))
                              (indices n i)) data, s').
Proof.
  induction n as [|n IH]; intros i mb data s Hp Hport Hi Hfit Hk.
  - exists s. reflexivity.
  - cbn [fdb_dump_loop indices flat_map]. cbv zeta. unfold bind at 1.
    rewrite read_ok by assumption. cbv beta iota.
    set (e := load_row _ _).
    assert (He : e = read_view s GSWIP_TABLE_MAC_BRIDGE i).
    { subst e. unfold read_view, pce_addr. cbn [tbl_key_mode with_index with_table].
      rewrite Hk. cbn [tbl_table tbl_index with_index with_table].
      rewrite (u16_id i) by lia.
      apply load_row_eq; [reflexivity|reflexivity|exact Hk]. }
    assert (Hke : tbl_key_mode e = false) by (rewrite He; reflexivity).
    change (negb (0 =? 0)) with false. cbv iota.
    rewrite <- He. unfold spec_dump_report at 1.
    assert (Hnext : forall data',
      exists s',
        fdb_dump_loop cb port n (i + 1) e data' (polled s) =
          (feed_cb cb (flat_map (fun j => spec_dump_report port
                                            (read_view s GSWIP_TABLE_MAC_BRIDGE j))
                                (indices n (i + 1))) data', s')).
    { intros data'.
      destruct (IH (i + 1) e data' (polled s) ltac:(auto with gsw) Hport
                  ltac:(lia) ltac:(lia) Hke) as (s' & E).
      exists s'. rewrite E.
      rewrite (flat_map_ext
                 (fun j => spec_dump_report port
                             (read_view (polled s) GSWIP_TABLE_MAC_BRIDGE j))
                 (fun j => spec_dump_report port
                             (read_view s GSWIP_TABLE_MAC_BRIDGE j))).
      - reflexivity.
      - intros j. rewrite (read_view_ext s (polled s)) by reflexivity. reflexivity. }
    destruct (tbl_valid e); cbn [negb]; [|apply Hnext].
    destruct (mac_static e).
    + rewrite port_bit_test by assumption.
      destruct (Z.testbit (word_at (tbl_val e) 0) port); [|apply Hnext].
      cbn [app feed_cb]. destruct (cb (fdb_addr e) 0 true data) as [err data'].
      destruct (negb (err =? 0)).
      * unfold ret. eexists. reflexivity.
      * apply Hnext.
    + destruct (mac_port_field e =? port); [|apply Hnext].
      cbn [app feed_cb]. destruct (cb (fdb_addr e) 0 false data) as [err data'].
      destruct (negb (err =? 0)).
      * unfold ret. eexists. reflexivity.
      * apply Hnext.
Qed.

(** X15. The dump and its callback.  With no poll timing out, the dump of a
    port hands the callback, in index order, the valid static entries whose
    port map has the port's bit and the valid dynamic entries learnt on the
    port, each with VLAN id 0, until the callback returns non-zero: that
    value is returned at once and no later entry is reported.  When the
    callback never fails the dump returns 0. *)
Theorem fdb_dump_feeds_callback D (cb : list Z -> Z -> bool -> D -> Z * D)
    ds port data s :
  polls_ok s -> 0 <= port ->
  exists s',
    gswip_port_fdb_dump cb ds port data s =
      (feed_cb cb (flat_map (fun j => spec_dump_report port
                                        (read_view s GSWIP_TABLE_MAC_BRIDGE j))
                            (indices 2048 0)) data, s').
Proof.
  intros Hp Hport. unfold gswip_port_fdb_dump.
  apply (fdb_dump_loop_feed cb port 2048 0 entry0 data s Hp Hport ltac:(lia)
           ltac:(change (Z.of_nat 2048) with 2048; lia) eq_refl).
Qed.

(** ** Aging under arbitrary poll outcomes *)

Lemma read_outcome tbl s :
  hw_bank (dev (snd (gswip_pce_table_entry_read tbl s))) = hw_bank (dev s) /\
  (fst (fst (gswip_pce_table_entry_read tbl s)) = 0 ->
   snd (fst (gswip_pce_table_entry_read tbl s)) =
     load_row (bank_row (dev s) (tbl_table tbl) (pce_addr (dev s) tbl)) tbl).
Proof.
  split; [apply read_frame|].
  unfold gswip_pce_table_entry_read, bind, ret, get, gswip_switch_r_timeout.
  cbv beta iota zeta.
  destruct (Z.eqb_spec (hd 0 (hw_polls (dev s))) 0) as [E1|E1]; cbn [negb fst snd];
    [|intros H; contradiction].
  cbn [dev set_dev hw_polls].
  destruct (Z.eqb_spec (hd 0 (tl (hw_polls (dev s)))) 0) as [E2|E2]; cbn [negb fst snd];
    [|intros H; contradiction].
  intros _. reflexivity.
Qed.

Lemma write_outcome tbl s :
  hw_bank (dev (snd (gswip_pce_table_entry_write tbl s))) = hw_bank (dev s) \/
  hw_bank (dev (snd (gswip_pce_table_entry_write tbl s))) =
    <[(tbl_table tbl, pce_addr (dev s) tbl) := row_of_entry tbl]> (hw_bank (dev s)).
Proof.
  unfold gswip_pce_table_entry_write, bind, ret, gswip_switch_r_timeout, pce_commit,
    modify. cbv beta iota zeta.
  destruct (Z.eqb_spec (hd 0 (hw_polls (dev s))) 0) as [E1|E1]; cbn [negb fst snd].
  - right. reflexivity.
  - left. reflexivity.
Qed.

(* After the aging of [port] over [lo, hi): each row is as in [s], or is a
   row of the forwarding table that held an entry to age, now invalid. *)
Lemma fast_age_loop_safe port n :
  forall i mb s,
    0 <= i -> i + Z.of_nat n <= 65536 -> tbl_key_mode mb = false ->
    exists s',
      fast_age_loop port n i mb s = (tt, s') /\
      forall t j,
        hw_bank (dev s') !! (t, j) = hw_bank (dev s) !! (t, j) \/
        (t = GSWIP_TABLE_MAC_BRIDGE /\ i <= j < i + Z.of_nat n /\
         aged port (read_view s GSWIP_TABLE_MAC_BRIDGE j) = true /\
         hw_bank (dev s') !! (t, j) =
           Some (row_of_entry (with_valid false (read_view s GSWIP_TABLE_MAC_BRIDGE j)))).
Proof.
  induction n as [|n IH]; intros i mb s Hi Hfit Hk.
  - exists s. split; [reflexivity|]. intros t j. left. reflexivity.
  - cbn [fast_age_loop]. cbv zeta. unfold bind at 1.
    set (q := with_index i (with_table GSWIP_TABLE_MAC_BRIDGE mb)).
    destruct (read_outcome q s) as [Hb1 He].
    destruct (gswip_pce_table_entry_read q s) as [[err e] s1]. cbn [fst snd] in Hb1, He.
    cbv beta iota.
    destruct (Z.eqb_spec err 0) as [->|Hne]; cbn [negb].
    2:{ eexists. split; [reflexivity|]. intros t j. left.
        cbn [dev set_klog]. rewrite <- Hb1. reflexivity. }
    specialize (He eq_refl).
    assert (Heq : e = read_view s GSWIP_TABLE_MAC_BRIDGE i).
    { rewrite He. subst q. unfold read_view, pce_addr.
      cbn [tbl_key_mode with_index with_table]. rewrite Hk.
      cbn [tbl_table tbl_index with_index with_table].
      rewrite (u16_id i) by lia.
      apply load_row_eq; [reflexivity|reflexivity|exact Hk]. }
    assert (Hke : tbl_key_mode e = false) by (rewrite Heq; reflexivity).
    assert (Hview : forall s' k,
              hw_bank (dev s') !! (GSWIP_TABLE_MAC_BRIDGE, k) =
                hw_bank (dev s) !! (GSWIP_TABLE_MAC_BRIDGE, k) ->
              read_view s' GSWIP_TABLE_MAC_BRIDGE k = read_view s GSWIP_TABLE_MAC_BRIDGE k)
      by (intros s' k H; apply read_view_ext; exact H).
    assert (Hskip :
      exists s',
        fast_age_loop port n (i + 1) e s1 = (tt, s') /\
        forall t j,
          hw_bank (dev s') !! (t, j) = hw_bank (dev s) !! (t, j) \/
          (t = GSWIP_TABLE_MAC_BRIDGE /\ i <= j < i + Z.of_nat (S n) /\
           aged port (read_view s GSWIP_TABLE_MAC_BRIDGE j) = true /\
           hw_bank (dev s') !! (t, j) =
             Some (row_of_entry
                     (with_valid false (read_view s GSWIP_TABLE_MAC_BRIDGE j))))).
    { destruct (IH (i + 1) e s1 ltac:(lia) ltac:(lia) Hke) as (s' & E & Hrel).
      exists s'. split; [exact E|]. intros t j.
      destruct (Hrel t j) as [H|(H1 & H2 & H3 & H4)].
      - left. rewrite H, Hb1. reflexivity.
      - right. rewrite (Hview s1 j) in H3, H4 by (rewrite Hb1; reflexivity).
        split; [exact H1|]. split; [lia|]. split; [exact H3|exact H4]. }
    destruct (tbl_valid e) eqn:Ev; cbn [negb]; [|exact Hskip].
    destruct (mac_static e) eqn:Es; [exact Hskip|].
    destruct (Z.eqb_spec (mac_port_field e) port) as [Ep|Ep]; cbn [negb];
      [|exact Hskip].
    assert (Haged : aged port (read_view s GSWIP_TABLE_MAC_BRIDGE i) = true).
    { rewrite <- Heq. unfold aged. rewrite Ev, Es. cbn [negb andb].
      apply Z.eqb_eq. exact Ep. }
    unfold bind at 1.
    set (w := with_valid false e).
    assert (Hkw : tbl_key_mode w = false) by exact Hke.
    assert (Haddr : (tbl_table w, pce_addr (dev s1) w) = (GSWIP_TABLE_MAC_BRIDGE, i)).
    { unfold pce_addr. rewrite Hkw. subst w. rewrite Heq. unfold read_view.
      cbn [with_valid load_row tbl_table tbl_index with_table with_index entry0].
      rewrite (u16_id i) by lia. reflexivity. }
    destruct (write_outcome w s1) as [Hb2|Hb2];
      destruct (gswip_pce_table_entry_write w s1) as [err2 s2]; cbn [snd] in Hb2;
      cbv beta iota.
    + (* no row written *)
      destruct (Z.eqb_spec err2 0) as [->|Hne2]; cbn [negb].
      * destruct (IH (i + 1) w s2 ltac:(lia) ltac:(lia) Hkw) as (s' & E & Hrel).
        exists s'. split; [exact E|]. intros t j.
        destruct (Hrel t j) as [H|(H1 & H2 & H3 & H4)].
        -- left. rewrite H, Hb2, Hb1. reflexivity.
        -- right.
           rewrite (Hview s2 j) in H3, H4 by (rewrite Hb2, Hb1; reflexivity).
           split; [exact H1|]. split; [lia|]. split; [exact H3|exact H4].
      * eexists. split; [reflexivity|]. intros t j. left.
        cbn [dev set_klog]. rewrite Hb2, Hb1. reflexivity.
    + (* the row of index i is written invalid *)
      rewrite Haddr, Hb1 in Hb2.
      assert (Hhere : forall t j,
                hw_bank (dev s2) !! (t, j) = hw_bank (dev s) !! (t, j) \/
                (t = GSWIP_TABLE_MAC_BRIDGE /\ i <= j < i + Z.of_nat (S n) /\
                 aged port (read_view s GSWIP_TABLE_MAC_BRIDGE j) = true /\
                 hw_bank (dev s2) !! (t, j) =
                   Some (row_of_entry
                           (with_valid false (read_view s GSWIP_TABLE_MAC_BRIDGE j))))).
      { intros t j. rewrite Hb2.
        destruct (decide ((GSWIP_TABLE_MAC_BRIDGE, i) = (t, j))) as [Hij|Hij].
        - right. inversion Hij; subst t j. rewrite lookup_insert_eq.
          split; [reflexivity|]. split; [lia|]. split; [exact Haged|].
          subst w. rewrite Heq. reflexivity.
        - left. rewrite lookup_insert_ne by exact Hij. reflexivity. }
      destruct (Z.eqb_spec err2 0) as [->|Hne2]; cbn [negb].
      * destruct (IH (i + 1) w s2 ltac:(lia) ltac:(lia) Hkw) as (s' & E & Hrel).
        exists s'. split; [exact E|]. intros t j.
        destruct (Hrel t j) as [H|(H1 & H2 & H3 & H4)].
        -- rewrite H. apply Hhere.
        -- right.
           assert (Hj : hw_bank (dev s2) !! (GSWIP_TABLE_MAC_BRIDGE, j) =
                        hw_bank (dev s) !! (GSWIP_TABLE_MAC_BRIDGE, j)).
           { rewrite Hb2. apply lookup_insert_ne. intros H; inversion H; lia. }
           rewrite (Hview s2 j Hj) in H3, H4.
           split; [exact H1|]. split; [lia|]. split; [exact H3|exact H4].
      * eexists. split; [reflexivity|]. intros t j. cbn [dev set_klog]. apply Hhere.
Qed.

(** X16. Aging never harms an entry it is not to age.  Whatever the polls
    yield, after gswip_port_fast_age every table row is as it was, except
    rows of the forwarding table that held a valid dynamic entry learnt on
    the port: such a row is either as it was or holds the same entry with
    the valid flag clear.  Static entries, entries of other ports and the
    VLAN tables are never written, also when the scan is cut short by a
    failing read or write. *)
Theorem fast_age_only_invalidates_aged ds port s :
  exists s',
    gswip_port_fast_age ds port s = (tt, s') /\
    forall t j,
      hw_bank (dev s') !! (t, j) = hw_bank (dev s) !! (t, j) \/
      (t = GSWIP_TABLE_MAC_BRIDGE /\ 0 <= j < 2048 /\
       aged port (read_view s GSWIP_TABLE_MAC_BRIDGE j) = true /\
       hw_bank (dev s') !! (t, j) =
         Some (row_of_entry (with_valid false (read_view s GSWIP_TABLE_MAC_BRIDGE j)))).
Proof.
  unfold gswip_port_fast_age.
  destruct (fast_age_loop_safe port 2048 0 entry0 s ltac:(lia)
              ltac:(change (Z.of_nat 2048) with 2048; lia) eq_refl)
    as (s' & E & Hrel).
  exists s'. split; [exact E|]. intros t j.
  destruct (Hrel t j) as [H|(H1 & H2 & H3 & H4)].
  - left. exact H.
  - right. change (Z.of_nat 2048) with 2048 in H2. auto.
Qed.

(** ** Static entries: add, then delete *)

(** X17. Deleting what was added.  For a port in a bridge that has a slot,
    with no poll timing out and a key search that finds the row of the key
    again once it is written: gswip_port_fdb_add followed by
    gswip_port_fdb_del for the same address both return 0 and leave the
    row the key search selected holding the key with the valid flag clear
    and an empty port map; no other row differs from before the add.  The
    VLAN ids passed to the two calls play no part. *)
Theorem fdb_add_then_del ds port addr vid vid' s :
  priv_typed s -> polls_ok s -> bridge_dev ds port <> NULL ->
  find_slot (fun v => vlan_bridge v =? bridge_dev ds port) s <> -1 ->
  let fid := vlan_fid (vlans_at (vlans s)
                         (find_slot (fun v => vlan_bridge v =? bridge_dev ds port) s)) in
  let k := hw_ks (dev s) (hw_bank (dev s)) GSWIP_TABLE_MAC_BRIDGE (fdb_key addr fid) in
  (forall row,
     hw_ks (dev s) (<[(GSWIP_TABLE_MAC_BRIDGE, k) := row]> (hw_bank (dev s)))
           GSWIP_TABLE_MAC_BRIDGE (fdb_key addr fid) = k) ->
  exists s1 s2,
    gswip_port_fdb_add ds port addr vid s = (0, s1) /\
    gswip_port_fdb_del ds port addr vid' s1 = (0, s2) /\
    hw_bank (dev s2) =
      <[(GSWIP_TABLE_MAC_BRIDGE, k) := fdb_static_row addr fid port false]>
        (hw_bank (dev s)) /\
    row_valid (bank_row (dev s2) GSWIP_TABLE_MAC_BRIDGE k) = false /\
    word_at (row_val (bank_row (dev s2) GSWIP_TABLE_MAC_BRIDGE k)) 0 = 0.
Proof.
  intros Hty Hp Hb Hf fid k Hks.
  destruct (port_fdb_ok ds port addr vid true s Hty Hp Hb Hf)
    as (s1 & E1 & Hb1 & Hp1 & Hv1).
  cbv zeta in Hb1. fold fid in Hb1. fold k in Hb1.
  pose proof (keeps_port_fdb fdb_aside fdb_aside_poll fdb_aside_commit fdb_aside_log
                ds port addr vid true s) as Has.
  unfold gswip_port_fdb_add. rewrite E1 in Has. cbn [snd] in Has.
  apply fdb_aside_eq in Has. destruct Has as (_ & _ & _ & _ & Hi1 & Hk1).
  assert (Hty1 : priv_typed s1).
  { destruct Hty as (H1 & H2 & H3 & H4). unfold priv_typed. rewrite Hv1, Hi1. auto. }
  assert (Hfs : find_slot (fun v => vlan_bridge v =? bridge_dev ds port) s1 =
                find_slot (fun v => vlan_bridge v =? bridge_dev ds port) s)
    by (apply find_slot_frame; assumption).
  destruct (port_fdb_ok ds port addr vid' false s1 Hty1 Hp1 Hb ltac:(rewrite Hfs; exact Hf))
    as (s2 & E2 & Hb2 & _).
  cbv zeta in Hb2. rewrite Hfs, Hv1 in Hb2. fold fid in Hb2.
  rewrite Hk1, Hb1, Hks in Hb2. rewrite insert_insert_eq in Hb2.
  exists s1, s2. split; [exact E1|]. split; [exact E2|]. split; [exact Hb2|].
  rewrite bank_row_lookup, Hb2, lookup_insert_eq. split; reflexivity.
Qed.

(** ** Single-port bridge of a port that is out of range *)

Lemma u32_mod x : u32 x = x mod 4294967296.
Proof.
  unfold u32. change 4294967295 with (Z.ones 32). rewrite Z.land_ones by lia.
  reflexivity.
Qed.

(** X18. A port number outside 0 .. max_ports - 1 gets no single-port
    bridge.  The comparison with max_ports is unsigned, so a negative int
    port is refused like a port that is too large: the function logs,
    returns -EIO and writes no table row; gswip_port_enable on such a user
    port fails with the same error before it writes any register. *)
Theorem add_single_port_br_out_of_range port add s :
  0 <= max_ports (hw_info s) < 2147483648 ->
  - 2147483648 <= port < 2147483648 ->
  port < 0 \/ max_ports (hw_info s) <= port ->
  gswip_add_single_port_br port add s =
    (- EIO, set_klog (klog s ++ ["single port for %i supported"%string]) s) /\
  (forall ds phydev,
     dsa_is_user_port ds port = true ->
     gswip_port_enable ds port phydev s =
       (- EIO, set_klog (klog s ++ ["single port for %i supported"%string]) s)).
Proof.
  intros HN Hint Hout.
  assert (Hge : (u32 port >=? max_ports (hw_info s)) = true).
  { rewrite u32_mod. apply Z.geb_le.
    destruct Hout as [Hneg|Hbig].
    - replace (port mod 4294967296) with (port + 4294967296); [lia|].
      symmetry. rewrite <- (Z.mod_add port 1 4294967296) by lia.
      apply Z.mod_small. lia.
    - rewrite Z.mod_small by lia. exact Hbig. }
  assert (Hbr : forall a,
            gswip_add_single_port_br port a s =
              (- EIO, set_klog (klog s ++ ["single port for %i supported"%string]) s)).
  { intros a. unfold gswip_add_single_port_br. unfold bind at 1. unfold get at 1.
    cbv beta iota zeta. rewrite Hge. reflexivity. }
  split; [apply Hbr|].
  intros ds phydev Huser. unfold gswip_port_enable.
  rewrite Huser, (user_port_not_cpu ds port Huser).
  change (negb true && negb false) with false. change (negb false) with true. cbv iota.
  unfold bind at 1. rewrite Hbr. reflexivity.
Qed.

(** ** Fields of a register after a masked write *)

Ltac bit_facts q :=
  repeat match goal with
  | H : Z.land _ _ = _ |- _ =>
      apply (f_equal (fun z => Z.testbit z q)) in H;
      cbv beta in H; rewrite ?Z.land_spec, ?Z.bits_0 in H
  end.

(* Reading a field that lies inside the cleared mask gives what was set. *)
Lemma field_in x c st m :
  Z.land m c = m -> Z.land m 4294967295 = m ->
  Z.land (u32 (Z.lor (Z.land x (Z.lnot c)) st)) m = Z.land st m.
Proof.
  intros H1 H2. apply Z.bits_inj'. intros q Hq. unfold u32.
  rewrite !Z.land_spec, Z.lor_spec, Z.land_spec, Z.lnot_spec by lia.
  bit_facts q.
  destruct (Z.testbit x q), (Z.testbit c q), (Z.testbit st q), (Z.testbit m q),
    (Z.testbit 4294967295 q); simpl in *; congruence.
Qed.

(* Reading a field that the masked write does not touch gives what was there. *)
Lemma field_out x c st m :
  Z.land m c = 0 -> Z.land m st = 0 -> Z.land m 4294967295 = m ->
  Z.land (u32 (Z.lor (Z.land x (Z.lnot c)) st)) m = Z.land x m.
Proof.
  intros H1 H2 H3. apply Z.bits_inj'. intros q Hq. unfold u32.
  rewrite !Z.land_spec, Z.lor_spec, Z.land_spec, Z.lnot_spec by lia.
  bit_facts q.
  destruct (Z.testbit x q), (Z.testbit c q), (Z.testbit st q), (Z.testbit m q),
    (Z.testbit 4294967295 q); simpl in *; congruence.
Qed.

Lemma mii_mask_same c st o l :
  mii_reg (gswip_mii_mask c st o l) o = u32 (Z.lor (Z.land (mii_reg l o) (Z.lnot c)) st).
Proof.
  unfold mii_reg, gswip_mii_mask, gswip_mii_w, gswip_mii_r. cbn [lk_mii].
  rewrite lookup_insert_eq. reflexivity.
Qed.

Lemma mii_mask_other c st o o' l :
  o <> o' -> mii_reg (gswip_mii_mask c st o l) o' = mii_reg l o'.
Proof.
  intros H. unfold mii_reg, gswip_mii_mask, gswip_mii_w, gswip_mii_r. cbn [lk_mii].
  rewrite lookup_insert_ne by exact H. reflexivity.
Qed.

Lemma mii_on_priv m l o : mii_reg (on_priv m l) o = mii_reg l o.
Proof. reflexivity. Qed.


(** ** Link parameters *)

Lemma disjoint_sub m c st : Z.land m c = 0 -> Z.land st c = st -> Z.land m st = 0.
Proof.
  intros H1 H2. apply Z.bits_inj'. intros q Hq.
  rewrite Z.land_spec, Z.bits_0. bit_facts q.
  destruct (Z.testbit m q), (Z.testbit c q), (Z.testbit st q); simpl in *; congruence.
Qed.

(* A field of a register of the MDIO window after a masked write. *)
Lemma mdio_field c st o s m v :
  mdio_reg s o = v ->
  (Z.land m c = m -> Z.land m 4294967295 = m ->
   Z.land (mdio_reg (snd (gswip_slave_mdio_mask c st o s)) o) m = Z.land st m) /\
  (Z.land m c = 0 -> Z.land st c = st -> Z.land m 4294967295 = m ->
   Z.land (mdio_reg (snd (gswip_slave_mdio_mask c st o s)) o) m = Z.land v m).
Proof.
  intros <-. rewrite mdio_mask_same. split.
  - intros H1 H2. apply field_in; assumption.
  - intros H1 H2 H3. apply field_out; [assumption|eapply disjoint_sub; eassumption|assumption].
Qed.


Lemma mii_field c st o l m :
  (Z.land m c = m -> Z.land m 4294967295 = m ->
   Z.land (mii_reg (gswip_mii_mask c st o l) o) m = Z.land st m) /\
  (Z.land m c = 0 -> Z.land st c = st -> Z.land m 4294967295 = m ->
   Z.land (mii_reg (gswip_mii_mask c st o l) o) m = Z.land (mii_reg l o) m).
Proof.
  rewrite mii_mask_same. split.
  - intros H1 H2. apply field_in; assumption.
  - intros H1 H2 H3. apply field_out; [assumption|eapply disjoint_sub; eassumption|assumption].
Qed.

Lemma set_link_fields port link s :
  let s' := snd (gswip_port_set_link port link s) in
  Z.land (mdio_reg s' (GSWIP_MDIO_PHYp port)) GSWIP_MDIO_PHY_LINK_MASK =
    (if link then GSWIP_MDIO_PHY_LINK_UP else GSWIP_MDIO_PHY_LINK_DOWN) /\
  (forall m, Z.land m GSWIP_MDIO_PHY_LINK_MASK = 0 -> Z.land m 4294967295 = m ->
     Z.land (mdio_reg s' (GSWIP_MDIO_PHYp port)) m =
       Z.land (mdio_reg s (GSWIP_MDIO_PHYp port)) m) /\
  (forall o, reg s' o = reg s o) /\
  hw_bank (dev s') = hw_bank (dev s) /\ vlans s' = vlans s.
Proof.
  cbv zeta. unfold gswip_port_set_link. cbv zeta.
  set (code := if link then GSWIP_MDIO_PHY_LINK_UP else GSWIP_MDIO_PHY_LINK_DOWN).
  destruct (mdio_field GSWIP_MDIO_PHY_LINK_MASK code (GSWIP_MDIO_PHYp port) s
              GSWIP_MDIO_PHY_LINK_MASK _ eq_refl) as [Hin _].
  split; [rewrite Hin by reflexivity; subst code; destruct link; reflexivity|].
  split; [|repeat split].
  intros m H1 H2.
  apply (proj2 (mdio_field GSWIP_MDIO_PHY_LINK_MASK code (GSWIP_MDIO_PHYp port) s m _
                  eq_refl)); [exact H1| |exact H2].
  subst code; destruct link; reflexivity.
Qed.





(** ** Link down, and the CPU port *)

(** X20. Link down on a port other than the CPU port clears the enable bit
    of its MII_CFG register and forces the link field of its MDIO PHY
    register to link-down; every other bit of the two registers, every
    core register and every table row is left as it was.  On the CPU port,
    which has neither register, link down and link up write nothing at
    all. *)
Theorem link_down_and_cpu_port ds port l :
  (dsa_is_cpu_port ds port = false ->
   let l' := gswip_phylink_mac_link_down ds port l in
   Z.land (mdio_reg (lk_priv l') (GSWIP_MDIO_PHYp port)) GSWIP_MDIO_PHY_LINK_MASK =
     GSWIP_MDIO_PHY_LINK_DOWN /\
   (forall m, Z.land m GSWIP_MDIO_PHY_LINK_MASK = 0 -> Z.land m 4294967295 = m ->
      Z.land (mdio_reg (lk_priv l') (GSWIP_MDIO_PHYp port)) m =
        Z.land (mdio_reg (lk_priv l) (GSWIP_MDIO_PHYp port)) m) /\
   Z.land (mii_reg l' (GSWIP_MII_CFGp port)) GSWIP_MII_CFG_EN = 0 /\
   (forall m, Z.land m GSWIP_MII_CFG_EN = 0 -> Z.land m 4294967295 = m ->
      Z.land (mii_reg l' (GSWIP_MII_CFGp port)) m =
        Z.land (mii_reg l (GSWIP_MII_CFGp port)) m) /\
   (forall o, o <> GSWIP_MII_CFGp port -> mii_reg l' o = mii_reg l o) /\
   (forall o, reg (lk_priv l') o = reg (lk_priv l) o) /\
   hw_bank (dev (lk_priv l')) = hw_bank (dev (lk_priv l)) /\
   vlans (lk_priv l') = vlans (lk_priv l)) /\
  (dsa_is_cpu_port ds port = true ->
   gswip_phylink_mac_link_down ds port l = l /\
   forall interface speed duplex tx_pause rx_pause,
     gswip_phylink_mac_link_up ds port interface speed duplex tx_pause rx_pause l = l).
Proof.
  split.
  - intros Hcpu. cbv zeta.
    unfold gswip_phylink_mac_link_down, gswip_mii_mask_cfg.
    rewrite Hcpu. change (negb false) with true. cbv iota zeta.
    set (l1 := gswip_mii_mask GSWIP_MII_CFG_EN 0 (GSWIP_MII_CFGp port) l).
    destruct (set_link_fields port false (lk_priv l1)) as (A1 & A2 & A3 & A4 & A5).
    change (lk_priv (on_priv (gswip_port_set_link port false) l1))
      with (snd (gswip_port_set_link port false (lk_priv l1))).
    change (lk_priv l1) with (lk_priv l) in *.
    split; [exact A1|]. split; [exact A2|].
    split.
    { rewrite mii_on_priv. unfold l1.
      rewrite (proj1 (mii_field GSWIP_MII_CFG_EN 0 (GSWIP_MII_CFGp port) l
                        GSWIP_MII_CFG_EN)) by reflexivity.
      reflexivity. }
    split.
    { intros m H1 H2. rewrite mii_on_priv. unfold l1.
      apply (proj2 (mii_field GSWIP_MII_CFG_EN 0 (GSWIP_MII_CFGp port) l m));
        [exact H1|reflexivity|exact H2]. }
    split.
    { intros o Ho. rewrite mii_on_priv. unfold l1. apply mii_mask_other. ne. }
    split; [exact A3|]. split; [exact A4|exact A5].
  - intros Hcpu. split.
    + unfold gswip_phylink_mac_link_down, gswip_mii_mask_cfg. rewrite Hcpu. reflexivity.
    + intros. unfold gswip_phylink_mac_link_up, gswip_mii_mask_cfg. rewrite Hcpu.
      reflexivity.
Qed.

(** ** Interface mode *)





(** ** phylink capabilities *)

(** X22. check_interface_support of the xRX200 and of the xRX300.  Both
    accept a port only in 0..5, so never the CPU port 6 of their hw_info,
    and both accept the internal mode on ports 2, 3 and 4.  When the
    kernel's RGMII test holds only of modes gswip_phylink_mac_config
    knows, every interface they accept is one it knows. *)
Theorem platform_check_accepts rg port interface :
  (forall i, rg i = true -> mii_cfg_mode i <> None) ->
  (gsw_platform_check_if_support_xrx200 rg port interface = true \/
   gsw_platform_check_if_support_xrx300 rg port interface = true ->
   0 <= port <= 5 /\ port <> cpu_port gswip_xrx200 /\ port <> cpu_port gswip_xrx300 /\
   mii_cfg_mode interface <> None) /\
  (2 <= port <= 4 ->
   gsw_platform_check_if_support_xrx200 rg port PHY_INTERFACE_MODE_INTERNAL = true /\
   gsw_platform_check_if_support_xrx300 rg port PHY_INTERFACE_MODE_INTERNAL = true).
Proof.
  intros Hrg. split.
  - unfold gsw_platform_check_if_support_xrx200, gsw_platform_check_if_support_xrx300.
    cbn [cpu_port gswip_xrx200 gswip_xrx300].
    intros H.
    assert (Hm : rg interface = true \/ mii_cfg_mode interface <> None).
    { destruct (rg interface); [left; reflexivity|right].
      destruct interface; cbn in *; try discriminate;
        destruct H as [H|H]; repeat (destruct (_ =? _) in H; cbn in H);
        discriminate H. }
    split; [|split; [|split]].
    + destruct H as [H|H];
        repeat match type of H with
               | context [?a =? ?b] => destruct (Z.eqb_spec a b); [lia|]; cbn in H
               end; discriminate H.
    + destruct H as [H|H];
        repeat match type of H with
               | context [?a =? ?b] => destruct (Z.eqb_spec a b); [lia|]; cbn in H
               end; discriminate H.
    + destruct H as [H|H];
        repeat match type of H with
               | context [?a =? ?b] => destruct (Z.eqb_spec a b); [lia|]; cbn in H
               end; discriminate H.
    + destruct Hm as [Hm|Hm]; [apply Hrg; exact Hm|exact Hm].
  - intros Hp.
    assert (Hc : port = 2 \/ port = 3 \/ port = 4) by lia.
    destruct Hc as [-> | [-> | ->]]; split; reflexivity.
Qed.

(** X23. gswip_phylink_validate.  It never adds a link mode to the
    supported or to the advertised set.  When check_interface_support
    rejects the port and interface, the supported set comes back empty,
    the state is untouched and the error is logged; otherwise nothing is
    logged, the 10 and 100 Mbit/s modes, autonegotiation and the pause
    modes pass through unchanged, and the 1000 Mbit/s modes pass through
    for every interface other than MII, reverse MII and RMII, for which
    they are dropped unless phylink_set_port_modes sets them.
    phylink_set_port_modes is taken to set bits only. *)
Theorem validate_filters_modes check pm port supported state s :
  (forall mask m, mask m = true -> pm mask m = true) ->
  let r := gswip_phylink_validate check pm port supported state s in
  let supported' := fst (fst r) in
  let state' := snd (fst r) in
  (forall m, supported' m = true -> supported m = true) /\
  (forall m, ls_advertising state' m = true -> ls_advertising state m = true) /\
  ls_interface state' = ls_interface state /\
  dev (snd r) = dev s /\ vlans (snd r) = vlans s /\
  (check port (ls_interface state) = false ->
   (forall m, supported' m = false) /\ state' = state /\
   klog (snd r) = klog s ++ ["Unsupported interface '%s' for port %d"%string]) /\
  (check port (ls_interface state) = true ->
   snd r = s /\
   (forall m, In m [ETHTOOL_LINK_MODE_Autoneg; ETHTOOL_LINK_MODE_Pause;
                    ETHTOOL_LINK_MODE_Asym_Pause;
                    ETHTOOL_LINK_MODE_10baseT_Half; ETHTOOL_LINK_MODE_10baseT_Full;
                    ETHTOOL_LINK_MODE_100baseT_Half; ETHTOOL_LINK_MODE_100baseT_Full] ->
      supported' m = supported m /\
      ls_advertising state' m = ls_advertising state m) /\
   (forall m, In m [ETHTOOL_LINK_MODE_1000baseT_Full; ETHTOOL_LINK_MODE_1000baseT_Half] ->
      (In (ls_interface state) [PHY_INTERFACE_MODE_MII; PHY_INTERFACE_MODE_REVMII;
                                PHY_INTERFACE_MODE_RMII] ->
       supported' m = supported m && pm (phylink_set bitmap_zero ETHTOOL_LINK_MODE_Autoneg) m /\
       ls_advertising state' m =
         ls_advertising state m && pm (phylink_set bitmap_zero ETHTOOL_LINK_MODE_Autoneg) m) /\
      (~ In (ls_interface state) [PHY_INTERFACE_MODE_MII; PHY_INTERFACE_MODE_REVMII;
                                  PHY_INTERFACE_MODE_RMII] ->
       supported' m = supported m /\
       ls_advertising state' m = ls_advertising state m))).
Proof.
  intros Hpm. cbv zeta. unfold gswip_phylink_validate.
  destruct (check port (ls_interface state)) eqn:Ec; cbn [negb].
  - unfold ret. cbn [fst snd]. unfold gswip_phylink_set_capab. cbv zeta.
    cbn [fst snd ls_advertising ls_interface].
    split; [intros m; unfold bitmap_and; intros H; apply andb_prop in H; tauto|].
    split; [intros m; unfold bitmap_and; intros H; apply andb_prop in H; tauto|].
    split; [reflexivity|]. split; [reflexivity|]. split; [reflexivity|].
    split; [intros H; discriminate H|]. intros _. split; [reflexivity|].
    split.
    + intros m Hm. cbn [In] in Hm.
      unfold bitmap_and, phylink_set.
      assert (Ha : pm (phylink_set bitmap_zero ETHTOOL_LINK_MODE_Autoneg)
                      ETHTOOL_LINK_MODE_Autoneg = true) by (apply Hpm; reflexivity).
      unfold phylink_set in Ha.
      destruct (ls_interface state);
        decompose [or] Hm; try contradiction; subst m; cbn;
        rewrite ?Ha, ?orb_true_r, ?andb_true_r; try tauto.
    + intros m Hm. cbn [In] in Hm. unfold bitmap_and, phylink_set. split.
      * intros Hi. cbn [In] in Hi.
        decompose [or] Hi; try contradiction;
          match goal with H : _ = ls_interface state |- _ => rewrite <- H end;
          decompose [or] Hm; try contradiction; subst m; cbn; tauto.
      * intros Hi. cbn [In] in Hi.
        destruct (ls_interface state); try (exfalso; tauto);
          decompose [or] Hm; try contradiction; subst m; cbn;
          rewrite ?orb_true_r, ?andb_true_r; tauto.
  - unfold bind, dev_err, modify, ret. cbn [fst snd].
    split; [intros m H; discriminate H|].
    split; [intros m H; exact H|].
    split; [reflexivity|]. split; [reflexivity|]. split; [reflexivity|].
    split; [|intros H; discriminate H].
    intros _. repeat split.
Qed.

(** ** The further properties at the example configurations *)


(** X1 at port 1 of the example switch: the enable bit of the fetch-DMA
    control register is clear after the disable and no slot changed. *)
Lemma port_disable_example :
  Z.testbit (reg (snd (gswip_port_disable ds_example 1 priv_example))
                 (GSWIP_FDMA_PCTRLp 1)) 0 = false /\
  vlans (snd (gswip_port_disable ds_example 1 priv_example)) = vlans priv_example.
Proof.
  destruct (port_disable_clears_dma_enable ds_example 1 priv_example ltac:(lia))
    as [_ H].
  specialize (H eq_refl). cbv zeta in H.
  destruct H as (Hb & _ & _ & _ & Hv & _).
  split; [|exact Hv].
  destruct (Hb 0 ltac:(lia)) as [E _]. rewrite E. apply andb_false_r.
Defined.

(** X2 at port 1 of the example switch, with a PHY at address 17. *)
Lemma port_enable_registers_example :
  exists s',
    gswip_port_enable ds_example 1 (Some 17) priv_example = (0, s') /\
    reg s' (GSWIP_BM_PCFGp 1) = GSWIP_BM_PCFG_CNTEN.
Proof.
  destruct (port_enable_registers ds_example 1 (Some 17) priv_example
              priv_example_typed priv_example_polls_ok
              ltac:(vm_compute; intuition congruence)
              ltac:(left; reflexivity))
    as (s' & E & Hc & _).
  exists s'. split; [exact E|exact Hc].
Defined.

(** X3 at port 2 of the example switch: the forwarding state sets bit 1
    of the port-state field. *)
Lemma stp_state_set_example :
  Z.testbit (reg (snd (gswip_port_stp_state_set ds_example 2 BR_STATE_FORWARDING
                         priv_example)) (GSWIP_PCE_PCTRL_0p 2)) 1 = true.
Proof.
  pose proof (stp_state_set_effect ds_example 2 BR_STATE_FORWARDING priv_example
                ltac:(lia)) as H.
  cbv zeta in H. destruct H as (H & _).
  destruct (H 7 eq_refl 1 ltac:(lia)) as [_ E]. rewrite E. reflexivity.
Defined.


(** X5 at the priv whose next poll times out: the write fails with the
    poll's error. *)
Lemma pce_table_busy_example :
  fst (gswip_pce_table_entry_write entry_example priv_busy) = - ETIMEDOUT /\
  hw_bank (dev (snd (gswip_pce_table_entry_write entry_example priv_busy))) =
    hw_bank (dev priv_busy).
Proof.
  destruct (proj2 pce_table_busy_leaves_table entry_example priv_busy
              (- ETIMEDOUT) [] eq_refl ltac:(vm_compute; discriminate))
    as (E & Hb & _).
  split; assumption.
Defined.

(** X8 at port 0 of the example switch, which is in no bridge. *)
Lemma port_vlan_gatekeeping_example :
  gswip_port_vlan_prepare ds_example 0 (mk_obj_vlan 10 false false) priv_example =
    (- EOPNOTSUPP, priv_example).
Proof.
  pose proof (port_vlan_gatekeeping ds_example 0 (mk_obj_vlan 10 false false)
                priv_example) as H.
  cbv zeta in H. destruct H as (H & _).
  exact (proj1 (H eq_refl eq_refl)).
Defined.


(** X10 at port 1 of the example switch joining bridge 100: the first
    pool slot is bound to the bridge. *)
Lemma bridge_join_unaware_example :
  exists s',
    gswip_port_bridge_join ds_example 1 100 priv_example = (0, s') /\
    vlan_bridge (vlans_at (vlans s') 6) = 100.
Proof.
  pose proof (bridge_join_unaware ds_example 1 100 priv_example
                priv_example_typed priv_example_bank_typed priv_example_polls_ok
                ltac:(lia) ltac:(vm_compute; reflexivity)
                ltac:(vm_compute; discriminate) eq_refl) as H.
  cbv zeta in H.
  destruct (H ltac:(vm_compute; discriminate)) as (s' & E & Hb & _).
  exists s'. split; [exact E|exact Hb].
Defined.


(** X12 at port 1 of the example switch and bridge 100. *)
Lemma bridge_join_leave_example :
  exists s1 s2,
    gswip_port_bridge_join ds_example 1 100 priv_example = (0, s1) /\
    gswip_port_bridge_leave ds_example 1 100 s1 = (tt, s2) /\
    pool_view s2 = pool_view priv_example.
Proof.
  pose proof (bridge_join_leave_round_trip ds_example 1 100 priv_example
                priv_example_typed priv_example_polls_ok
                ltac:(lia) ltac:(vm_compute; reflexivity)
                ltac:(vm_compute; discriminate) ltac:(vm_compute; discriminate)
                eq_refl ltac:(vm_compute; reflexivity)) as H.
  cbv zeta in H.
  destruct (H ltac:(vm_compute; discriminate))
    as (s1 & s2 & Ej & _ & El & Hp & _).
  exists s1, s2. repeat split; assumption.
Defined.

(** X13 at the zeroed priv: after adding VLAN 10 of bridge 200 on port 3
    no two bound slots share a bridge and VLAN id. *)
Lemma one_slot_per_bridge_vid_example :
  slots_unique (snd (gswip_vlan_add_aware 200 3 10 false true priv_example)).
Proof.
  destruct one_slot_per_bridge_vid as [Hinit Hstep].
  destruct (Hstep priv_example priv_example_typed ltac:(constructor)
              (Hinit gsw_mdio_hw_info (hw_init []))) as (_ & Haware & _).
  apply Haware. lia.
Defined.

(** X14 after the same VLAN add: slot 3, of the reserved range, is as
    kzalloc left it. *)
Lemma reserved_slots_example :
  vlans_at (vlans (snd (gswip_vlan_add_aware 200 3 10 false true priv_example))) 3
  = vlan0.
Proof.
  apply (reserved_slots_never_bound
           (snd (gswip_vlan_add_aware 200 3 10 false true priv_example))).
  - apply reach_add_aware. apply (reach_init gsw_mdio_hw_info (hw_init [])).
    + unfold info_typed. simpl. lia.
    + constructor.
  - vm_compute. intuition congruence.
Defined.

(** X15 at port 2 of the example switch with the recording callback. *)
Lemma fdb_dump_feeds_callback_example :
  exists s',
    gswip_port_fdb_dump record_cb ds_example 2 [] priv_member =
      (feed_cb record_cb
         (flat_map (fun j => spec_dump_report 2
                               (read_view priv_member GSWIP_TABLE_MAC_BRIDGE j))
                   (indices 2048 0)) [], s').
Proof.
  exact (fdb_dump_feeds_callback _ record_cb ds_example 2 [] priv_member
           priv_member_polls_ok ltac:(lia)).
Defined.

(** X17 at port 2 of the example switch, a member of bridge 100: the
    address added and deleted leaves an invalid row. *)
Lemma fdb_add_then_del_example :
  exists s1 s2,
    gswip_port_fdb_add ds_example 2 [170; 187; 204; 221; 238; 255] 0 priv_member
      = (0, s1) /\
    gswip_port_fdb_del ds_example 2 [170; 187; 204; 221; 238; 255] 5 s1 = (0, s2) /\
    row_valid (bank_row (dev s2) GSWIP_TABLE_MAC_BRIDGE 0) = false.
Proof.
  pose proof (fdb_add_then_del ds_example 2 [170; 187; 204; 221; 238; 255] 0 5
                priv_member priv_member_typed priv_member_polls_ok
                ltac:(vm_compute; discriminate) ltac:(vm_compute; discriminate)) as H.
  cbv zeta in H.
  destruct (H ltac:(intros row; reflexivity)) as (s1 & s2 & Ea & Ed & _ & Hv & _).
  exists s1, s2. repeat split; assumption.
Defined.

(** X18 at port -1 on the zeroed priv. *)
Lemma add_single_port_br_out_of_range_example :
  fst (gswip_add_single_port_br (-1) true priv_example) = - EIO.
Proof.
  rewrite (proj1 (add_single_port_br_out_of_range (-1) true priv_example
                    ltac:(vm_compute; intuition congruence) ltac:(lia)
                    ltac:(left; lia))).
  reflexivity.
Defined.


(** X20 at the CPU port of the example switch: link down writes nothing. *)
Lemma link_down_cpu_port_example :
  gswip_phylink_mac_link_down ds_example 5 link_example = link_example.
Proof.
  exact (proj1 (proj2 (link_down_and_cpu_port ds_example 5 link_example) eq_refl)).
Defined.


(** X22 at port 3 of the xRX200 and of the xRX300, and at port 0 of the
    xRX200 with RMII. *)
Lemma platform_check_example :
  gsw_platform_check_if_support_xrx200 is_rgmii_example 3 PHY_INTERFACE_MODE_INTERNAL
    = true /\
  gsw_platform_check_if_support_xrx300 is_rgmii_example 3 PHY_INTERFACE_MODE_INTERNAL
    = true /\
  mii_cfg_mode PHY_INTERFACE_MODE_RMII <> None.
Proof.
  assert (Hrg : forall i, is_rgmii_example i = true -> mii_cfg_mode i <> None)
    by (intros i; destruct i; simpl; congruence).
  destruct (platform_check_accepts is_rgmii_example 3 PHY_INTERFACE_MODE_INTERNAL Hrg)
    as [_ H3].
  destruct (platform_check_accepts is_rgmii_example 0 PHY_INTERFACE_MODE_RMII Hrg)
    as [H0 _].
  destruct (H3 ltac:(lia)) as [A B].
  split; [exact A|]. split; [exact B|].
  apply H0. left. reflexivity.
Defined.

(** X23 for an RMII link on port 0 of the xRX200: the gigabit mode is
    dropped, 100 Mbit/s full duplex stays. *)
Lemma validate_example :
  fst (fst (gswip_phylink_validate
              (gsw_platform_check_if_support_xrx200 is_rgmii_example)
              port_modes_example 0 bitmap_full state_example priv_example))
      ETHTOOL_LINK_MODE_1000baseT_Full = false /\
  fst (fst (gswip_phylink_validate
              (gsw_platform_check_if_support_xrx200 is_rgmii_example)
              port_modes_example 0 bitmap_full state_example priv_example))
      ETHTOOL_LINK_MODE_100baseT_Full = true.
Proof.
  assert (Hpm : forall mask m, mask m = true -> port_modes_example mask m = true).
  { intros mask m H. unfold port_modes_example, phylink_set. rewrite H.
    rewrite !orb_true_r. reflexivity. }
  pose proof (validate_filters_modes
                (gsw_platform_check_if_support_xrx200 is_rgmii_example)
                port_modes_example 0 bitmap_full state_example priv_example Hpm) as H.
  cbv zeta in H.
  destruct H as (_ & _ & _ & _ & _ & _ & H).
  destruct (H eq_refl) as (_ & Hlow & Hgig).
  split.
  - destruct (Hgig ETHTOOL_LINK_MODE_1000baseT_Full ltac:(left; reflexivity))
      as [Hm _].
    rewrite (proj1 (Hm ltac:(right; right; left; reflexivity))). reflexivity.
  - rewrite (proj1 (Hlow ETHTOOL_LINK_MODE_100baseT_Full
                      ltac:(do 6 right; left; reflexivity))).
    reflexivity.
Defined.
